(** * The longitudinal planner of selfdrive/controls/lib/planner.py

    A shallow embedding of the planner module: the forward-collision checker
    [FCWChecker], the time-gap network [FDistanceNet], the MPC wrapper
    [LongitudinalMpc] and the orchestrator [Planner], followed by the
    properties of the planner's specification that can be settled on them.

    Conventions of the embedding.
    - A Python float is a real number or the IEEE not-a-number: [float].
      Rounding and infinities are idealised away, NaN is kept because the
      source tests for it ([np.isnan]) and because Python's [min]/[max] and
      its comparisons treat it specially.
    - Readings of the monotonic clock ([sec_since_boot]) are real numbers.
    - A method that can raise runs in the monad [M]: a state transformer
      whose state survives the exception, as a Python object does.
    - Code of the repository that is imported from other modules (the native
      MPC solver, the path planner, the speed smoother, the interpolation
      helpers, the parameter store) is a field of the class [Collaborators]. *)

From Stdlib Require Import Reals Lra Lia ZArith List String Bool Permutation Sorted.
From stdpp Require Import gmap strings.
From coqutil Require Import Datatypes.RecordSetters.
Import ListNotations.
Import TriangleBracketNotations.

Local Open Scope R_scope.

#[global] Instance Rlt_decision : RelDecision Rlt := Rlt_dec.
#[global] Instance Rle_decision : RelDecision Rle := Rle_dec.
#[global] Instance Rgt_decision : RelDecision Rgt := Rgt_dec.
#[global] Instance Rge_decision : RelDecision Rge := Rge_dec.
#[global] Instance Req_decision : EqDecision R := Req_dec_T.
#[global] Instance Rle_transitive : Transitive Rle := Rle_trans.

(** ** Python values and builtins *)

Inductive float : Type :=
| Num (r : R)
| NaN.

Declare Scope float_scope.
Delimit Scope float_scope with fl.
Bind Scope float_scope with float.
Coercion Num : R >-> float.

Definition lift1 (f : R -> R) (a : float) : float :=
  match a with
  | Num x => Num (f x)
  | NaN => NaN
  end.

Definition lift2 (f : R -> R -> R) (a b : float) : float :=
  match a, b with
  | Num x, Num y => Num (f x y)
  | _, _ => NaN
  end.

(** Every comparison with a NaN operand is false. *)
Definition fcmp (P : R -> R -> Prop) {dec : RelDecision P} (a b : float) : bool :=
  match a, b with
  | Num x, Num y => bool_decide (P x y)
  | _, _ => false
  end.

Definition fadd : float -> float -> float := lift2 Rplus.
Definition fsub : float -> float -> float := lift2 Rminus.
Definition fmul : float -> float -> float := lift2 Rmult.
Definition fneg : float -> float := lift1 Ropp.
Definition fabs : float -> float := lift1 Rabs.
Definition fexp : float -> float := lift1 exp.

(** [a / b] where the divisor is a non-zero literal or is guarded by the code
    (numpy semantics otherwise: no exception, the quotient by zero is not a
    number of this model). *)
Definition fdiv (a b : float) : float :=
  match a, b with
  | Num x, Num y => if decide (y = 0) then NaN else Num (x / y)
  | _, _ => NaN
  end.

Definition flt : float -> float -> bool := fcmp Rlt.
Definition fle : float -> float -> bool := fcmp Rle.
Definition fgt : float -> float -> bool := fcmp Rgt.
Definition fge : float -> float -> bool := fcmp Rge.

Definition isnan (a : float) : bool :=
  match a with
  | NaN => true
  | Num _ => false
  end.

Notation "a + b" := (fadd a b) : float_scope.
Notation "a - b" := (fsub a b) : float_scope.
Notation "a * b" := (fmul a b) : float_scope.
Notation "a / b" := (fdiv a b) : float_scope.
Notation "- a" := (fneg a) : float_scope.
Notation "a <? b" := (flt a b) (at level 70) : float_scope.
Notation "a <=? b" := (fle a b) (at level 70) : float_scope.
Notation "a >? b" := (fgt a b) (at level 70) : float_scope.
Notation "a >=? b" := (fge a b) (at level 70) : float_scope.

(** [x ** 2] *)
Definition fsqr (a : float) : float := (a * a)%fl.

Inductive exn : Type :=
| TypeError
| ValueError
| ZeroDivisionError
| IndexError
| AttributeError.

Inductive result (A : Type) : Type :=
| Ok (a : A)
| Raise (e : exn).
Arguments Ok {A} a.
Arguments Raise {A} e.

(** Python's float division [a / b]: raises on a zero divisor. *)
Definition py_div (a b : float) : result float :=
  match b with
  | Num y => if decide (y = 0) then Raise ZeroDivisionError else Ok (a / b)%fl
  | NaN => Ok NaN
  end.

(** [math.sqrt]: raises on a negative argument. *)
Definition math_sqrt (a : float) : result float :=
  match a with
  | Num x => if bool_decide (x < 0) then Raise ValueError else Ok (Num (sqrt x))
  | NaN => Ok NaN
  end.

(** [np.sqrt]: not a number on a negative argument, no exception. *)
Definition np_sqrt (a : float) : float :=
  match a with
  | Num x => if bool_decide (x < 0) then NaN else Num (sqrt x)
  | NaN => NaN
  end.

(** The builtin [max(a, b)] keeps its first argument unless the second is
    greater; [min(a, b)] unless the second is smaller. *)
Definition py_max (a b : float) : float := if (b >? a)%fl then b else a.
Definition py_min (a b : float) : float := if (b <? a)%fl then b else a.

(** [min] of a non-empty sequence, first element [x]. *)
Definition py_min_seq (x : float) (xs : list float) : float :=
  fold_left py_min xs x.

(** [np.minimum(a, b)] propagates NaN. *)
Definition np_minimum (a b : float) : float := lift2 Rmin a b.

(** [round(x, 2)] of Python 2: the nearest multiple of 0.01, halves away from
    zero. *)
Definition round_half_away (y : R) : Z :=
  if bool_decide (0 <= y) then Int_part (y + 1/2) else (- Int_part (- y + 1/2))%Z.

Definition py_round2 (a : float) : float :=
  lift1 (fun x => IZR (round_half_away (x * 100)) / 100) a.

(** ** The monad of methods: state and exceptions *)

Definition M (S A : Type) : Type := S -> result A * S.

Definition ret {S A} (a : A) : M S A := fun s => (Ok a, s).

Definition bind {S A B} (m : M S A) (k : A -> M S B) : M S B :=
  fun s =>
    match m s with
    | (Ok a, s') => k a s'
    | (Raise e, s') => (Raise e, s')
    end.

Definition raise {S A} (e : exn) : M S A := fun s => (Raise e, s).

Definition get {S} : M S S := fun s => (Ok s, s).

Definition modify {S} (f : S -> S) : M S unit := fun s => (Ok tt, f s).

Definition lift_result {S A} (r : result A) : M S A := fun s => (r, s).

(** [try: body except: handler] with a bare [except]. *)
Definition try_except {S A} (body handler : M S A) : M S A :=
  fun s =>
    match body s with
    | (Ok a, s') => (Ok a, s')
    | (Raise _, s') => handler s'
    end.

(** Run a method of a sub-object stored in a field of the state. *)
Definition zoom {S T A} (proj : S -> T) (upd : T -> S -> S) (m : M T A) : M S A :=
  fun s =>
    let '(r, t') := m (proj s) in (r, upd t' s).

Declare Scope monad_scope.
Delimit Scope monad_scope with monad.
Notation "x <- c1 ;; c2" := (bind c1 (fun x => c2))
  (at level 100, c1 at next level, right associativity) : monad_scope.
Notation "c1 ;;; c2" := (bind c1 (fun _ => c2))
  (at level 100, right associativity) : monad_scope.

Definition when {S} (b : bool) (m : M S unit) : M S unit :=
  if b then m else ret tt.

(** ** Messages and structures the planner reads

    One module per structure keeps the field names of the source. *)

(** [car.CarState], the fields the planner reads. *)
Module CarState.
Record t : Type := {
  vEgo : float;
  aEgo : float;
  steeringAngle : float;
  brakePressed : bool;
  leftBlinker : bool;
  rightBlinker : bool;
  readdistancelines : Z
}.
End CarState.

(** [car.CarParams]. *)
Module CarParams.
Record t : Type := {
  steerRatio : float;
  wheelbase : float;
  startAccel : float
}.
End CarParams.

(** [log.Live20Data.LeadData]. *)
Module Lead.
Record t : Type := {
  status : bool;
  dRel : float;
  vLead : float;
  vLeadK : float;
  aLeadK : float;
  aLeadTau : float;
  vRel : float;
  yRel : float;
  vLat : float;
  fcw : float
}.
End Lead.

Module Live20Data.
Record t : Type := {
  leadOne : Lead.t;
  leadTwo : Lead.t;
  radarErrors : list string
}.

(** [log.Live20Data.new_message()]: every field at its default. *)
Definition new_message : t :=
  let lead :=
    {| Lead.status := false; Lead.dRel := 0; Lead.vLead := 0; Lead.vLeadK := 0;
       Lead.aLeadK := 0; Lead.aLeadTau := 0; Lead.vRel := 0; Lead.yRel := 0;
       Lead.vLat := 0; Lead.fcw := 0 |} in
  {| leadOne := lead; leadTwo := lead; radarErrors := [] |}.
End Live20Data.

Module LiveMapData.
Record t : Type := {
  mapValid : bool;
  speedLimitValid : bool;
  speedLimit : float;
  curvatureValid : bool;
  curvature : float;
  distToTurn : float
}.
End LiveMapData.

Module LatControl.
Record t : Type := {
  anglelater : float
}.
End LatControl.

Module GpsPlannerPlan.
Record t : Type := {
  valid : bool;
  poly : list float
}.
End GpsPlannerPlan.

Inductive LongCtrlState : Type :=
| off
| pid
| stopping
| starting.

#[global] Instance LongCtrlState_eq_dec : EqDecision LongCtrlState.
Proof. solve_decision. Defined.

(** The structures shared with the native solver: [state_t] and [log_t].
    A C array [double x[21]] is a function on its indices. *)
Definition carray : Type := nat -> float.

Definition N_MPC : nat := 21.

(** [list(a)] *)
Definition carray_list (a : carray) : list float := map a (seq 0 N_MPC).

(** [min(list(a)[:n])] for [1 <= n <= 21]; the sequence is never empty. *)
Definition carray_min_prefix (n : nat) (a : carray) : float :=
  py_min_seq (a 0%nat) (map a (seq 1 (n - 1))).

(** [min(list(a))] *)
Definition carray_min (a : carray) : float := carray_min_prefix N_MPC a.

Module state_t.
Record t : Type := {
  x_ego : float;
  v_ego : float;
  a_ego : float;
  x_l : float;
  v_l : float
}.
End state_t.

Module log_t.
Record t : Type := {
  x_ego : carray;
  v_ego : carray;
  a_ego : carray;
  x_l : carray;
  v_l : carray;
  cost : float
}.
End log_t.

(** The [liveLongitudinalMpc] message of [send_mpc_solution]. *)
Module LiveLongitudinalMpc.
Record t : Type := {
  xEgo : list float;
  vEgo : list float;
  aEgo : list float;
  xLead : list float;
  vLead : list float;
  cost : float;
  aLeadTau : float;
  qpIterations : Z;
  mpcId : Z;
  calculationTime : Z
}.
End LiveLongitudinalMpc.

(** The attributes of [PathPlanner] the planner reads and writes. *)
Module PathPlanner.
Record t : Type := {
  d_poly : list float;
  p_poly : list float;
  c_poly : list float;
  l_poly : list float;
  r_poly : list float;
  l_prob : float;
  r_prob : float;
  c_prob : float;
  lane_width : float
}.
End PathPlanner.

(** ** Collaborators

    What [planner.py] imports from the rest of the repository and from the
    native solver.  Nothing is assumed about them. *)
Class Collaborators : Type := {
  (* libmpc_py: the solver behind [ffi]; its state is opaque *)
  solver : Type;
  get_libmpc : Z -> solver;
  libmpc_init : float -> float -> float -> float -> solver -> solver;
  libmpc_init_with_simulation :
    float -> float -> float -> float -> float -> solver -> solver;
  libmpc_run_mpc :
    state_t.t -> log_t.t -> float -> float -> float -> solver ->
    solver * state_t.t * log_t.t * Z;
  (* selfdrive.controls.lib.drive_helpers.MPC_COST_LONG *)
  MPC_COST_LONG_TTC : float;
  MPC_COST_LONG_DISTANCE : float;
  MPC_COST_LONG_ACCELERATION : float;
  MPC_COST_LONG_JERK : float;
  (* selfdrive.controls.lib.radar_helpers, longcontrol, config *)
  _LEAD_ACCEL_TAU : float;
  MIN_CAN_SPEED : float;
  MPH_TO_MS : float;
  KPH_TO_MS : float;
  DEG_TO_RAD : float;
  (* common.numpy_fast.interp and numpy.interp *)
  interp : float -> list float -> list float -> float;
  np_interp : float -> list float -> list float -> float;
  (* selfdrive.controls.lib.speed_smoother *)
  speed_smoother :
    float -> float -> float -> float -> float -> float -> float -> float ->
    float * float;
  (* selfdrive.controls.lib.pathplanner: PathPlanner.update(v_ego, md, LaC) *)
  ModelEvent : Type;
  ModelEvent_logMonoTime : ModelEvent -> Z;
  LatController : Type;
  VehicleModel : Type;
  PP_init : PathPlanner.t;
  PP_update : float -> ModelEvent -> LatController -> PathPlanner.t -> PathPlanner.t;
  (* LaC.mpc_solution[0].cost and LaC.mpc_nans *)
  LaC_cost : LatController -> float;
  LaC_mpc_nans : LatController -> bool;
  (* common.params.Params.get and the builtin float() on its strings *)
  params_get : string -> option string;
  float_of_str : string -> option float
}.


(** ** Module constants *)

(* Max lateral acceleration, used to calculate how much to slow down in turns *)
Definition A_Y_MAX : float := 1.85.

Definition NO_CURVATURE_SPEED `{Collaborators} : float := (200 * MPH_TO_MS)%fl.

Definition _DT : R := 0.01.
Definition _DT_MPC : R := 0.2.
Definition AWARENESS_DECEL : float := -0.2.

Definition _A_CRUISE_MIN_V : list float := [Num (-1.0); Num (-0.8); Num (-0.67); Num (-0.5); Num (-0.30)].
Definition _A_CRUISE_MIN_BP : list float := [Num 0; Num 5; Num 10; Num 20; Num 40].
Definition _A_CRUISE_MAX_V : list float := [Num 1.1; Num 1.1; Num 0.8; Num 0.5; Num 0.3].
Definition _A_CRUISE_MAX_V_FOLLOWING : list float := [Num 1.6; Num 1.6; Num 1.2; Num 0.7; Num 0.3].
Definition _A_CRUISE_MAX_BP : list float := [Num 0; Num 5; Num 10; Num 20; Num 40].

Definition _A_TOTAL_MAX_V : list float := [Num 3.0; Num 3.5; Num 4.0].
Definition _A_TOTAL_MAX_BP : list float := [Num 0; Num 25; Num 40].

Definition _FCW_A_ACT_V : list float := [Num (-3); Num (-2)].
Definition _FCW_A_ACT_BP : list float := [Num 0; Num 30].

(** ** calc_cruise_accel_limits, limit_accel_in_turns *)

Section AccelLimits.
Context `{Collaborators}.

(** The two rows of the [np.vstack], as the pair [(a_cruise_min, a_cruise_max)]. *)
Definition calc_cruise_accel_limits (v_ego : float) (following : bool) : float * float :=
  let a_cruise_min := interp v_ego _A_CRUISE_MIN_BP _A_CRUISE_MIN_V in
  let a_cruise_max :=
    if following
    then interp v_ego _A_CRUISE_MAX_BP _A_CRUISE_MAX_V_FOLLOWING
    else interp v_ego _A_CRUISE_MAX_BP _A_CRUISE_MAX_V in
  (a_cruise_min, a_cruise_max).

(** [a_target] is the pair [(a_target[0], a_target[1])]. *)
Definition limit_accel_in_turns (v_ego angle_steers : float) (a_target : float * float)
  (CP : CarParams.t) (angle_later : float) : result (float * float) :=
  let a_total_max := interp v_ego _A_TOTAL_MAX_BP _A_TOTAL_MAX_V in
  let den := (CarParams.steerRatio CP * CarParams.wheelbase CP)%fl in
  match py_div (fsqr v_ego * fabs angle_steers * DEG_TO_RAD)%fl den with
  | Raise e => Raise e
  | Ok a_y =>
    match py_div (fsqr v_ego * fabs angle_later * DEG_TO_RAD)%fl den with
    | Raise e => Raise e
    | Ok a_y2 =>
      let a_x_allowed := (a_total_max - a_y)%fl in
      let a_x_allowed2 := (a_total_max - a_y2)%fl in
      let a1 := py_min_seq (snd a_target) [a_x_allowed; a_x_allowed2] in
      let a0 := py_min (fst a_target) a1 in
      Ok (a0, a1)
    end
  end.

End AccelLimits.

(** ** FCWChecker *)

Module FCWChecker.

Record t : Type := {
  last_fcw_a : float;
  v_lead_max : float;
  lead_seen_t : R;
  last_fcw_time : R;
  last_min_a : float;
  (* defaultdict(lambda: 0) *)
  counters : gmap string R
}.

Definition reset_lead (cur_time : R) (self : t) : t :=
  {| last_fcw_a := 0.0;
     v_lead_max := 0.0;
     lead_seen_t := cur_time;
     last_fcw_time := 0.0;
     last_min_a := 0.0;
     counters := ∅ |}.

(** [__init__]: every attribute is set by [reset_lead(0.0)]. *)
Definition init : t :=
  {| last_fcw_a := 0.0;
     v_lead_max := 0.0;
     lead_seen_t := 0.0;
     last_fcw_time := 0.0;
     last_min_a := 0.0;
     counters := ∅ |}.

Definition calc_ttc (v_ego a_ego x_lead v_lead a_lead : float) : float :=
  let max_ttc : float := 5.0 in
  let v_rel := (v_ego - v_lead)%fl in
  let a_rel := (a_ego - a_lead)%fl in
  (* assuming that closing gap ARel comes from lead vehicle decel,
     then limit ARel so that v_lead will get to zero in no sooner than t_decel. *)
  let t_decel : float := 2 in
  let a_rel := np_minimum a_rel (v_lead / t_decel)%fl in
  (* delta of the quadratic equation to solve for ttc *)
  let delta := (fsqr v_rel + 2 * x_lead * a_rel)%fl in
  (* assign an arbitrary high ttc value if there is no solution to ttc *)
  if (delta <? 0.1)%fl || (np_sqrt delta + v_rel <? 0.1)%fl
  then max_ttc
  else np_minimum (2 * x_lead / (np_sqrt delta + v_rel))%fl max_ttc.

(** [self.counters[k]] read on the defaultdict. *)
Definition counter (c : gmap string R) (k : string) : R := default 0 (c !! k).

Definition fcw_allowed (c : gmap string R) : bool :=
  bool_decide (map_Forall (fun _ v => v >= 10) c).

Section Update.
Context `{Collaborators}.

(** [update], lines 125-133: the time to collision and the counters.
    [v_lead_max] is [self.v_lead_max], already updated by line 122. *)
Definition update_counters (v_ego a_ego x_lead v_lead a_lead y_lead vlat_lead : float)
  (blinkers : bool) (v_lead_max : float) (c : gmap string R) : gmap string R :=
  let ttc := calc_ttc v_ego a_ego x_lead v_lead a_lead in
  let c := <["v_ego"%string := if (v_ego >? 5.0)%fl then counter c "v_ego" + 1 else 0]> c in
  let c := <["ttc"%string := if (ttc <? 2.5)%fl then counter c "ttc" + 1 else 0]> c in
  let c := <["v_lead_max"%string :=
               if (v_lead_max >? 2.5)%fl then counter c "v_lead_max" + 1 else 0]> c in
  let c := <["v_ego_lead"%string :=
               if (v_ego >? v_lead)%fl then counter c "v_ego_lead" + 1 else 0]> c in
  let c := <["lead_seen"%string := counter c "lead_seen" + 0.33]> c in
  let c := <["y_lead"%string :=
               if (fabs y_lead <? 1.0)%fl then counter c "y_lead" + 1 else 0]> c in
  let c := <["vlat_lead"%string :=
               if (fabs vlat_lead <? 0.4)%fl then counter c "vlat_lead" + 1 else 0]> c in
  let c := <["blinkers"%string :=
               if negb blinkers then counter c "blinkers" + 10.0 / (20 * 3.0) else 0]> c in
  c.

Definition update (mpc_solution : log_t.t) (cur_time : R)
  (v_ego a_ego x_lead v_lead a_lead y_lead vlat_lead fcw_lead : float)
  (blinkers : bool) (self : t) : bool * t :=
  let mpc_solution_a := log_t.a_ego mpc_solution in
  let self := self <| last_min_a := carray_min mpc_solution_a |> in
  let self := self <| v_lead_max := py_max (v_lead_max self) v_lead |> in
  if (fcw_lead >? 0.99)%fl then
    let self :=
      self <| counters :=
        update_counters v_ego a_ego x_lead v_lead a_lead y_lead vlat_lead blinkers
          (v_lead_max self) (counters self) |> in
    let a_thr := interp v_lead _FCW_A_ACT_BP _FCW_A_ACT_V in
    let a_delta := (carray_min_prefix 15 mpc_solution_a - py_min 0.0 a_ego)%fl in
    if ((last_min_a self <? -3.0)%fl || (a_delta <? a_thr)%fl)
       && fcw_allowed (counters self)
       && bool_decide (last_fcw_time self + 5.0 < cur_time)
    then (true, self <| last_fcw_time := cur_time |> <| last_fcw_a := last_min_a self |>)
    else (false, self)
  else (false, self).

(** The arguments of one call of [update]. *)
Record Args : Type := {
  arg_mpc_solution : log_t.t;
  arg_cur_time : R;
  arg_v_ego : float;
  arg_a_ego : float;
  arg_x_lead : float;
  arg_v_lead : float;
  arg_a_lead : float;
  arg_y_lead : float;
  arg_vlat_lead : float;
  arg_fcw_lead : float;
  arg_blinkers : bool
}.

Definition call (a : Args) (self : t) : bool * t :=
  update (arg_mpc_solution a) (arg_cur_time a) (arg_v_ego a) (arg_a_ego a)
    (arg_x_lead a) (arg_v_lead a) (arg_a_lead a) (arg_y_lead a) (arg_vlat_lead a)
    (arg_fcw_lead a) (arg_blinkers a) self.

(** What a sequence of calls on one checker returns, call by call. *)
Fixpoint run (calls : list Args) (self : t) : list bool :=
  match calls with
  | [] => []
  | a :: rest => fst (call a self) :: run rest (snd (call a self))
  end.

(** The deceleration condition of line 139:
    [self.last_min_a < -3.0 or a_delta < a_thr]. *)
Definition decel_condition (a : Args) : bool :=
  let mpc_solution_a := log_t.a_ego (arg_mpc_solution a) in
  (carray_min mpc_solution_a <? -3.0)%fl
  || (carray_min_prefix 15 mpc_solution_a - py_min 0.0 (arg_a_ego a)
      <? interp (arg_v_lead a) _FCW_A_ACT_BP _FCW_A_ACT_V)%fl.

End Update.
End FCWChecker.

(** ** FDistanceNet: the time-gap network *)

Module FDistanceNet.

Inductive remapType : Type :=
| dist
| vel
| rel_vel
| rvs_dist
| rvs_vel
| rvs_rel_vel.

(* accurate trained values *)
Definition synaptic_weights : R * R := (3.0327508, -2.07414288).

(** The lists [x] and [y] selected by [remapType]. *)
Definition remap_x (ty : remapType) : R * R :=
  match ty with
  | dist => (1.0, 2.7)
  | vel => (0, 53.6448)
  | rel_vel => (-8.9408, 3.12928)
  | rvs_dist => (0, 1.0)
  | rvs_vel => (0, 1.0)
  | rvs_rel_vel => (0, 1.0)
  end.

Definition remap_y (ty : remapType) : R * R :=
  match ty with
  | dist => (0, 1.0)
  | vel => (0, 1.0)
  | rel_vel => (0, 1.0)
  | rvs_dist => (0.67, 2.7)
  | rvs_vel => (0, 53.6448)
  | rvs_rel_vel => (-8.9408, 3.12928)
  end.

Definition remap_range (value : float) (ty : remapType) : float :=
  let x := remap_x ty in
  let y := remap_y ty in
  let remapped :=
    ((value - Num (fst x)) / (Num (snd x) - Num (fst x))
     * (Num (snd y) - Num (fst y)) + Num (fst y))%fl in
  (* limit range output between min and max outputs *)
  py_min (py_max remapped (Num (fst y))) (Num (snd y)).

Definition sigmoid (x : float) : float := (1 / (1 + fexp (- x)))%fl.

Definition sigmoid_derivative (x : float) : float := (x * (1 - x))%fl.

(** [inputs] is the array [[velocity, rel_vel]]; the [try] of the source
    guards a numpy expression that does not raise. *)
Definition think (inputs : float * float) : float :=
  let i0 := remap_range (fst inputs) vel in
  let i1 := remap_range (snd inputs) rel_vel in
  let output :=
    sigmoid (i0 * Num (fst synaptic_weights) + i1 * Num (snd synaptic_weights))%fl in
  (* reverse remap back to seconds *)
  remap_range output rvs_dist.

End FDistanceNet.

(** ** LongitudinalMpc *)

Module LongitudinalMpc.
Section WithCollaborators.
Context `{Collaborators}.

Record t : Type := {
  (* messages pushed on live_longitudinal_mpc, oldest first *)
  live_longitudinal_mpc : list LiveLongitudinalMpc.t;
  (* cloudlog.warning records: (mpc_id, backwards, crashing, nans) *)
  cloudlog : list (Z * bool * bool * bool);
  mpc_id : Z;
  libmpc : solver;
  mpc_solution : log_t.t;
  cur_state : state_t.t;
  a_lead_tau : float;
  v_mpc : float;
  v_mpc_future : float;
  a_mpc : float;
  v_cruise : float;
  prev_lead_status : bool;
  prev_lead_x : float;
  new_lead : bool;
  lastTR : Z;
  last_cloudlog_t : R;
  last_cost : float;
  rel_vel : float
}.

(** [ffi.new] zero-initialises. *)
Definition zero_array : carray := fun _ => Num 0.

Definition new_log_t : log_t.t :=
  {| log_t.x_ego := zero_array; log_t.v_ego := zero_array; log_t.a_ego := zero_array;
     log_t.x_l := zero_array; log_t.v_l := zero_array; log_t.cost := 0 |}.

Definition new_state_t : state_t.t :=
  {| state_t.x_ego := 0; state_t.v_ego := 0; state_t.a_ego := 0;
     state_t.x_l := 0; state_t.v_l := 0 |}.

(** [__init__], with [setup_mpc] inlined. *)
Definition init (mpc_id : Z) : t :=
  {| live_longitudinal_mpc := [];
     cloudlog := [];
     mpc_id := mpc_id;
     libmpc := libmpc_init MPC_COST_LONG_TTC MPC_COST_LONG_DISTANCE
                 MPC_COST_LONG_ACCELERATION MPC_COST_LONG_JERK (get_libmpc mpc_id);
     mpc_solution := new_log_t;
     cur_state := new_state_t;
     a_lead_tau := _LEAD_ACCEL_TAU;
     v_mpc := 0.0;
     v_mpc_future := 0.0;
     a_mpc := 0.0;
     v_cruise := 0.0;
     prev_lead_status := false;
     prev_lead_x := 0.0;
     new_lead := false;
     lastTR := 0;
     last_cloudlog_t := 0.0;
     last_cost := 0;
     rel_vel := 0 |}.

Definition send_mpc_solution (qp_iterations calculation_time : Z) (self : t) : t :=
  let qp_iterations := Z.max 0 qp_iterations in
  let s := mpc_solution self in
  let dat :=
    {| LiveLongitudinalMpc.xEgo := carray_list (log_t.x_ego s);
       LiveLongitudinalMpc.vEgo := carray_list (log_t.v_ego s);
       LiveLongitudinalMpc.aEgo := carray_list (log_t.a_ego s);
       LiveLongitudinalMpc.xLead := carray_list (log_t.x_l s);
       LiveLongitudinalMpc.vLead := carray_list (log_t.v_l s);
       LiveLongitudinalMpc.cost := log_t.cost s;
       LiveLongitudinalMpc.aLeadTau := a_lead_tau self;
       LiveLongitudinalMpc.qpIterations := qp_iterations;
       LiveLongitudinalMpc.mpcId := mpc_id self;
       LiveLongitudinalMpc.calculationTime := calculation_time |} in
  self <| live_longitudinal_mpc := live_longitudinal_mpc self ++ [dat] |>.

Definition set_cur_state (v a : float) (self : t) : t :=
  self <| cur_state := (cur_state self) <| state_t.v_ego := v |> <| state_t.a_ego := a |> |>.

Definition get_relative_velocity (l : float) (self : t) : t :=
  self <| rel_vel := l |>.

Definition generateTR (velocity : float) (self : t) : float :=
  py_round2 (FDistanceNet.think (velocity, rel_vel self)).

Definition generate_cost (distance : float) : float :=
  let x := [Num 0.9; Num 1.8; Num 2.7] in
  let y := [Num 1.0; Num 0.1; Num 0.05] in
  py_round2 (np_interp distance x y).

(** [int(x)] on a real: truncation toward zero. *)
Definition py_int (r : R) : Z :=
  if bool_decide (0 <= r) then Int_part r else (- Int_part (- r))%Z.

Local Open Scope monad_scope.

(** [update], lines 261-280: the branch of a present lead with status.
    Returns the local [a_lead]. *)
Definition update_lead (lead : Lead.t) : M t float :=
  let x_lead := py_max 0 (Lead.dRel lead - 1)%fl in
  let v_lead := py_max 0.0 (Lead.vLead lead) in
  let a_lead := Lead.aLeadK lead in
  let stationary := (v_lead <? 0.1)%fl || (- a_lead / 2.0 >? v_lead)%fl in
  let v_lead : float := if stationary then 0.0 else v_lead in
  let a_lead : float := if stationary then 0.0 else a_lead in
  q <- lift_result (py_div (fsqr a_lead * PI)%fl (2 * fsqr (v_lead + 0.01))%fl) ;;
  modify (fun self => self <| a_lead_tau := py_max (Lead.aLeadTau lead) q |>) ;;;
  modify (fun self => self <| new_lead := false |>) ;;;
  self <- get ;;
  when (negb (prev_lead_status self) || (fabs (x_lead - prev_lead_x self) >? 2.5)%fl)
    (modify (fun self =>
       self <| libmpc := libmpc_init_with_simulation (v_mpc self) x_lead v_lead a_lead
                           (a_lead_tau self) (libmpc self) |>
            <| new_lead := true |>)) ;;;
  modify (fun self =>
    self <| prev_lead_status := true |>
         <| prev_lead_x := x_lead |>
         <| cur_state := (cur_state self) <| state_t.x_l := x_lead |>
                                          <| state_t.v_l := v_lead |> |>) ;;;
  ret a_lead.

(** [update], lines 281-287: no lead.  Returns the local [a_lead]. *)
Definition update_no_lead (CS : CarState.t) : M t float :=
  modify (fun self =>
    self <| prev_lead_status := false |>
         (* Fake a fast lead car, so mpc keeps running *)
         <| cur_state := (cur_state self) <| state_t.x_l := Num 50.0 |>
                                          <| state_t.v_l := (CarState.vEgo CS + 10.0)%fl |> |>
         <| a_lead_tau := _LEAD_ACCEL_TAU |>) ;;;
  ret (Num 0.0).

(** [update], lines 291-319: the time gap [TR] and the cost re-tuning. *)
Definition update_TR (CS : CarState.t) : M t float :=
  if (CarState.vEgo CS <? 2.0)%fl then
    ret (Num 1.8)
  else
    let rdl := CarState.readdistancelines CS in
    if (rdl =? 1)%Z then
      self <- get ;;
      if (rdl =? lastTR self)%Z then ret (Num 0.9)
      else
        modify (fun self =>
          self <| libmpc := libmpc_init MPC_COST_LONG_TTC 1.0 MPC_COST_LONG_ACCELERATION
                              MPC_COST_LONG_JERK (libmpc self) |>
               <| lastTR := rdl |>) ;;;
        ret (Num 0.9)
    else if (rdl =? 2)%Z then
      self <- get ;;
      let generatedTR := generateTR (CarState.vEgo CS) self in
      when (fabs (generate_cost generatedTR - last_cost self) >? 0.2)%fl
        (modify (fun self =>
           self <| libmpc := libmpc_init MPC_COST_LONG_TTC (generate_cost generatedTR)
                               MPC_COST_LONG_ACCELERATION MPC_COST_LONG_JERK (libmpc self) |>
                <| last_cost := generate_cost generatedTR |>)) ;;;
      ret generatedTR
    else if (rdl =? 3)%Z then
      self <- get ;;
      if (rdl =? lastTR self)%Z then ret (Num 2.7)
      else
        modify (fun self =>
          self <| libmpc := libmpc_init MPC_COST_LONG_TTC 0.05 MPC_COST_LONG_ACCELERATION
                              MPC_COST_LONG_JERK (libmpc self) |>
               <| lastTR := rdl |>) ;;;
        ret (Num 2.7)
    else
      ret (Num 1.8).

(** [update], lines 330-348: reset if NaN or goes through lead car. *)
Definition update_reset (CS : CarState.t) (t_now : R) : M t unit :=
  self <- get ;;
  let sol := mpc_solution self in
  let dls : carray := fun i => (log_t.x_l sol i - log_t.x_ego sol i)%fl in
  let crashing := (carray_min dls <? -50.0)%fl in
  let nans := existsb isnan (carray_list (log_t.v_ego sol)) in
  let backwards := (carray_min (log_t.v_ego sol) <? -0.01)%fl in
  when (((backwards || crashing) && prev_lead_status self) || nans)
    (when (bool_decide (t_now > last_cloudlog_t self + 5.0))
       (modify (fun self =>
          self <| last_cloudlog_t := t_now |>
               <| cloudlog := cloudlog self ++ [(mpc_id self, backwards, crashing, nans)] |>)) ;;;
     modify (fun self =>
       self <| libmpc := libmpc_init MPC_COST_LONG_TTC MPC_COST_LONG_DISTANCE
                           MPC_COST_LONG_ACCELERATION MPC_COST_LONG_JERK (libmpc self) |>
            <| cur_state := (cur_state self) <| state_t.v_ego := CarState.vEgo CS |>
                                             <| state_t.a_ego := Num 0.0 |> |>
            <| v_mpc := CarState.vEgo CS |>
            <| a_mpc := CarState.aEgo CS |>
            <| prev_lead_status := false |>)).

(** [lead is not None and lead.status]: the lead the call works with. *)
Definition present (lead : option Lead.t) : option Lead.t :=
  match lead with
  | Some l => if Lead.status l then Some l else None
  | None => None
  end.

(** The test of line 273 on the wrapper as the call finds it:
    [not self.prev_lead_status or abs(x_lead - self.prev_lead_x) > 2.5]. *)
Definition reseeds (self : t) (lead : Lead.t) : bool :=
  negb (prev_lead_status self)
  || (fabs (py_max 0 (Lead.dRel lead - 1)%fl - prev_lead_x self) >? 2.5)%fl.

(** [update(CS, lead, v_cruise_setpoint)].  [t_now] and [t_done] are the two
    readings of [sec_since_boot()], before and after the solver runs. *)
Definition update (CS : CarState.t) (lead : option Lead.t) (v_cruise_setpoint : float)
  (t_now t_done : R) : M t unit :=
  (* Setup current mpc state *)
  modify (fun self =>
    self <| cur_state := (cur_state self) <| state_t.x_ego := Num 0.0 |> |>) ;;;
  a_lead <-
    match lead with
    | Some l => if Lead.status l then update_lead l else update_no_lead CS
    | None => update_no_lead CS
    end ;;
  (* Calculate mpc *)
  TR <- update_TR CS ;;
  self <- get ;;
  let '(sv, cs, sol, n_its) :=
    libmpc_run_mpc (cur_state self) (mpc_solution self) (a_lead_tau self) a_lead TR
      (libmpc self) in
  modify (fun self => self <| libmpc := sv |> <| cur_state := cs |> <| mpc_solution := sol |>) ;;;
  let duration := py_int ((t_done - t_now) * 1e9) in
  modify (send_mpc_solution n_its duration) ;;;
  (* Get solution. MPC timestep is 0.2 s, so interpolation to 0.05 s is needed *)
  modify (fun self =>
    self <| v_mpc := log_t.v_ego (mpc_solution self) 1%nat |>
         <| a_mpc := log_t.a_ego (mpc_solution self) 1%nat |>
         <| v_mpc_future := log_t.v_ego (mpc_solution self) 10%nat |>) ;;;
  update_reset CS t_now.

End WithCollaborators.
End LongitudinalMpc.

(** ** Planner *)

(** Python 2 iterates a dict in the order of its hash table, which the
    language leaves unspecified: [dict_items] maps the items in insertion
    order to the items in iteration order. *)
Class DictOrder : Type := {
  dict_items : list (string * float) -> list (string * float);
  dict_items_perm : forall l, Permutation (dict_items l) l
}.

(** [min(d, key=d.get)] over the items of [d] in iteration order: the key of
    the first item no later item is smaller than; ValueError on an empty
    sequence. *)
Definition py_min_key (items : list (string * float)) : result string :=
  match items with
  | [] => Raise ValueError
  | it :: rest =>
    Ok (fst (fold_left (fun best it' => if (snd it' <? snd best)%fl then it' else best)
               rest it))
  end.

(** [xs[i]] *)
Definition py_index (xs : list float) (i : nat) : result float :=
  match nth_error xs i with
  | Some x => Ok x
  | None => Raise IndexError
  end.

(** The event read from the live20 socket. *)
Module Live20Event.
Record t : Type := {
  logMonoTime : Z;
  live20 : Live20Data.t
}.
End Live20Event.

(** [LoC], the attribute the planner reads. *)
Module LongControl.
Record t : Type := {
  long_control_state : LongCtrlState
}.
End LongControl.

(** What [create_event(name, types)] of drive_helpers is given. *)
Inductive EventType : Type :=
| NO_ENTRY
| SOFT_DISABLE
| IMMEDIATE_DISABLE.

Definition create_event (name : string) (types : list EventType) : string * list EventType :=
  (name, types).

(** The [plan] message. *)
Module Plan.
Record t : Type := {
  events : list (string * list EventType);
  mdMonoTime : Z;
  l20MonoTime : Z;
  lateralValid : bool;
  dPoly : list float;
  laneWidth : float;
  longitudinalValid : bool;
  vCruise : float;
  aCruise : float;
  vTarget : float;
  aTarget : float;
  vTargetFuture : float;
  hasLead : bool;
  hasLeftLane : bool;
  hasrightLaneDepart : bool;
  hasRightLane : bool;
  hasleftLaneDepart : bool;
  longitudinalPlanSource : string;
  gpsPlannerActive : bool;
  vCurvature : float;
  decelForTurn : bool;
  mapValid : bool;
  fcw : bool
}.
End Plan.

Module Planner.
Section WithCollaborators.
Context `{Collaborators} `{DictOrder}.

(** One message returned by [self.poller.poll(0)], by the socket it came from. *)
Inductive Received : Type :=
| from_model (md : ModelEvent)
| from_live20 (l20 : Live20Event.t)
| from_gps_planner_plan (plan : GpsPlannerPlan.t)
| from_live_map_data (liveMapData : LiveMapData.t)
| from_lat_Control (latControl : LatControl.t).

(** What one call of [update] reads from its environment: the clock and the
    poller. *)
Record Tick : Type := {
  cur_time : R;
  polled : list Received;
  (* sec_since_boot() before and after each solver run *)
  mpc1_t : R;
  mpc1_t_done : R;
  mpc2_t : R;
  mpc2_t_done : R
}.

Record t : Type := {
  (* messages sent on self.plan, oldest first *)
  plan : list Plan.t;
  (* cloudlog.info("FCW triggered %s", counters) *)
  cloudlog : list (gmap string R);
  CP : CarParams.t;
  last_md_ts : Z;
  last_l20_ts : Z;
  last_model : R;
  last_l20 : R;
  model_dead : bool;
  radar_dead : bool;
  radar_errors : list string;
  PP : PathPlanner.t;
  mpc1 : LongitudinalMpc.t;
  mpc2 : LongitudinalMpc.t;
  v_acc_start : float;
  a_acc_start : float;
  acc_start_time : R;
  v_acc : float;
  v_acc_sol : float;
  v_acc_future : float;
  a_acc : float;
  a_acc_sol : float;
  v_cruise : float;
  a_cruise : float;
  lead_1 : option Lead.t;
  lead_2 : option Lead.t;
  longitudinalPlanSource : string;
  fcw : bool;
  fcw_checker : FCWChecker.t;
  fcw_enabled : bool;
  last_gps_planner_plan : option GpsPlannerPlan.t;
  gps_planner_active : bool;
  last_live_map_data : option LiveMapData.t;
  lastlat_Control : option LatControl.t;
  perception_state : Live20Data.t;
  v_curvature : float;
  v_speedlimit : float;
  decel_for_turn : bool;
  map_valid : bool
}.

(** [__init__(CP, fcw_enabled)]; [now] is the reading of [sec_since_boot()]. *)
Definition init (CP : CarParams.t) (fcw_enabled : bool) (now : R) : t :=
  {| plan := [];
     cloudlog := [];
     CP := CP;
     last_md_ts := 0;
     last_l20_ts := 0;
     last_model := 0;
     last_l20 := 0;
     model_dead := true;
     radar_dead := true;
     radar_errors := [];
     PP := PP_init;
     mpc1 := LongitudinalMpc.init 1;
     mpc2 := LongitudinalMpc.init 2;
     v_acc_start := 0.0;
     a_acc_start := 0.0;
     acc_start_time := now;
     v_acc := 0.0;
     v_acc_sol := 0.0;
     v_acc_future := 0.0;
     a_acc := 0.0;
     a_acc_sol := 0.0;
     v_cruise := 0.0;
     a_cruise := 0.0;
     lead_1 := None;
     lead_2 := None;
     longitudinalPlanSource := "cruise";
     fcw := false;
     fcw_checker := FCWChecker.init;
     fcw_enabled := fcw_enabled;
     last_gps_planner_plan := None;
     gps_planner_active := false;
     last_live_map_data := None;
     lastlat_Control := None;
     perception_state := Live20Data.new_message;
     v_curvature := NO_CURVATURE_SPEED;
     v_speedlimit := NO_CURVATURE_SPEED;
     decel_for_turn := false;
     map_valid := false |}.

Local Open Scope monad_scope.

(** The dict [solutions] in insertion order. *)
Definition solutions (self : t) : list (string * float) :=
  [("cruise"%string, v_cruise self)]
  ++ (if LongitudinalMpc.prev_lead_status (mpc1 self)
      then [("mpc1"%string, LongitudinalMpc.v_mpc (mpc1 self))] else [])
  ++ (if LongitudinalMpc.prev_lead_status (mpc2 self)
      then [("mpc2"%string, LongitudinalMpc.v_mpc (mpc2 self))] else []).

Definition choose_solution (v_cruise_setpoint : float) (enabled : bool) : M t unit :=
  when enabled
    (self <- get ;;
     slowest <- lift_result (py_min_key (dict_items (solutions self))) ;;
     modify (fun self => self <| longitudinalPlanSource := slowest |>) ;;;
     (* Choose lowest of MPC and cruise *)
     if String.eqb slowest "mpc1" then
       modify (fun self =>
         self <| v_acc := LongitudinalMpc.v_mpc (mpc1 self) |>
              <| a_acc := LongitudinalMpc.a_mpc (mpc1 self) |>)
     else if String.eqb slowest "mpc2" then
       modify (fun self =>
         self <| v_acc := LongitudinalMpc.v_mpc (mpc2 self) |>
              <| a_acc := LongitudinalMpc.a_mpc (mpc2 self) |>)
     else if String.eqb slowest "cruise" then
       modify (fun self =>
         self <| v_acc := v_cruise self |>
              <| a_acc := a_cruise self |>)
     else ret tt) ;;;
  modify (fun self =>
    self <| v_acc_future :=
      py_min_seq (LongitudinalMpc.v_mpc_future (mpc1 self))
        [LongitudinalMpc.v_mpc_future (mpc2 self); v_cruise_setpoint] |>).

(** An argument of a call: a float or one of the planner's MPC wrappers. *)
Inductive mpc_ref : Type :=
| self_mpc1
| self_mpc2.

Inductive pyarg : Type :=
| arg_float (x : float)
| arg_instance (r : mpc_ref).

Definition on_mpc (r : mpc_ref) (f : LongitudinalMpc.t -> LongitudinalMpc.t) (self : t) : t :=
  match r with
  | self_mpc1 => self <| mpc1 := f (mpc1 self) |>
  | self_mpc2 => self <| mpc2 := f (mpc2 self) |>
  end.

(** [LongitudinalMpc.get_relative_velocity] called with the arguments [args],
    the method being looked up on the class.  It is unbound: the call needs
    a LongitudinalMpc instance as first argument, which becomes [self], and
    one more argument for [l] (a float here).  Any other argument list
    raises TypeError: in Python 2 because the first argument is not an
    instance, in Python 3 because an argument is missing. *)
Definition LongitudinalMpc_get_relative_velocity (args : list pyarg) : M t unit :=
  match args with
  | [arg_instance r; arg_float l] => modify (on_mpc r (LongitudinalMpc.get_relative_velocity l))
  | _ => raise TypeError
  end.

(** [float(x)] on what [params.get] returned. *)
Definition py_float (x : option string) : result float :=
  match x with
  | None => Raise TypeError
  | Some s =>
    match float_of_str s with
    | Some v => Ok v
    | None => Raise ValueError
    end
  end.

(** [update], lines 453-463: the loop over the polled sockets.  The locals
    are [(md, l20, gps_planner_plan)]. *)
Definition locals : Type :=
  option ModelEvent * option Live20Event.t * option GpsPlannerPlan.t.

Definition recv_one (loc : locals) (m : Received) : M t locals :=
  let '(md, l20, gps_planner_plan) := loc in
  match m with
  | from_model x => ret (Some x, l20, gps_planner_plan)
  | from_live20 x => ret (md, Some x, gps_planner_plan)
  | from_gps_planner_plan x => ret (md, l20, Some x)
  | from_live_map_data x =>
    modify (fun self => self <| last_live_map_data := Some x |>) ;;; ret loc
  | from_lat_Control x =>
    modify (fun self => self <| lastlat_Control := Some x |>) ;;; ret loc
  end.

Fixpoint poll (msgs : list Received) (loc : locals) : M t locals :=
  match msgs with
  | [] => ret loc
  | m :: rest => loc' <- recv_one loc m ;; poll rest loc'
  end.

(** [update], lines 468-484: a model message arrived. *)
Definition update_model (CS : CarState.t) (LaC : LatController) (cur_time : R)
  (md : ModelEvent) : M t unit :=
  modify (fun self =>
    self <| last_md_ts := ModelEvent_logMonoTime md |>
         <| last_model := cur_time |>
         <| model_dead := false |>
         <| PP := PP_update (CarState.vEgo CS) md LaC (PP self) |>) ;;;
  self <- get ;;
  match last_gps_planner_plan self with
  | None => ret tt
  | Some plan =>
    modify (fun self => self <| gps_planner_active := GpsPlannerPlan.valid plan |>) ;;;
    when (GpsPlannerPlan.valid plan)
      (modify (fun self =>
         self <| PP := (PP self) <| PathPlanner.d_poly := GpsPlannerPlan.poly plan |>
                                 <| PathPlanner.p_poly := GpsPlannerPlan.poly plan |>
                                 <| PathPlanner.c_poly := GpsPlannerPlan.poly plan |>
                                 <| PathPlanner.l_prob := Num 0.0 |>
                                 <| PathPlanner.r_prob := Num 0.0 |>
                                 <| PathPlanner.c_prob := Num 1.0 |> |>))
  end.

(** [update], lines 487-498: latch the radar message. *)
Definition update_latch (cur_time : R) (l20 : Live20Event.t) : M t unit :=
  modify (fun self =>
    self <| perception_state := Live20Event.live20 l20 |>
         <| last_l20_ts := Live20Event.logMonoTime l20 |>
         <| last_l20 := cur_time |>
         <| radar_dead := false |>
         <| radar_errors := Live20Data.radarErrors (Live20Event.live20 l20) |>) ;;;
  modify (fun self =>
    self <| v_acc_start := v_acc_sol self |>
         <| a_acc_start := a_acc_sol self |>
         <| acc_start_time := cur_time |>) ;;;
  modify (fun self =>
    self <| lead_1 := Some (Live20Data.leadOne (Live20Event.live20 l20)) |>
         <| lead_2 := Some (Live20Data.leadTwo (Live20Event.live20 l20)) |>).

(** [update], lines 502-505: the relative velocity for the time-gap model. *)
Definition update_rel_vel : M t unit :=
  try_except
    (self <- get ;;
     match lead_1 self with
     | Some lead => LongitudinalMpc_get_relative_velocity [arg_float (Lead.vRel lead)]
     | None => raise AttributeError
     end)
    (LongitudinalMpc_get_relative_velocity [arg_float 0.0]).

(** [update], lines 510-528: speed limit and curvature from the map. *)
Definition update_map_limits : M t unit :=
  self <- get ;;
  match last_live_map_data self with
  | None => ret tt
  | Some map_data =>
    modify (fun self =>
      self <| v_speedlimit := NO_CURVATURE_SPEED |>
           <| v_curvature := NO_CURVATURE_SPEED |>
           <| map_valid := LiveMapData.mapValid map_data |>) ;;;
    (* Speed limit *)
    when (LiveMapData.speedLimitValid map_data)
      (let speed_limit := LiveMapData.speedLimit map_data in
       let set_speed_limit_active :=
         bool_decide (params_get "LimitSetSpeed" = Some "1"%string)
         && bool_decide (params_get "SpeedLimitOffset" <> None) in
       when set_speed_limit_active
         (offset <- lift_result (py_float (params_get "SpeedLimitOffset")) ;;
          modify (fun self => self <| v_speedlimit := (speed_limit + offset)%fl |>) ;;;
          (* Curvature *)
          when (LiveMapData.curvatureValid map_data)
            (let curvature := fabs (LiveMapData.curvature map_data) in
             q <- lift_result (py_div A_Y_MAX (py_max 1e-4 curvature)) ;;
             v_curvature' <- lift_result (math_sqrt q) ;;
             modify (fun self =>
               self <| v_curvature := py_min NO_CURVATURE_SPEED v_curvature' |>))))
  end.

(** [update], lines 536-562: speed for normal cruise control. *)
Definition update_cruise_enabled (CS : CarState.t) (following : bool)
  (v_cruise_setpoint : float) (force_slow_decel : bool) : M t unit :=
  let accel_limits := calc_cruise_accel_limits (CarState.vEgo CS) following in
  (* TODO: make a separate lookup for jerk tuning *)
  let jerk_limits := (py_min (-0.1) (fst accel_limits), py_max 0.1 (snd accel_limits)) in
  self <- get ;;
  let angle_later : float :=
    match lastlat_Control self with
    | Some lc => if (CarState.vEgo CS >? 11)%fl then LatControl.anglelater lc else 0
    | None => 0
    end in
  accel_limits <-
    lift_result
      (limit_accel_in_turns (CarState.vEgo CS) (CarState.steeringAngle CS) accel_limits
         (CP self) (angle_later * CarParams.steerRatio (CP self))%fl) ;;
  let accel_limits :=
    if force_slow_decel then
      (* if required so, force a smooth deceleration *)
      let a1 := py_min (snd accel_limits) AWARENESS_DECEL in
      (py_min (fst accel_limits) a1, a1)
    else accel_limits in
  (* Change accel limits based on time remaining to turn *)
  accel_limits <-
    (if decel_for_turn self then
       match last_live_map_data self with
       | None => raise AttributeError
       | Some map_data =>
         q <- lift_result
                (py_div (LiveMapData.distToTurn map_data) (py_max (v_cruise self) 1.0)) ;;
         let time_to_turn := py_max 1.0 q in
         d <- lift_result (py_div (v_curvature self - v_cruise self)%fl time_to_turn) ;;
         let required_decel := py_min 0 d in
         ret (py_max (fst accel_limits) required_decel, snd accel_limits)
       end
     else ret accel_limits) ;;
  let '(v, a) :=
    speed_smoother (v_acc_start self) (a_acc_start self) v_cruise_setpoint
      (snd accel_limits) (fst accel_limits) (snd jerk_limits) (fst jerk_limits) _DT_MPC in
  modify (fun self => self <| v_cruise := v |> <| a_cruise := a |>) ;;;
  (* cruise speed can't be negative even is user is distracted *)
  modify (fun self => self <| v_cruise := py_max (v_cruise self) 0.0 |>).

(** [update], lines 564-575: longitudinal control is not active. *)
Definition update_cruise_disabled (CS : CarState.t) (LoC : LongControl.t) : M t unit :=
  let is_starting := bool_decide (LongControl.long_control_state LoC = starting) in
  let a_ego := py_min (CarState.aEgo CS) 0.0 in
  modify (fun self =>
    let reset_speed := if is_starting then MIN_CAN_SPEED else CarState.vEgo CS in
    let reset_accel := if is_starting then CarParams.startAccel (CP self) else a_ego in
    self <| v_acc := reset_speed |>
         <| a_acc := reset_accel |>
         <| v_acc_start := reset_speed |>
         <| a_acc_start := reset_accel |>
         <| v_cruise := reset_speed |>
         <| a_cruise := reset_accel |>
         <| v_acc_sol := reset_speed |>
         <| a_acc_sol := reset_accel |>).

(** [self.lead_1.<field>] *)
Definition read_lead_1 : M t Lead.t :=
  self <- get ;;
  match lead_1 self with
  | Some lead => ret lead
  | None => raise AttributeError
  end.

(** [update], lines 486-596: a radar message arrived. *)
Definition update_radar (CS : CarState.t) (LoC : LongControl.t) (v_cruise_setpoint : float)
  (force_slow_decel : bool) (env : Tick) (l20 : Live20Event.t) : M t unit :=
  update_latch (cur_time env) l20 ;;;
  update_rel_vel ;;;
  let enabled :=
    bool_decide (LongControl.long_control_state LoC = pid)
    || bool_decide (LongControl.long_control_state LoC = stopping) in
  lead <- read_lead_1 ;;
  let following :=
    Lead.status lead && (Lead.dRel lead <? 45.0)%fl
    && (Lead.vLeadK lead >? CarState.vEgo CS)%fl && (Lead.aLeadK lead >? 0.0)%fl in
  update_map_limits ;;;
  (* leave 1m/s margin on vEgo to asses if turn is limiting our speed. *)
  modify (fun self =>
    self <| decel_for_turn :=
      (v_curvature self
       <? py_min_seq v_cruise_setpoint [v_speedlimit self; (CarState.vEgo CS + 1.0)%fl])%fl |>) ;;;
  self <- get ;;
  let v_cruise_setpoint :=
    py_min_seq v_cruise_setpoint [v_curvature self; v_speedlimit self] in
  (if enabled
   then update_cruise_enabled CS following v_cruise_setpoint force_slow_decel
   else update_cruise_disabled CS LoC) ;;;
  modify (fun self =>
    self <| mpc1 := LongitudinalMpc.set_cur_state (v_acc_start self) (a_acc_start self)
                      (mpc1 self) |>) ;;;
  modify (fun self =>
    self <| mpc2 := LongitudinalMpc.set_cur_state (v_acc_start self) (a_acc_start self)
                      (mpc2 self) |>) ;;;
  self <- get ;;
  zoom mpc1 (fun m self => self <| mpc1 := m |>)
    (LongitudinalMpc.update CS (lead_1 self) v_cruise_setpoint
       (mpc1_t env) (mpc1_t_done env)) ;;;
  zoom mpc2 (fun m self => self <| mpc2 := m |>)
    (LongitudinalMpc.update CS (lead_2 self) v_cruise_setpoint
       (mpc2_t env) (mpc2_t_done env)) ;;;
  choose_solution v_cruise_setpoint enabled ;;;
  (* determine fcw *)
  self <- get ;;
  when (LongitudinalMpc.new_lead (mpc1 self))
    (modify (fun self =>
       self <| fcw_checker := FCWChecker.reset_lead (cur_time env) (fcw_checker self) |>)) ;;;
  let blinkers := CarState.leftBlinker CS || CarState.rightBlinker CS in
  modify (fun self =>
    let '(fired, checker) :=
      FCWChecker.update (LongitudinalMpc.mpc_solution (mpc1 self)) (cur_time env)
        (CarState.vEgo CS) (CarState.aEgo CS)
        (Lead.dRel lead) (Lead.vLead lead) (Lead.aLeadK lead)
        (Lead.yRel lead) (Lead.vLat lead) (Lead.fcw lead) blinkers (fcw_checker self) in
    self <| fcw_checker := checker |>
         <| fcw := fired && negb (CarState.brakePressed CS) |>) ;;;
  self <- get ;;
  when (fcw self)
    (modify (fun self =>
       self <| cloudlog := cloudlog self ++ [FCWChecker.counters (fcw_checker self)] |>)).

(** [update], lines 598-656: watchdogs, events, extrapolation and the plan. *)
Definition update_send (CS : CarState.t) (LaC : LatController) (LoC : LongControl.t)
  (cur_time : R) : M t Plan.t :=
  modify (fun self =>
    if bool_decide (cur_time - last_model self > 0.5)
    then self <| model_dead := true |> else self) ;;;
  modify (fun self =>
    if bool_decide (cur_time - last_l20 self > 0.5)
    then self <| radar_dead := true |> else self) ;;;
  (* **** send the plan **** *)
  self <- get ;;
  let events :=
    (if model_dead self
     then [create_event "modelCommIssue" [NO_ENTRY; IMMEDIATE_DISABLE]] else [])
    ++ (if radar_dead self || existsb (String.eqb "commIssue") (radar_errors self)
        then [create_event "radarCommIssue" [NO_ENTRY; SOFT_DISABLE]] else [])
    ++ (if existsb (String.eqb "fault") (radar_errors self)
        then [create_event "radarFault" [NO_ENTRY; SOFT_DISABLE]] else [])
    (* TODO: find a better way to detect when MPC did not converge *)
    ++ (if (LaC_cost LaC >? 10000)%fl || LaC_mpc_nans LaC
        then [create_event "plannerError" [NO_ENTRY; IMMEDIATE_DISABLE]] else []) in
  (* Interpolation of trajectory *)
  (* no greater than dt mpc + dt, to prevent too high extraps *)
  let dt := Rmin (cur_time - acc_start_time self) (_DT_MPC + _DT) + _DT in
  modify (fun self =>
    self <| a_acc_sol :=
      (a_acc_start self + Num (dt / _DT_MPC) * (a_acc self - a_acc_start self))%fl |>) ;;;
  modify (fun self =>
    self <| v_acc_sol :=
      (v_acc_start self + Num dt * (a_acc_sol self + a_acc_start self) / 2.0)%fl |>) ;;;
  self <- get ;;
  r_poly_3 <- lift_result (py_index (PathPlanner.r_poly (PP self)) 3) ;;
  l_poly_3 <- lift_result (py_index (PathPlanner.l_poly (PP self)) 3) ;;
  let plan_send :=
    {| Plan.events := events;
       Plan.mdMonoTime := last_md_ts self;
       Plan.l20MonoTime := last_l20_ts self;
       (* lateral plan *)
       Plan.lateralValid := negb (model_dead self);
       Plan.dPoly := PathPlanner.d_poly (PP self);
       Plan.laneWidth := PathPlanner.lane_width (PP self);
       (* longitudal plan *)
       Plan.longitudinalValid := negb (radar_dead self);
       Plan.vCruise := v_cruise self;
       Plan.aCruise := a_cruise self;
       Plan.vTarget := v_acc_sol self;
       Plan.aTarget := a_acc_sol self;
       Plan.vTargetFuture := v_acc_future self;
       Plan.hasLead := LongitudinalMpc.prev_lead_status (mpc1 self);
       Plan.hasLeftLane := (PathPlanner.l_prob (PP self) >? 0.5)%fl;
       Plan.hasrightLaneDepart := (r_poly_3 >? -1.15)%fl && negb (CarState.rightBlinker CS);
       Plan.hasRightLane := (PathPlanner.r_prob (PP self) >? 0.5)%fl;
       Plan.hasleftLaneDepart := (l_poly_3 <? 1.15)%fl && negb (CarState.leftBlinker CS);
       Plan.longitudinalPlanSource := longitudinalPlanSource self;
       Plan.gpsPlannerActive := gps_planner_active self;
       Plan.vCurvature := v_curvature self;
       Plan.decelForTurn := decel_for_turn self;
       Plan.mapValid := map_valid self;
       (* Send out fcw *)
       Plan.fcw :=
         fcw self
         && (fcw_enabled self
             || negb (bool_decide (LongControl.long_control_state LoC = off))) |} in
  modify (fun self => self <| plan := plan self ++ [plan_send] |>) ;;;
  ret plan_send.

(** [update(CS, CP, VM, LaC, LoC, v_cruise_kph, force_slow_decel)]: this runs
    whenever we get a packet that can change the plan.  [env] is what the
    call reads from the clock and the poller. *)
Definition update (CS : CarState.t) (CP' : CarParams.t) (VM : VehicleModel)
  (LaC : LatController) (LoC : LongControl.t) (v_cruise_kph : float)
  (force_slow_decel : bool) (env : Tick) : M t Plan.t :=
  let v_cruise_setpoint := (v_cruise_kph * KPH_TO_MS)%fl in
  loc <- poll (polled env) (None, None, None) ;;
  let '(md, l20, gps_planner_plan) := loc in
  match gps_planner_plan with
  | Some g => modify (fun self => self <| last_gps_planner_plan := Some g |>)
  | None => ret tt
  end ;;;
  match md with
  | Some md => update_model CS LaC (cur_time env) md
  | None => ret tt
  end ;;;
  match l20 with
  | Some l20 => update_radar CS LoC v_cruise_setpoint force_slow_decel env l20
  | None => ret tt
  end ;;;
  update_send CS LaC LoC (cur_time env).

(** The test of line 518 together with the one of line 516: the speed limit
    of the map is used. *)
Definition set_speed_limit_active (map_data : LiveMapData.t) : bool :=
  LiveMapData.speedLimitValid map_data
  && (bool_decide (params_get "LimitSetSpeed" = Some "1"%string)
      && bool_decide (params_get "SpeedLimitOffset" <> None)).

End WithCollaborators.
End Planner.

(** ** The properties in the words of the specification *)

(** The fresh-lead pulse as specified: after a call, [new_lead] is true
    exactly when a present lead caused re-seeding in that call, and false on
    every other call, also when no lead is present. *)
Definition new_lead_pulse `{Collaborators} (self : LongitudinalMpc.t) (lead : option Lead.t)
  : bool :=
  match LongitudinalMpc.present lead with
  | Some l => LongitudinalMpc.reseeds self l
  | None => false
  end.

(** The arbitration as specified: [v_acc] is one of the three velocities, it
    is the minimum over the available candidates (the dict [solutions]), and
    [longitudinalPlanSource] names an available candidate whose velocity is
    [v_acc]. *)
Definition arbitrated `{Collaborators} (self : Planner.t) : Prop :=
  In (Planner.v_acc self)
     [Planner.v_cruise self;
      LongitudinalMpc.v_mpc (Planner.mpc1 self);
      LongitudinalMpc.v_mpc (Planner.mpc2 self)] /\
  Forall (fun c => (Planner.v_acc self <=? snd c)%fl = true) (Planner.solutions self) /\
  In (Planner.longitudinalPlanSource self, Planner.v_acc self) (Planner.solutions self).



(** What the poll loop, the model block and the radar latch of
    [Planner.update] leave alone: the sent plans and the MPC wrappers. *)
Definition poll_frame `{Collaborators} (self self' : Planner.t) : Prop :=
  Planner.plan self' = Planner.plan self /\
  Planner.mpc1 self' = Planner.mpc1 self /\
  Planner.mpc2 self' = Planner.mpc2 self.

(** The eight counters of lines 126-133. *)
Definition counter_names : list string :=
  ["v_ego"; "ttc"; "v_lead_max"; "v_ego_lead"; "lead_seen"; "y_lead"; "vlat_lead";
   "blinkers"]%string.

(** What the lead branch and the time-gap selection of
    [LongitudinalMpc.update] leave alone: the messages sent, the warnings
    logged with their clock, and the id of the wrapper. *)
Definition mpc_log_frame `{Collaborators} (self self' : LongitudinalMpc.t) : Prop :=
  LongitudinalMpc.live_longitudinal_mpc self' = LongitudinalMpc.live_longitudinal_mpc self /\
  LongitudinalMpc.cloudlog self' = LongitudinalMpc.cloudlog self /\
  LongitudinalMpc.last_cloudlog_t self' = LongitudinalMpc.last_cloudlog_t self /\
  LongitudinalMpc.mpc_id self' = LongitudinalMpc.mpc_id self.

(** The state of the longitudinal plan: the MPC wrappers, the target and the
    cruise trajectory, the source of the plan, the FCW state and the limits
    taken from the map. *)
Definition arbiter_frame `{Collaborators} (self self' : Planner.t) : Prop :=
  Planner.mpc1 self' = Planner.mpc1 self /\
  Planner.mpc2 self' = Planner.mpc2 self /\
  Planner.v_acc self' = Planner.v_acc self /\
  Planner.a_acc self' = Planner.a_acc self /\
  Planner.v_acc_future self' = Planner.v_acc_future self /\
  Planner.v_cruise self' = Planner.v_cruise self /\
  Planner.a_cruise self' = Planner.a_cruise self /\
  Planner.longitudinalPlanSource self' = Planner.longitudinalPlanSource self /\
  Planner.fcw self' = Planner.fcw self /\
  Planner.fcw_checker self' = Planner.fcw_checker self /\
  Planner.cloudlog self' = Planner.cloudlog self /\
  Planner.v_curvature self' = Planner.v_curvature self /\
  Planner.v_speedlimit self' = Planner.v_speedlimit self /\
  Planner.decel_for_turn self' = Planner.decel_for_turn self /\
  Planner.map_valid self' = Planner.map_valid self.

(** ** Test doubles

    Collaborators that can be run, to evaluate the embedding on concrete
    inputs: a solver that writes the constant trajectory [v_sol] for the
    speeds and zero elsewhere, identity interpolation, a smoother that jumps
    to its target, and the parameter store [params]. *)
Module Double.

Definition solution (v_sol : float) : log_t.t :=
  {| log_t.x_ego := fun _ => Num 0;
     log_t.v_ego := fun _ => v_sol;
     log_t.a_ego := fun _ => Num 0;
     log_t.x_l := fun _ => Num 50;
     log_t.v_l := fun _ => Num 0;
     log_t.cost := Num 0 |}.

Definition path_planner : PathPlanner.t :=
  {| PathPlanner.d_poly := [Num 0; Num 0; Num 0; Num 0];
     PathPlanner.p_poly := [Num 0; Num 0; Num 0; Num 0];
     PathPlanner.c_poly := [Num 0; Num 0; Num 0; Num 0];
     PathPlanner.l_poly := [Num 0; Num 0; Num 0; Num 0];
     PathPlanner.r_poly := [Num 0; Num 0; Num 0; Num 0];
     PathPlanner.l_prob := Num 0;
     PathPlanner.r_prob := Num 0;
     PathPlanner.c_prob := Num 0;
     PathPlanner.lane_width := Num 0 |}.

Definition collaborators (v_sol : float) (params : string -> option string) : Collaborators :=
  {| solver := unit;
     get_libmpc := fun _ => tt;
     libmpc_init := fun _ _ _ _ s => s;
     libmpc_init_with_simulation := fun _ _ _ _ _ s => s;
     libmpc_run_mpc := fun cs _ _ _ _ s => (s, cs, solution v_sol, 0%Z);
     MPC_COST_LONG_TTC := Num 5;
     MPC_COST_LONG_DISTANCE := Num 0.1;
     MPC_COST_LONG_ACCELERATION := Num 10;
     MPC_COST_LONG_JERK := Num 20;
     _LEAD_ACCEL_TAU := Num 1.5;
     MIN_CAN_SPEED := Num 0.3;
     MPH_TO_MS := Num 0.44704;
     KPH_TO_MS := Num (1 / 3.6);
     DEG_TO_RAD := Num (PI / 180);
     interp := fun x _ _ => x;
     np_interp := fun x _ _ => x;
     speed_smoother := fun _ _ v_target _ _ _ _ _ => (v_target, Num 0);
     ModelEvent := unit;
     ModelEvent_logMonoTime := fun _ => 0%Z;
     LatController := unit;
     VehicleModel := unit;
     PP_init := path_planner;
     PP_update := fun _ _ _ pp => pp;
     LaC_cost := fun _ => Num 0;
     LaC_mpc_nans := fun _ => false;
     params_get := params;
     float_of_str := fun s => if String.eqb s "0" then Some (Num 0) else None |}.

Definition no_params : string -> option string := fun _ => None.

(** A solver that returns zero speeds, and one that returns NaN speeds. *)
Definition zero_solver : Collaborators := collaborators (Num 0) no_params.
Definition nan_solver : Collaborators := collaborators NaN no_params.


(** Dict iteration in insertion order. *)
Definition insertion_order : DictOrder :=
  {| dict_items := fun l => l; dict_items_perm := fun l => Permutation_refl l |}.

Definition car_state (v_ego : float) : CarState.t :=
  {| CarState.vEgo := v_ego;
     CarState.aEgo := Num 0;
     CarState.steeringAngle := Num 0;
     CarState.brakePressed := false;
     CarState.leftBlinker := false;
     CarState.rightBlinker := false;
     CarState.readdistancelines := 0 |}.

Definition car_params : CarParams.t :=
  {| CarParams.steerRatio := Num 15;
     CarParams.wheelbase := Num 2.7;
     CarParams.startAccel := Num 0.5 |}.

(** Car parameters with a zero steering ratio. *)
Definition zero_ratio_car_params : CarParams.t :=
  {| CarParams.steerRatio := Num 0;
     CarParams.wheelbase := Num 2.7;
     CarParams.startAccel := Num 0 |}.

(** A lead with status at distance [d_rel], relative speed [v_rel]. *)
Definition lead (d_rel v_rel : float) : Lead.t :=
  {| Lead.status := true;
     Lead.dRel := d_rel;
     Lead.vLead := Num 10;
     Lead.vLeadK := Num 10;
     Lead.aLeadK := Num 0;
     Lead.aLeadTau := Num 1.5;
     Lead.vRel := v_rel;
     Lead.yRel := Num 0;
     Lead.vLat := Num 0;
     Lead.fcw := Num 0 |}.


(** Map data with speed limit 10 m/s and curvature 0.01 rad/m. *)
Definition map_data (map_valid speed_limit_valid curvature_valid : bool) : LiveMapData.t :=
  {| LiveMapData.mapValid := map_valid;
     LiveMapData.speedLimitValid := speed_limit_valid;
     LiveMapData.speedLimit := Num 10;
     LiveMapData.curvatureValid := curvature_valid;
     LiveMapData.curvature := Num 0.01;
     LiveMapData.distToTurn := Num 100 |}.


(** A solution that brakes at 4 m/s^2 over the whole horizon. *)
Definition braking_solution : log_t.t :=
  {| log_t.x_ego := fun _ => Num 0;
     log_t.v_ego := fun _ => Num 0;
     log_t.a_ego := fun _ => Num (-4);
     log_t.x_l := fun _ => Num 50;
     log_t.v_l := fun _ => Num 0;
     log_t.cost := Num 0 |}.

(** A checker that never fired, with every counter at 10. *)
Definition armed_checker : FCWChecker.t :=
  {| FCWChecker.last_fcw_a := Num 0;
     FCWChecker.v_lead_max := Num 0;
     FCWChecker.lead_seen_t := 0;
     FCWChecker.last_fcw_time := 0;
     FCWChecker.last_min_a := Num 0;
     FCWChecker.counters :=
       <["v_ego"%string := 10]> (<["ttc"%string := 10]> (<["v_lead_max"%string := 10]>
       (<["v_ego_lead"%string := 10]> (<["lead_seen"%string := 10]>
       (<["y_lead"%string := 10]> (<["vlat_lead"%string := 10]>
       (<["blinkers"%string := 10]> ∅))))))) |}.

(** A call at [cur_time]: ego at 20 m/s touching a lead that drives 10 m/s,
    the lead hint set, no blinker. *)
Definition fcw_args (cur_time : R) : FCWChecker.Args :=
  {| FCWChecker.arg_mpc_solution := braking_solution;
     FCWChecker.arg_cur_time := cur_time;
     FCWChecker.arg_v_ego := Num 20;
     FCWChecker.arg_a_ego := Num 0;
     FCWChecker.arg_x_lead := Num 0;
     FCWChecker.arg_v_lead := Num 10;
     FCWChecker.arg_a_lead := Num 0;
     FCWChecker.arg_y_lead := Num 0;
     FCWChecker.arg_vlat_lead := Num 0;
     FCWChecker.arg_fcw_lead := Num 1;
     FCWChecker.arg_blinkers := false |}.

(** A tick at time 1 whose poll returns one live20 message: first lead at
    30 m with relative speed [v_rel]. *)
Definition radar_tick (v_rel : float) : Planner.Tick (H := zero_solver) :=
  {| Planner.cur_time := 1;
     Planner.polled :=
       [Planner.from_live20
          {| Live20Event.logMonoTime := 1;
             Live20Event.live20 :=
               {| Live20Data.leadOne := lead (Num 30) v_rel;
                  Live20Data.leadTwo := lead (Num 60) (Num 0);
                  Live20Data.radarErrors := [] |} |}];
     Planner.mpc1_t := 1;
     Planner.mpc1_t_done := 1;
     Planner.mpc2_t := 1;
     Planner.mpc2_t_done := 1 |}.

Definition long_control (state : LongCtrlState) : LongControl.t :=
  {| LongControl.long_control_state := state |}.

(** A planner cruising at [v_cruise] with target [v_acc], whose first MPC
    wrapper has a lead ([prev_lead_status]) and proposes [v_mpc1]. *)
Definition planner (v_cruise v_acc v_mpc1 : float) : Planner.t (H := zero_solver) :=
  (Planner.init car_params false 0)
    <| Planner.v_cruise := v_cruise |>
    <| Planner.v_acc := v_acc |>
    <| Planner.mpc1 := (LongitudinalMpc.init 1)
                         <| LongitudinalMpc.prev_lead_status := true |>
                         <| LongitudinalMpc.v_mpc := v_mpc1 |> |>.

End Double.

(** * Properties *)

(** Evaluate record updates. *)
Ltac simpl_upd := cbn; unfold constant; cbn.

(** ** Floats *)

Lemma fdiv_Num (x y : R) : y <> 0 -> (Num x / Num y)%fl = Num (x / y).
Proof. intros Hy. unfold fdiv. destruct (decide (y = 0)); [contradiction | reflexivity]. Qed.

Lemma np_sqrt_Num (x : R) : 0 <= x -> np_sqrt (Num x) = Num (sqrt x).
Proof.
  intros Hx. unfold np_sqrt. rewrite bool_decide_eq_false_2; [reflexivity | lra].
Qed.

Lemma py_min_Num (x y : R) : py_min (Num x) (Num y) = Num (Rmin x y).
Proof.
  unfold py_min, flt, fcmp, Rmin. case_bool_decide; destruct (Rle_dec x y); try reflexivity.
  - f_equal. lra.
  - lra.
Qed.

Lemma py_max_Num (x y : R) : py_max (Num x) (Num y) = Num (Rmax x y).
Proof.
  unfold py_max, fgt, fcmp, Rmax. case_bool_decide; destruct (Rle_dec x y); try reflexivity.
  - lra.
  - f_equal. lra.
Qed.

Lemma IZR_ge_of_gt (n k : Z) (x : R) : IZR n > x -> x >= IZR k - 1/2 -> IZR k <= IZR n.
Proof.
  intros Hn Hx. apply IZR_le.
  assert (Hlt : IZR (k - 1) < IZR n) by (rewrite minus_IZR; lra).
  apply lt_IZR in Hlt. lia.
Qed.

Lemma IZR_le_of_le (n k : Z) (x : R) : IZR n <= x -> x <= IZR k + 1/2 -> IZR n <= IZR k.
Proof.
  intros Hn Hx. apply IZR_le.
  assert (Hlt : IZR n < IZR (k + 1)) by (rewrite plus_IZR; lra).
  apply lt_IZR in Hlt. lia.
Qed.

(** Rounding to two decimals keeps a value between two bounds that are
    themselves multiples of 0.01. *)
Lemma round_half_away_between (lo hi : Z) (y : R) :
  (0 <= lo)%Z -> IZR lo <= y <= IZR hi ->
  IZR lo <= IZR (round_half_away y) <= IZR hi.
Proof.
  intros Hlo [Hy1 Hy2]. unfold round_half_away.
  assert (0 <= IZR lo) by (apply (IZR_le 0); exact Hlo).
  rewrite bool_decide_eq_true_2 by lra.
  destruct (base_Int_part (y + 1 / 2)) as [Hle Hgt]. split.
  - apply (IZR_ge_of_gt _ _ (y - 1/2)); lra.
  - apply (IZR_le_of_le _ _ (y + 1/2)); lra.
Qed.

Lemma py_round2_between (lo hi : Z) (x : R) :
  (0 <= lo)%Z -> IZR lo / 100 <= x <= IZR hi / 100 ->
  exists r, py_round2 (Num x) = Num r /\ IZR lo / 100 <= r <= IZR hi / 100.
Proof.
  intros Hlo Hx. eexists. split; [reflexivity |].
  destruct (round_half_away_between lo hi (x * 100) Hlo) as [H1 H2]; [lra |].
  lra.
Qed.

(** ** FDistanceNet *)

Lemma remap_range_Num (v : R) (ty : FDistanceNet.remapType) :
  exists r,
    FDistanceNet.remap_range (Num v) ty = Num r /\
    fst (FDistanceNet.remap_y ty) <= r <= snd (FDistanceNet.remap_y ty).
Proof.
  unfold FDistanceNet.remap_range.
  destruct ty; cbn [FDistanceNet.remap_x FDistanceNet.remap_y fst snd fsub lift2];
    (rewrite fdiv_Num by lra);
    cbn [fmul fadd lift2]; rewrite py_max_Num, py_min_Num;
    (eexists; split; [reflexivity |]);
    unfold Rmin, Rmax; repeat destruct (Rle_dec _ _); lra.
Qed.

Lemma sigmoid_Num (z : R) : exists r, FDistanceNet.sigmoid (Num z) = Num r.
Proof.
  unfold FDistanceNet.sigmoid. cbn [fneg fexp lift1 fadd lift2].
  pose proof (exp_pos (- z)).
  rewrite fdiv_Num by lra. eexists. reflexivity.
Qed.

Lemma think_Num (v r : R) :
  exists tr, FDistanceNet.think (Num v, Num r) = Num tr /\ 0.67 <= tr <= 2.7.
Proof.
  unfold FDistanceNet.think. cbn [fst snd].
  destruct (remap_range_Num v FDistanceNet.vel) as [i0 [-> _]].
  destruct (remap_range_Num r FDistanceNet.rel_vel) as [i1 [-> _]].
  cbn [fmul fadd lift2].
  destruct (sigmoid_Num (i0 * fst FDistanceNet.synaptic_weights
                         + i1 * snd FDistanceNet.synaptic_weights)) as [o ->].
  destruct (remap_range_Num o FDistanceNet.rvs_dist) as [tr [-> Htr]].
  exists tr. split; [reflexivity | exact Htr].
Qed.

(** C8, as the code has it.  For every ego velocity and every latched
    relative velocity that are numbers (not NaN), [generateTR] returns a
    number in the interval [0.67, 2.7]: both inputs of the network are
    clamped to [0, 1] before the sigmoid, the sigmoid output is remapped into
    [0.67, 2.7] with clamping, and the result is rounded to two decimals. *)
Theorem C8_generateTR_range `{Collaborators} (velocity latched : R) (self : LongitudinalMpc.t) :
  let self := self <| LongitudinalMpc.rel_vel := Num latched |> in
  exists i0 i1 tr : R,
    FDistanceNet.remap_range (Num velocity) FDistanceNet.vel = Num i0 /\ 0 <= i0 <= 1 /\
    FDistanceNet.remap_range (LongitudinalMpc.rel_vel self) FDistanceNet.rel_vel = Num i1 /\
    0 <= i1 <= 1 /\
    LongitudinalMpc.generateTR (Num velocity) self = Num tr /\
    0.67 <= tr <= 2.7.
Proof.
  intros self'. subst self'. unfold LongitudinalMpc.generateTR.
  cbn [LongitudinalMpc.rel_vel apply_update]. unfold constant.
  destruct (remap_range_Num velocity FDistanceNet.vel) as [i0 [E0 B0]].
  destruct (remap_range_Num latched FDistanceNet.rel_vel) as [i1 [E1 B1]].
  destruct (think_Num velocity latched) as [tr [-> Htr]].
  destruct (py_round2_between 67 270 tr) as [r [-> Hr]]; [lia | lra |].
  cbn [FDistanceNet.remap_y fst snd] in B0, B1.
  exists i0, i1, r. repeat split; try assumption; lra.
Qed.

(** C8 fails as stated: the clamp [min(max(remapped, y[0]), y[1])] keeps a
    NaN (both comparisons are false), so with a NaN ego velocity, and a
    latched relative velocity of 0, [generateTR] returns NaN, not a finite
    value in [0.67, 2.7]. *)
Lemma C8_counterexample :
  LongitudinalMpc.generateTR (H := Double.zero_solver) NaN (LongitudinalMpc.init 1) = NaN /\
  ~ exists tr : R,
      LongitudinalMpc.generateTR (H := Double.zero_solver) NaN (LongitudinalMpc.init 1)
      = Num tr /\
      0.67 <= tr <= 2.7.
Proof.
  assert (E : LongitudinalMpc.generateTR (H := Double.zero_solver) NaN
                (LongitudinalMpc.init 1) = NaN) by reflexivity.
  split; [exact E |].
  intros (tr & Etr & _). rewrite E in Etr. discriminate.
Qed.

(** ** FCWChecker.calc_ttc *)




(** ** FCWChecker.update *)

Section FCW.
Context `{Collaborators}.

(** A call that fires was allowed by every counter, saw the deceleration
    condition, and came more than 5 s after [last_fcw_time], which it sets to
    its own time. *)
Lemma fcw_update_true (a : FCWChecker.Args) (self : FCWChecker.t) :
  fst (FCWChecker.call a self) = true ->
  map_Forall (fun _ c => c >= 10) (FCWChecker.counters (snd (FCWChecker.call a self))) /\
  FCWChecker.decel_condition a = true /\
  FCWChecker.last_fcw_time self + 5 < FCWChecker.arg_cur_time a /\
  FCWChecker.last_fcw_time (snd (FCWChecker.call a self)) = FCWChecker.arg_cur_time a.
Proof.
  unfold FCWChecker.call, FCWChecker.update, FCWChecker.decel_condition.
  destruct self as [fa vmax seen last mina c].
  cbn [FCWChecker.last_min_a FCWChecker.v_lead_max FCWChecker.counters
       FCWChecker.last_fcw_time apply_update]; unfold constant.
  destruct (_ >? 0.99)%fl; [| discriminate].
  match goal with |- context [if ?c then (true, _) else _] => destruct c eqn:Hc end;
    [| discriminate].
  intros _. cbn [fst snd FCWChecker.counters FCWChecker.last_fcw_time].
  apply andb_prop in Hc as [Hc Htime]. apply andb_prop in Hc as [Hdecel Hallowed].
  apply bool_decide_eq_true_1 in Htime, Hallowed.
  repeat split; try assumption. lra.
Qed.

(** A call that does not fire leaves [last_fcw_time] alone. *)
Lemma fcw_update_false (a : FCWChecker.Args) (self : FCWChecker.t) :
  fst (FCWChecker.call a self) = false ->
  FCWChecker.last_fcw_time (snd (FCWChecker.call a self)) = FCWChecker.last_fcw_time self.
Proof.
  unfold FCWChecker.call, FCWChecker.update.
  destruct self as [fa vmax seen last mina c].
  cbn [FCWChecker.last_min_a FCWChecker.v_lead_max FCWChecker.counters
       FCWChecker.last_fcw_time apply_update]; unfold constant.
  destruct (_ >? 0.99)%fl; [| reflexivity].
  match goal with |- context [if ?c then (true, _) else _] => destruct c end;
    [discriminate | reflexivity].
Qed.

(** While the calls come no earlier than [T] and the checker last fired at
    [T] or later, no call up to [T + 5] fires. *)
Lemma fcw_quiet (T : R) (calls : list FCWChecker.Args) :
  forall (self : FCWChecker.t) (j : nat) (a_j : FCWChecker.Args),
    T <= FCWChecker.last_fcw_time self ->
    Forall (fun a => T <= FCWChecker.arg_cur_time a) calls ->
    nth_error calls j = Some a_j ->
    FCWChecker.arg_cur_time a_j <= T + 5 ->
    nth_error (FCWChecker.run calls self) j = Some false.
Proof.
  induction calls as [| a rest IH]; intros self j a_j Hlast Hall Hj Hle.
  - destruct j; discriminate.
  - inversion Hall as [| ? ? Ha Hrest]; subst.
    cbn [FCWChecker.run].
    destruct (fst (FCWChecker.call a self)) eqn:Hfire.
    + destruct (fcw_update_true a self Hfire) as (_ & _ & Hlt & Heq).
      destruct j as [| j']; cbn [nth_error] in *.
      * injection Hj as <-. lra.
      * apply (IH _ j' a_j); try assumption. rewrite Heq. exact Ha.
    + pose proof (fcw_update_false a self Hfire) as Heq.
      destruct j as [| j']; cbn [nth_error] in *.
      * reflexivity.
      * apply (IH _ j' a_j); try assumption. rewrite Heq. exact Hlast.
Qed.

End FCW.

(** C9. FCW firing is rate-limited to once per 5 seconds: on every trace of
    [FCWChecker.update] calls with non-decreasing [cur_time], if the call at
    time [t] returns true then every later call at a time [t' <= t + 5]
    returns false.  Moreover a call returns true only when all counters are
    at least 10, the deceleration condition holds, and more than 5 seconds
    have elapsed since [last_fcw_time]. *)
Theorem C9_fcw_rate_limit `{Collaborators} (calls : list FCWChecker.Args)
  (self : FCWChecker.t) (i j : nat) (a_i a_j : FCWChecker.Args) :
  Sorted Rle (map FCWChecker.arg_cur_time calls) ->
  (i < j)%nat ->
  nth_error calls i = Some a_i ->
  nth_error calls j = Some a_j ->
  nth_error (FCWChecker.run calls self) i = Some true ->
  FCWChecker.arg_cur_time a_j <= FCWChecker.arg_cur_time a_i + 5 ->
  nth_error (FCWChecker.run calls self) j = Some false /\
  (forall (a : FCWChecker.Args) (s : FCWChecker.t),
     fst (FCWChecker.call a s) = true ->
     map_Forall (fun _ c => c >= 10) (FCWChecker.counters (snd (FCWChecker.call a s))) /\
     FCWChecker.decel_condition a = true /\
     FCWChecker.last_fcw_time s + 5 < FCWChecker.arg_cur_time a).
Proof.
  intros Hsorted Hij Hi Hj Hfire Hle. split.
  - apply Sorted_StronglySorted in Hsorted; [| exact Rle_transitive].
    revert self i j Hij Hi Hj Hfire.
    induction calls as [| a rest IH]; intros self i j Hij Hi Hj Hfire.
    + destruct i; discriminate.
    + cbn [map] in Hsorted. apply StronglySorted_inv in Hsorted as [Hrest Hhd].
      destruct j as [| j']; [lia |].
      cbn [FCWChecker.run nth_error] in *.
      destruct i as [| i']; cbn [nth_error] in *.
      * injection Hi as ->. injection Hfire as Hfire.
        destruct (fcw_update_true a_i self Hfire) as (_ & _ & _ & Heq).
        apply (fcw_quiet (FCWChecker.arg_cur_time a_i) rest _ j' a_j); try assumption.
        -- rewrite Heq. lra.
        -- rewrite Forall_map in Hhd. exact Hhd.
      * apply (IH Hrest _ i' j'); try assumption. lia.
  - intros a s Hs. destruct (fcw_update_true a s Hs) as (H1 & H2 & H3 & _). auto.
Qed.

(** ** The monad *)

Lemma bind_ok {S A B} (m : M S A) (k : A -> M S B) (s s' : S) (a : A) :
  m s = (Ok a, s') -> bind m k s = k a s'.
Proof. intros E. unfold bind. rewrite E. reflexivity. Qed.

Lemma bind_raise {S A B} (m : M S A) (k : A -> M S B) (s s' : S) (e : exn) :
  m s = (Raise e, s') -> bind m k s = (Raise e, s').
Proof. intros E. unfold bind. rewrite E. reflexivity. Qed.

Lemma bind_modify {S B} (f : S -> S) (k : unit -> M S B) (s : S) :
  bind (modify f) k s = k tt (f s).
Proof. reflexivity. Qed.

Lemma bind_get {S B} (k : S -> M S B) (s : S) : bind get k s = k s s.
Proof. reflexivity. Qed.

Lemma bind_ret {S A B} (a : A) (k : A -> M S B) (s : S) : bind (ret a) k s = k a s.
Proof. reflexivity. Qed.

Lemma bind_lift_ok {S A B} (a : A) (k : A -> M S B) (s : S) :
  bind (lift_result (Ok a)) k s = k a s.
Proof. reflexivity. Qed.

Lemma bind_lift_raise {S A B} (e : exn) (k : A -> M S B) (s : S) :
  bind (lift_result (Raise e)) k s = (Raise e, s).
Proof. reflexivity. Qed.

(** ** LongitudinalMpc.update *)

Section Mpc.
Context `{Collaborators}.

Lemma py_max_lower (z : R) (x : float) : exists r, py_max (Num z) x = Num r /\ z <= r.
Proof.
  unfold py_max, fgt, fcmp. destruct x as [x |].
  - case_bool_decide; eexists; (split; [reflexivity | lra]).
  - exists z. split; [reflexivity | lra].
Qed.

(** The reset of lines 330-348 never raises, keeps the solution and
    [new_lead], and re-seeds the wrapper when the solution holds a NaN. *)
Lemma update_reset_spec (CS : CarState.t) (t_now : R) (self : LongitudinalMpc.t) :
  exists self',
    LongitudinalMpc.update_reset CS t_now self = (Ok tt, self') /\
    LongitudinalMpc.mpc_solution self' = LongitudinalMpc.mpc_solution self /\
    LongitudinalMpc.new_lead self' = LongitudinalMpc.new_lead self /\
    (existsb isnan (carray_list (log_t.v_ego (LongitudinalMpc.mpc_solution self))) = true ->
     state_t.v_ego (LongitudinalMpc.cur_state self') = CarState.vEgo CS /\
     state_t.a_ego (LongitudinalMpc.cur_state self') = Num 0.0 /\
     LongitudinalMpc.v_mpc self' = CarState.vEgo CS /\
     LongitudinalMpc.a_mpc self' = CarState.aEgo CS /\
     LongitudinalMpc.prev_lead_status self' = false).
Proof.
  unfold LongitudinalMpc.update_reset. rewrite bind_get.
  destruct (existsb isnan _) eqn:Hnan.
  - rewrite orb_true_r. unfold when at 1.
    destruct self; unfold when; case_bool_decide;
      (eexists; split; [reflexivity |]); simpl_upd; intuition reflexivity.
  - rewrite orb_false_r.
    destruct (_ && _); unfold when at 1.
    + destruct self; unfold when; case_bool_decide;
        (eexists; split; [reflexivity |]); simpl_upd;
        (split; [reflexivity |]); (split; [reflexivity |]); discriminate.
    + eexists. split; [reflexivity |]. split; [reflexivity |]. split; [reflexivity |].
      discriminate.
Qed.

Lemma py_div_ok (a : float) (y : R) : y <> 0 -> py_div a (Num y) = Ok (a / Num y)%fl.
Proof. intros Hy. unfold py_div. destruct (decide (y = 0)); [contradiction | reflexivity]. Qed.

(** The lead branch never raises: its divisor is positive. *)
Lemma update_lead_spec (lead : Lead.t) (self : LongitudinalMpc.t) :
  exists a_lead self',
    LongitudinalMpc.update_lead lead self = (Ok a_lead, self') /\
    LongitudinalMpc.new_lead self' = LongitudinalMpc.reseeds self lead.
Proof.
  unfold LongitudinalMpc.update_lead, LongitudinalMpc.reseeds.
  destruct (py_max_lower 0.0 (Lead.vLead lead)) as [r [-> Hr]].
  match goal with |- context [if ?c then Num 0.0 else Num r] => destruct c end.
  - cbn [fadd fsqr fmul lift2]. rewrite py_div_ok by nra.
    destruct self. unfold bind, lift_result, modify, get, when, ret. simpl_upd.
    destruct (negb _ || _); (do 2 eexists); (split; [reflexivity |]); reflexivity.
  - cbn [fadd fsqr fmul lift2]. rewrite py_div_ok by nra.
    destruct self. unfold bind, lift_result, modify, get, when, ret. simpl_upd.
    destruct (negb _ || _); (do 2 eexists); (split; [reflexivity |]); reflexivity.
Qed.

Lemma update_no_lead_spec (CS : CarState.t) (self : LongitudinalMpc.t) :
  exists a_lead self',
    LongitudinalMpc.update_no_lead CS self = (Ok a_lead, self') /\
    LongitudinalMpc.new_lead self' = LongitudinalMpc.new_lead self.
Proof.
  destruct self. do 2 eexists. split; reflexivity.
Qed.

Lemma update_TR_spec (CS : CarState.t) (self : LongitudinalMpc.t) :
  exists TR self',
    LongitudinalMpc.update_TR CS self = (Ok TR, self') /\
    LongitudinalMpc.new_lead self' = LongitudinalMpc.new_lead self.
Proof.
  unfold LongitudinalMpc.update_TR.
  destruct (_ <? 2.0)%fl; [do 2 eexists; split; reflexivity |].
  destruct (_ =? 1)%Z.
  { rewrite bind_get. destruct (_ =? _)%Z; destruct self; do 2 eexists; split; reflexivity. }
  destruct (_ =? 2)%Z.
  { rewrite bind_get. unfold when. destruct (_ >? 0.2)%fl;
      destruct self; do 2 eexists; split; reflexivity. }
  destruct (_ =? 3)%Z.
  { rewrite bind_get. destruct (_ =? _)%Z; destruct self; do 2 eexists; split; reflexivity. }
  do 2 eexists; split; reflexivity.
Qed.

(** One call of [update]: it returns; [new_lead] is decided by the lead
    branch alone; the stored solution is the one the solver wrote in this
    call; a NaN in its [v_ego] trajectory re-seeds the wrapper. *)
Lemma update_spec (CS : CarState.t) (lead : option Lead.t) (v_cruise_setpoint : float)
  (t_now t_done : R) (self : LongitudinalMpc.t) :
  exists self',
    LongitudinalMpc.update CS lead v_cruise_setpoint t_now t_done self = (Ok tt, self') /\
    LongitudinalMpc.new_lead self' =
      match LongitudinalMpc.present lead with
      | Some l => LongitudinalMpc.reseeds self l
      | None => LongitudinalMpc.new_lead self
      end /\
    (exists cs sol tau a_lead TR sv sv' cs' n_its,
       libmpc_run_mpc cs sol tau a_lead TR sv
       = (sv', cs', LongitudinalMpc.mpc_solution self', n_its)) /\
    (existsb isnan (carray_list (log_t.v_ego (LongitudinalMpc.mpc_solution self'))) = true ->
     state_t.v_ego (LongitudinalMpc.cur_state self') = CarState.vEgo CS /\
     state_t.a_ego (LongitudinalMpc.cur_state self') = Num 0.0 /\
     LongitudinalMpc.v_mpc self' = CarState.vEgo CS /\
     LongitudinalMpc.a_mpc self' = CarState.aEgo CS /\
     LongitudinalMpc.prev_lead_status self' = false).
Proof.
  unfold LongitudinalMpc.update. rewrite bind_modify.
  set (s0 := self <| LongitudinalMpc.cur_state := _ |>).
  assert (Hbranch : exists a_lead s1,
    match lead with
    | Some l =>
      if Lead.status l then LongitudinalMpc.update_lead l else LongitudinalMpc.update_no_lead CS
    | None => LongitudinalMpc.update_no_lead CS
    end s0 = (Ok a_lead, s1) /\
    LongitudinalMpc.new_lead s1 =
      match LongitudinalMpc.present lead with
      | Some l => LongitudinalMpc.reseeds self l
      | None => LongitudinalMpc.new_lead self
      end).
  { unfold LongitudinalMpc.present.
    destruct lead as [l |]; [destruct (Lead.status l) |].
    - destruct (update_lead_spec l s0) as (a & s1 & E & N). exists a, s1.
      split; [exact E |]. rewrite N. subst s0. destruct self. reflexivity.
    - destruct (update_no_lead_spec CS s0) as (a & s1 & E & N). exists a, s1.
      split; [exact E |]. rewrite N. subst s0. destruct self. reflexivity.
    - destruct (update_no_lead_spec CS s0) as (a & s1 & E & N). exists a, s1.
      split; [exact E |]. rewrite N. subst s0. destruct self. reflexivity. }
  destruct Hbranch as (a_lead & s1 & E1 & N1).
  rewrite (bind_ok _ _ _ _ _ E1).
  destruct (update_TR_spec CS s1) as (TR & s2 & E2 & N2).
  rewrite (bind_ok _ _ _ _ _ E2). rewrite bind_get.
  destruct (libmpc_run_mpc _ _ _ _ _ _) as [[[sv cs] sol] n_its] eqn:Erun.
  rewrite !bind_modify.
  match goal with |- context [LongitudinalMpc.update_reset CS t_now ?s] => set (s3 := s) end.
  destruct (update_reset_spec CS t_now s3) as (s4 & E4 & Hsol & N4 & Hnan).
  assert (Hsol3 : LongitudinalMpc.mpc_solution s3 = sol).
  { subst s3. unfold LongitudinalMpc.send_mpc_solution. destruct s2. reflexivity. }
  assert (N3 : LongitudinalMpc.new_lead s3 = LongitudinalMpc.new_lead s2).
  { subst s3. unfold LongitudinalMpc.send_mpc_solution. destruct s2. reflexivity. }
  exists s4. split; [exact E4 |]. split; [congruence |]. split.
  - rewrite Hsol, Hsol3. do 9 eexists. exact Erun.
  - rewrite Hsol. exact Hnan.
Qed.

End Mpc.

(** C4. If the MPC solver returns any NaN in the [v_ego] trajectory, then
    after [LongitudinalMpc.update] returns: [cur_state.v_ego] equals the ego
    speed [CS.vEgo], [cur_state.a_ego] equals 0, [v_mpc] equals [CS.vEgo],
    [a_mpc] equals [CS.aEgo], and [prev_lead_status] is false.  The call
    always returns, and [mpc_solution] holds what the solver wrote in it. *)
Theorem C4_nan_reset `{Collaborators} (CS : CarState.t) (lead : option Lead.t)
  (v_cruise_setpoint : float) (t_now t_done : R) (self : LongitudinalMpc.t) :
  exists self',
    LongitudinalMpc.update CS lead v_cruise_setpoint t_now t_done self = (Ok tt, self') /\
    (exists cs sol tau a_lead TR sv sv' cs' n_its,
       libmpc_run_mpc cs sol tau a_lead TR sv
       = (sv', cs', LongitudinalMpc.mpc_solution self', n_its)) /\
    (existsb isnan (carray_list (log_t.v_ego (LongitudinalMpc.mpc_solution self'))) = true ->
     state_t.v_ego (LongitudinalMpc.cur_state self') = CarState.vEgo CS /\
     state_t.a_ego (LongitudinalMpc.cur_state self') = Num 0 /\
     LongitudinalMpc.v_mpc self' = CarState.vEgo CS /\
     LongitudinalMpc.a_mpc self' = CarState.aEgo CS /\
     LongitudinalMpc.prev_lead_status self' = false).
Proof.
  destruct (update_spec CS lead v_cruise_setpoint t_now t_done self)
    as (self' & E & _ & Hrun & Hnan).
  exists self'. split; [exact E |]. split; [exact Hrun |].
  intros Hn. destruct (Hnan Hn) as (H1 & H2 & H3 & H4 & H5).
  repeat split; try assumption. rewrite H2. f_equal. lra.
Qed.

(** The reset of C4 on a solver that returns NaN speeds, ego at 10 m/s. *)
Lemma C4_nan_reset_witness :
  exists self',
    LongitudinalMpc.update (H := Double.nan_solver) (Double.car_state (Num 10)) None
      (Num 30) 0 0 (LongitudinalMpc.init 1) = (Ok tt, self') /\
    existsb isnan (carray_list (log_t.v_ego (LongitudinalMpc.mpc_solution self'))) = true /\
    state_t.v_ego (LongitudinalMpc.cur_state self') = Num 10 /\
    state_t.a_ego (LongitudinalMpc.cur_state self') = Num 0 /\
    LongitudinalMpc.v_mpc self' = Num 10 /\
    LongitudinalMpc.a_mpc self' = Num 0 /\
    LongitudinalMpc.prev_lead_status self' = false.
Proof.
  destruct (C4_nan_reset (H := Double.nan_solver) (Double.car_state (Num 10)) None
              (Num 30) 0 0 (LongitudinalMpc.init 1)) as (self' & E & Hrun & Hnan).
  exists self'. split; [exact E |].
  assert (Hn : existsb isnan (carray_list (log_t.v_ego (LongitudinalMpc.mpc_solution self')))
               = true).
  { destruct Hrun as (cs & sol & tau & a & TR & sv & sv' & cs' & n & Hrun).
    cbn in Hrun. injection Hrun as _ _ <- _. reflexivity. }
  split; [exact Hn |]. exact (Hnan Hn).
Defined.

(** C6, as the code has it.  Every call of [LongitudinalMpc.update] returns.
    On a call with a present lead with status, [new_lead] is true afterwards
    exactly when that call re-seeded: [prev_lead_status] was false or
    [x_lead] differs from [prev_lead_x] by more than 2.5.  On a call with no
    lead, [new_lead] keeps the value it had before the call. *)
Theorem C6_new_lead `{Collaborators} (CS : CarState.t) (lead : option Lead.t)
  (v_cruise_setpoint : float) (t_now t_done : R) (self : LongitudinalMpc.t) :
  exists self',
    LongitudinalMpc.update CS lead v_cruise_setpoint t_now t_done self = (Ok tt, self') /\
    LongitudinalMpc.new_lead self' =
      match LongitudinalMpc.present lead with
      | Some l => LongitudinalMpc.reseeds self l
      | None => LongitudinalMpc.new_lead self
      end.
Proof.
  destruct (update_spec CS lead v_cruise_setpoint t_now t_done self)
    as (self' & E & N & _).
  exists self'. split; assumption.
Qed.

(** C6 fails as stated: a fresh wrapper sees a lead in one call and no lead
    in the next; [new_lead] is still true after the second call, where the
    pulse of the specification is false. *)
Lemma C6_counterexample :
  exists m1 m2,
    LongitudinalMpc.update (H := Double.zero_solver) (Double.car_state (Num 0))
      (Some (Double.lead (Num 30) (Num 0))) (Num 30) 0 0 (LongitudinalMpc.init 1)
    = (Ok tt, m1) /\
    LongitudinalMpc.update (Double.car_state (Num 0)) None (Num 30) 1 1 m1 = (Ok tt, m2) /\
    LongitudinalMpc.new_lead m2 = true /\
    new_lead_pulse m1 None = false.
Proof.
  destruct (update_spec (H := Double.zero_solver) (Double.car_state (Num 0))
              (Some (Double.lead (Num 30) (Num 0))) (Num 30) 0 0
              (LongitudinalMpc.init 1)) as (m1 & E1 & N1 & _).
  destruct (update_spec (Double.car_state (Num 0)) None (Num 30) 1 1 m1)
    as (m2 & E2 & N2 & _).
  exists m1, m2. split; [exact E1 |]. split; [exact E2 |]. split; [| reflexivity].
  rewrite N2. cbn [LongitudinalMpc.present]. rewrite N1. reflexivity.
Qed.

(** ** Planner.choose_solution *)

Lemma py_min_seq_Num3 (a b c : R) :
  py_min_seq (Num a) [Num b; Num c] = Num (Rmin (Rmin a b) c).
Proof. unfold py_min_seq. cbn [fold_left]. rewrite !py_min_Num. reflexivity. Qed.

(** The scan of [min(..., key=...)]: the kept item is the start or a scanned
    one, and no scanned item nor the start is smaller. *)
Lemma min_scan_spec (rest : list (string * float)) :
  forall best0 : string * float,
    isnan (snd best0) = false ->
    Forall (fun c => isnan (snd c) = false) rest ->
    let best :=
      fold_left (fun best it' => if (snd it' <? snd best)%fl then it' else best) rest best0 in
    In best (best0 :: rest) /\
    Forall (fun c => (snd best <=? snd c)%fl = true) (best0 :: rest).
Proof.
  induction rest as [| it rest IH]; intros best0 Hn0 Hn; cbn [fold_left].
  - split; [left; reflexivity |]. constructor; [| constructor].
    destruct (snd best0); [| discriminate]. cbn. apply bool_decide_eq_true_2. lra.
  - inversion Hn as [| ? ? Hit Hrest]; subst.
    destruct (snd it <? snd best0)%fl eqn:Hlt.
    + destruct (IH it Hit Hrest) as [Hin Hall].
      split; [right; exact Hin |].
      inversion Hall as [| ? ? Hb Hall']; subst.
      constructor; [| constructor; assumption].
      revert Hb Hlt. unfold fle, flt, fcmp.
      destruct (snd (fold_left _ rest it)), (snd it), (snd best0); try discriminate.
      intros Hb Hlt. apply bool_decide_eq_true_1 in Hb, Hlt.
      apply bool_decide_eq_true_2. lra.
    + destruct (IH best0 Hn0 Hrest) as [Hin Hall].
      split; [destruct Hin as [<- | Hin]; [left; reflexivity | right; right; exact Hin] |].
      inversion Hall as [| ? ? Hb Hall']; subst.
      constructor; [exact Hb |]. constructor; [| exact Hall'].
      revert Hb Hlt Hit Hn0. unfold fle, flt, fcmp, isnan.
      destruct (snd (fold_left _ rest best0)), (snd it), (snd best0); try discriminate.
      intros Hb Hlt _ _. apply bool_decide_eq_true_1 in Hb.
      apply bool_decide_eq_false_1 in Hlt.
      apply bool_decide_eq_true_2. lra.
Qed.

Lemma py_min_key_spec (items : list (string * float)) :
  items <> [] ->
  Forall (fun c => isnan (snd c) = false) items ->
  exists k v,
    py_min_key items = Ok k /\ In (k, v) items /\
    Forall (fun c => (v <=? snd c)%fl = true) items.
Proof.
  intros Hne Hn. destruct items as [| it rest]; [contradiction |].
  inversion Hn as [| ? ? Hit Hrest]; subst.
  destruct (min_scan_spec rest it Hit Hrest) as [Hin Hall].
  unfold py_min_key.
  set (best := fold_left _ rest it) in *.
  exists (fst best), (snd best). split; [reflexivity |].
  split; [rewrite <- surjective_pairing; exact Hin | exact Hall].
Qed.

Section Arbiter.
Context `{Collaborators} `{DictOrder}.

Lemma solutions_not_nil (self : Planner.t) : Planner.solutions self <> [].
Proof. unfold Planner.solutions. discriminate. Qed.

(** What an item of [solutions] can be. *)
Lemma solutions_In (self : Planner.t) (k : string) (v : float) :
  In (k, v) (Planner.solutions self) ->
  (k = "cruise"%string /\ v = Planner.v_cruise self) \/
  (k = "mpc1"%string /\ v = LongitudinalMpc.v_mpc (Planner.mpc1 self)) \/
  (k = "mpc2"%string /\ v = LongitudinalMpc.v_mpc (Planner.mpc2 self)).
Proof.
  unfold Planner.solutions.
  destruct (LongitudinalMpc.prev_lead_status (Planner.mpc1 self)),
           (LongitudinalMpc.prev_lead_status (Planner.mpc2 self));
    cbn [app In]; intros Hin;
    repeat (destruct Hin as [Hin | Hin]; [injection Hin as <- <-; auto |]);
    contradiction.
Qed.

(** With longitudinal control not enabled, only [v_acc_future] is assigned. *)
Lemma choose_solution_disabled (v_cruise_setpoint : float) (self : Planner.t) :
  Planner.choose_solution v_cruise_setpoint false self =
  (Ok tt,
   self <| Planner.v_acc_future :=
     py_min_seq (LongitudinalMpc.v_mpc_future (Planner.mpc1 self))
       [LongitudinalMpc.v_mpc_future (Planner.mpc2 self); v_cruise_setpoint] |>).
Proof. reflexivity. Qed.

End Arbiter.

(** C3, as the code has it.  When longitudinal control is enabled and the
    candidate velocities are numbers, [choose_solution] returns and afterwards
    [v_acc] is an element of [{v_cruise, mpc1.v_mpc, mpc2.v_mpc}], equals the
    minimum over the available candidates (cruise always, mpc1/mpc2 iff their
    [prev_lead_status] holds), and [longitudinalPlanSource] names an available
    candidate whose velocity equals [v_acc]; this for any iteration order of
    the dict. *)
Theorem C3_choose_solution_enabled `{Collaborators} `{DictOrder}
  (v_cruise_setpoint : float) (self : Planner.t) :
  Forall (fun c => isnan (snd c) = false) (Planner.solutions self) ->
  exists self',
    Planner.choose_solution v_cruise_setpoint true self = (Ok tt, self') /\
    arbitrated self'.
Proof.
  intros Hn.
  destruct (py_min_key_spec (dict_items (Planner.solutions self))) as (k & v & Ek & Hin & Hall).
  { intros Hnil. pose proof (dict_items_perm (Planner.solutions self)) as Hp.
    rewrite Hnil in Hp. apply Permutation_nil in Hp.
    exact (solutions_not_nil self Hp). }
  { eapply Permutation_Forall; [| exact Hn]. symmetry. apply dict_items_perm. }
  apply (Permutation_in _ (dict_items_perm _)) in Hin.
  apply (Permutation_Forall (dict_items_perm _)) in Hall.
  unfold Planner.choose_solution, when, bind, get, lift_result. rewrite Ek.
  cbv beta iota.
  assert (Hframe : forall s : Planner.t,
    Planner.v_cruise s = Planner.v_cruise self ->
    Planner.mpc1 s = Planner.mpc1 self ->
    Planner.mpc2 s = Planner.mpc2 self ->
    Planner.v_acc s = v ->
    Planner.longitudinalPlanSource s = k ->
    arbitrated s).
  { intros s E0 E1 E2 Ev Es. unfold arbitrated.
    assert (Esol : Planner.solutions s = Planner.solutions self)
      by (unfold Planner.solutions; rewrite E0, E1, E2; reflexivity).
    rewrite Esol, Ev, Es, E0, E1, E2. split; [| split; assumption].
    destruct (solutions_In self k v Hin) as [[_ ->] | [[_ ->] | [_ ->]]];
      cbn [In]; auto. }
  destruct (solutions_In self k v Hin) as [[-> ->] | [[-> ->] | [-> ->]]];
    cbn [String.eqb Ascii.eqb Bool.eqb]; eexists; (split; [reflexivity |]);
    apply Hframe; destruct self; reflexivity.
Qed.

(** The arbitration of C3 on a planner cruising at 5 m/s behind a lead for
    which the first MPC proposes 1 m/s. *)
Lemma C3_choose_solution_enabled_witness :
  Forall (fun c => isnan (snd c) = false)
    (Planner.solutions (Double.planner (Num 5) (Num 5) (Num 1))) /\
  exists self',
    @Planner.choose_solution Double.zero_solver Double.insertion_order (Num 30) true
      (Double.planner (Num 5) (Num 5) (Num 1)) = (Ok tt, self') /\
    arbitrated self'.
Proof.
  assert (Hn : Forall (fun c => isnan (snd c) = false)
                 (Planner.solutions (Double.planner (Num 5) (Num 5) (Num 1))))
    by (repeat constructor).
  split; [exact Hn |].
  exact (@C3_choose_solution_enabled Double.zero_solver Double.insertion_order (Num 30)
           (Double.planner (Num 5) (Num 5) (Num 1)) Hn).
Defined.

(** C3 fails as stated: with longitudinal control not enabled the arbiter
    leaves [v_acc] alone.  Here [v_acc = v_cruise = 5] (what the disabled
    branch of [update] writes) while the first MPC, which has a lead,
    proposes 1: [v_acc] is not the minimum over the available candidates. *)
Lemma C3_counterexample :
  ~ arbitrated
      (snd (@Planner.choose_solution Double.zero_solver Double.insertion_order (Num 30) false
              (Double.planner (Num 5) (Num 5) (Num 1)))).
Proof.
  rewrite choose_solution_disabled. cbn [snd].
  intros (_ & Hall & _). revert Hall. unfold Planner.solutions. simpl_upd.
  intros Hall. inversion Hall as [| ? ? _ Hall']; subst.
  inversion Hall' as [| ? ? Hle _]; subst.
  apply bool_decide_eq_true_1 in Hle. lra.
Qed.

(** C10. For every call of [choose_solution] with [enabled = false], the
    fields [v_acc], [a_acc] and [longitudinalPlanSource] are left unchanged,
    [v_acc_future] is recomputed as
    [min(mpc1.v_mpc_future, mpc2.v_mpc_future, v_cruise_setpoint)], and no
    other planner field is modified: the planner after the call is the
    planner before it with [v_acc_future] replaced.  On numbers the [min] of
    Python is the least of the three. *)
Theorem C10_choose_solution_disabled `{Collaborators} `{DictOrder}
  (v_cruise_setpoint : float) (self : Planner.t) :
  let future :=
    py_min_seq (LongitudinalMpc.v_mpc_future (Planner.mpc1 self))
      [LongitudinalMpc.v_mpc_future (Planner.mpc2 self); v_cruise_setpoint] in
  let self' := snd (Planner.choose_solution v_cruise_setpoint false self) in
  Planner.choose_solution v_cruise_setpoint false self
  = (Ok tt, self <| Planner.v_acc_future := future |>) /\
  Planner.v_acc self' = Planner.v_acc self /\
  Planner.a_acc self' = Planner.a_acc self /\
  Planner.longitudinalPlanSource self' = Planner.longitudinalPlanSource self /\
  Planner.v_acc_future self' = future /\
  (forall a b c : R,
     py_min_seq (Num a) [Num b; Num c] = Num (Rmin (Rmin a b) c)).
Proof.
  intros future self'. subst future self'. rewrite choose_solution_disabled.
  cbn [snd]. split; [reflexivity |].
  repeat (split; [destruct self; reflexivity |]).
  intros a b c. apply py_min_seq_Num3.
Qed.

(** ** Planner.update: the map limits *)

Section MapLimits.
Context `{Collaborators}.



(** The curvature block sits inside the speed-limit branch: while the speed
    limit of the map is not used, a valid curvature does not bound the speed. *)
Lemma curvature_gated_by_speed_limit (self : Planner.t) (m : LiveMapData.t) :
  Planner.last_live_map_data self = Some m ->
  Planner.set_speed_limit_active m = false ->
  exists self',
    Planner.update_map_limits self = (Ok tt, self') /\
    Planner.v_curvature self' = NO_CURVATURE_SPEED.
Proof.
  intros Hmap. unfold Planner.update_map_limits, Planner.set_speed_limit_active.
  rewrite bind_get, Hmap, bind_modify. unfold when.
  destruct (LiveMapData.speedLimitValid m); cbn [andb].
  2:{ intros _. destruct self. eexists. split; reflexivity. }
  intros ->. destruct self. eexists. split; reflexivity.
Qed.

End MapLimits.




(** ** Planner.update: a tick with a radar message *)

Section Tick.
Context `{Collaborators} `{DictOrder}.

Lemma poll_frame_refl (self : Planner.t) : poll_frame self self.
Proof. repeat split. Qed.

Lemma poll_frame_trans (s1 s2 s3 : Planner.t) :
  poll_frame s1 s2 -> poll_frame s2 s3 -> poll_frame s1 s3.
Proof. unfold poll_frame. intros (? & ? & ?) (? & ? & ?). repeat split; congruence. Qed.

(** The poll loop never raises; the local [l20] is set once a live20 message
    was seen. *)
Lemma poll_spec (msgs : list Planner.Received) :
  forall (loc : Planner.locals) (self : Planner.t),
    exists loc' self',
      Planner.poll msgs loc self = (Ok loc', self') /\
      poll_frame self self' /\
      ((snd (fst loc) <> None \/ exists l20, In (Planner.from_live20 l20) msgs) ->
       snd (fst loc') <> None) /\
      (snd (fst loc) = None -> (forall l20, ~ In (Planner.from_live20 l20) msgs) ->
       snd (fst loc') = None).
Proof.
  induction msgs as [| m rest IH]; intros [[md l20] gps] self.
  - exists (md, l20, gps), self. split; [reflexivity |]. split; [apply poll_frame_refl |].
    cbn [fst snd In]. split.
    + intros [Hl | [? []]]. exact Hl.
    + auto.
  - cbn [Planner.poll]. destruct m as [x | x | x | x | x]; cbn [Planner.recv_one].
    + unfold bind, ret. destruct (IH (Some x, l20, gps) self) as (loc' & self' & E & F & P & N).
      exists loc', self'. split; [exact E |]. split; [exact F |]. cbn [fst snd In] in *. split.
      * intros [Hl | [l [Hin | Hin]]]; [auto | discriminate | eauto].
      * intros Hl Hno. apply N; [exact Hl |]. intros l Hin. apply (Hno l). auto.
    + unfold bind, ret. destruct (IH (md, Some x, gps) self) as (loc' & self' & E & F & P & N).
      exists loc', self'. split; [exact E |]. split; [exact F |]. cbn [fst snd In] in *. split.
      * intros _. apply P. left. discriminate.
      * intros _ Hno. exfalso. apply (Hno x). left. reflexivity.
    + unfold bind, ret. destruct (IH (md, l20, Some x) self) as (loc' & self' & E & F & P & N).
      exists loc', self'. split; [exact E |]. split; [exact F |]. cbn [fst snd In] in *. split.
      * intros [Hl | [l [Hin | Hin]]]; [auto | discriminate | eauto].
      * intros Hl Hno. apply N; [exact Hl |]. intros l Hin. apply (Hno l). auto.
    + unfold bind, modify, ret.
      match goal with |- context [Planner.poll rest _ ?s] =>
        destruct (IH (md, l20, gps) s) as (loc' & self' & E & F & P & N) end.
      exists loc', self'. split; [exact E |].
      split; [eapply poll_frame_trans; [| exact F]; destruct self; repeat split |].
      cbn [fst snd In] in *. split.
      * intros [Hl | [l [Hin | Hin]]]; [auto | discriminate | eauto].
      * intros Hl Hno. apply N; [exact Hl |]. intros l Hin. apply (Hno l). auto.
    + unfold bind, modify, ret.
      match goal with |- context [Planner.poll rest _ ?s] =>
        destruct (IH (md, l20, gps) s) as (loc' & self' & E & F & P & N) end.
      exists loc', self'. split; [exact E |].
      split; [eapply poll_frame_trans; [| exact F]; destruct self; repeat split |].
      cbn [fst snd In] in *. split.
      * intros [Hl | [l [Hin | Hin]]]; [auto | discriminate | eauto].
      * intros Hl Hno. apply N; [exact Hl |]. intros l Hin. apply (Hno l). auto.
Qed.

(** Both calls of lines 503 and 505 pass one float to the unbound method:
    the first raises, the bare [except] catches it, the second raises again.
    Nothing is assigned. *)
Lemma update_rel_vel_raises (self : Planner.t) :
  Planner.update_rel_vel self = (Raise TypeError, self).
Proof.
  unfold Planner.update_rel_vel, try_except. rewrite bind_get.
  destruct (Planner.lead_1 self); reflexivity.
Qed.

Lemma update_model_spec (CS : CarState.t) (LaC : LatController) (cur_time : R)
  (md : ModelEvent) (self : Planner.t) :
  exists self',
    Planner.update_model CS LaC cur_time md self = (Ok tt, self') /\ poll_frame self self'.
Proof.
  unfold Planner.update_model. rewrite bind_modify, bind_get. destruct self. simpl_upd.
  destruct last_gps_planner_plan as [g |].
  - rewrite bind_modify. unfold when. destruct (GpsPlannerPlan.valid g);
      eexists; (split; [reflexivity |]); repeat split.
  - eexists. split; [reflexivity |]. repeat split.
Qed.

Lemma update_latch_spec (cur_time : R) (l20 : Live20Event.t) (self : Planner.t) :
  exists self',
    Planner.update_latch cur_time l20 self = (Ok tt, self') /\ poll_frame self self'.
Proof.
  destruct self. eexists. split; [reflexivity |]. repeat split.
Qed.

(** A tick that receives a live20 message leaves [update] by the TypeError of
    the relative-velocity latch, before any plan is sent and without
    touching the MPC wrappers. *)
Lemma update_radar_tick (CS : CarState.t) (CP' : CarParams.t) (VM : VehicleModel)
  (LaC : LatController) (LoC : LongControl.t) (v_cruise_kph : float)
  (force_slow_decel : bool) (env : Planner.Tick) (self : Planner.t) :
  (exists l20, In (Planner.from_live20 l20) (Planner.polled env)) ->
  exists self',
    Planner.update CS CP' VM LaC LoC v_cruise_kph force_slow_decel env self
    = (Raise TypeError, self') /\
    poll_frame self self'.
Proof.
  intros Hl20. unfold Planner.update.
  destruct (poll_spec (Planner.polled env) (None, None, None) self)
    as ([[md l20] gps] & s1 & E1 & F1 & P & _).
  rewrite (bind_ok _ _ _ _ _ E1). cbn [fst snd] in P.
  destruct l20 as [l20 |]; [| exfalso; apply P; auto].
  assert (Hgps : exists s2,
    match gps with
    | Some g => modify (fun self => self <| Planner.last_gps_planner_plan := Some g |>)
    | None => ret tt
    end s1 = (Ok tt, s2) /\ poll_frame s1 s2).
  { destruct gps; destruct s1; eexists; (split; [reflexivity |]); repeat split. }
  destruct Hgps as (s2 & E2 & F2). rewrite (bind_ok _ _ _ _ _ E2).
  assert (Hmd : exists s3,
    match md with
    | Some md => Planner.update_model CS LaC (Planner.cur_time env) md
    | None => ret tt
    end s2 = (Ok tt, s3) /\ poll_frame s2 s3).
  { destruct md as [md |]; [apply update_model_spec |].
    eexists. split; [reflexivity | apply poll_frame_refl]. }
  destruct Hmd as (s3 & E3 & F3). rewrite (bind_ok _ _ _ _ _ E3).
  destruct (update_latch_spec (Planner.cur_time env) l20 s3) as (s4 & E4 & F4).
  assert (Hradar :
    Planner.update_radar CS LoC (v_cruise_kph * KPH_TO_MS)%fl force_slow_decel env l20 s3
    = (Raise TypeError, s4)).
  { unfold Planner.update_radar. rewrite (bind_ok _ _ _ _ _ E4).
    apply bind_raise. apply update_rel_vel_raises. }
  rewrite (bind_raise _ _ _ _ _ Hradar).
  exists s4. split; [reflexivity |].
  eauto using poll_frame_trans.
Qed.

Lemma py_index_cases (xs : list float) (i : nat) :
  (exists x, py_index xs i = Ok x) \/ py_index xs i = Raise IndexError.
Proof. unfold py_index. destruct (nth_error xs i); eauto. Qed.

(** The tail of [update] sends the plan, unless a lane polynomial of the
    path planner has fewer than four coefficients. *)
Lemma update_send_spec (CS : CarState.t) (LaC : LatController) (LoC : LongControl.t)
  (cur_time : R) (self : Planner.t) :
  (exists plan_send self',
     Planner.update_send CS LaC LoC cur_time self = (Ok plan_send, self') /\
     Planner.plan self' = Planner.plan self ++ [plan_send]) \/
  (exists self',
     Planner.update_send CS LaC LoC cur_time self = (Raise IndexError, self') /\
     Planner.plan self' = Planner.plan self).
Proof.
  unfold Planner.update_send. rewrite !bind_modify, bind_get.
  match goal with |- context [Planner.model_dead ?s] => set (s1 := s) end.
  rewrite !bind_modify, bind_get.
  match goal with |- context [PathPlanner.r_poly (Planner.PP ?s)] => set (s3 := s) end.
  assert (Hplan : Planner.plan s3 = Planner.plan self).
  { subst s3 s1. destruct self. simpl_upd. repeat case_bool_decide; reflexivity. }
  destruct (py_index_cases (PathPlanner.r_poly (Planner.PP s3)) 3) as [[r ->] | ->].
  2:{ right. rewrite bind_lift_raise. eauto. }
  rewrite bind_lift_ok.
  destruct (py_index_cases (PathPlanner.l_poly (Planner.PP s3)) 3) as [[l ->] | ->].
  2:{ right. rewrite bind_lift_raise. eauto. }
  rewrite bind_lift_ok, bind_modify.
  left. do 2 eexists. split; [reflexivity |].
  rewrite <- Hplan. generalize s3. intros s. destruct s. reflexivity.
Qed.

(** A tick without a live20 message reaches the plan send. *)
Lemma update_quiet_tick (CS : CarState.t) (CP' : CarParams.t) (VM : VehicleModel)
  (LaC : LatController) (LoC : LongControl.t) (v_cruise_kph : float)
  (force_slow_decel : bool) (env : Planner.Tick) (self : Planner.t) :
  (forall l20, ~ In (Planner.from_live20 l20) (Planner.polled env)) ->
  (exists plan_send self',
     Planner.update CS CP' VM LaC LoC v_cruise_kph force_slow_decel env self
     = (Ok plan_send, self') /\
     Planner.plan self' = Planner.plan self ++ [plan_send]) \/
  (exists self',
     Planner.update CS CP' VM LaC LoC v_cruise_kph force_slow_decel env self
     = (Raise IndexError, self') /\
     Planner.plan self' = Planner.plan self).
Proof.
  intros Hno. unfold Planner.update.
  destruct (poll_spec (Planner.polled env) (None, None, None) self)
    as ([[md l20] gps] & s1 & E1 & (F1 & _) & _ & N).
  rewrite (bind_ok _ _ _ _ _ E1). cbn [fst snd] in N.
  rewrite (N eq_refl Hno).
  assert (Hgps : exists s2,
    match gps with
    | Some g => modify (fun self => self <| Planner.last_gps_planner_plan := Some g |>)
    | None => ret tt
    end s1 = (Ok tt, s2) /\ poll_frame s1 s2).
  { destruct gps; destruct s1; eexists; (split; [reflexivity |]); repeat split. }
  destruct Hgps as (s2 & E2 & (F2 & _)). rewrite (bind_ok _ _ _ _ _ E2).
  assert (Hmd : exists s3,
    match md with
    | Some md => Planner.update_model CS LaC (Planner.cur_time env) md
    | None => ret tt
    end s2 = (Ok tt, s3) /\ poll_frame s2 s3).
  { destruct md as [md |]; [apply update_model_spec |].
    eexists. split; [reflexivity | apply poll_frame_refl]. }
  destruct Hmd as (s3 & E3 & (F3 & _)). rewrite (bind_ok _ _ _ _ _ E3).
  rewrite bind_ret.
  destruct (update_send_spec CS LaC LoC (Planner.cur_time env) s3)
    as [(p & s4 & E4 & F4) | (s4 & E4 & F4)]; [left | right].
  - exists p, s4. split; [exact E4 |]. congruence.
  - exists s4. split; [exact E4 |]. congruence.
Qed.

End Tick.

(** C1 does not hold on the code: every tick of [Planner.update] that
    receives a live20 message ends in an exception.  The latch of lines
    502-505 calls [get_relative_velocity] on the class with one argument, in
    the [try] and again in the [except]; the TypeError of the second call
    leaves [update], and no plan message is sent in that tick. *)
Theorem C1_radar_tick_raises `{Collaborators} `{DictOrder}
  (CS : CarState.t) (CP' : CarParams.t) (VM : VehicleModel) (LaC : LatController)
  (LoC : LongControl.t) (v_cruise_kph : float) (force_slow_decel : bool)
  (env : Planner.Tick) (self : Planner.t) :
  (exists l20, In (Planner.from_live20 l20) (Planner.polled env)) ->
  exists self',
    Planner.update CS CP' VM LaC LoC v_cruise_kph force_slow_decel env self
    = (Raise TypeError, self') /\
    Planner.plan self' = Planner.plan self.
Proof.
  intros Hl20.
  destruct (update_radar_tick CS CP' VM LaC LoC v_cruise_kph force_slow_decel env self Hl20)
    as (self' & E & F & _).
  exists self'. split; assumption.
Qed.

(** The first tick of a fresh planner, with one live20 message. *)
Lemma C1_radar_tick_raises_witness :
  (exists l20, In (Planner.from_live20 l20) (Planner.polled (Double.radar_tick (Num 3)))) /\
  exists self',
    @Planner.update Double.zero_solver Double.insertion_order
      (Double.car_state (Num 20)) Double.car_params tt tt (Double.long_control pid)
      (Num 100) false (Double.radar_tick (Num 3)) (Planner.init Double.car_params true 0)
    = (Raise TypeError, self') /\
    Planner.plan self' = [].
Proof.
  assert (Hl20 : exists l20,
            In (Planner.from_live20 l20) (Planner.polled (Double.radar_tick (Num 3))))
    by (eexists; left; reflexivity).
  split; [exact Hl20 |].
  exact (@C1_radar_tick_raises Double.zero_solver Double.insertion_order
           (Double.car_state (Num 20)) Double.car_params tt tt (Double.long_control pid)
           (Num 100) false (Double.radar_tick (Num 3)) (Planner.init Double.car_params true 0)
           Hl20).
Defined.

(** C2 does not hold on the code: on a tick that receives a live20 message
    the relative velocity is not latched.  [rel_vel] of both MPC wrappers is
    what it was before the tick, whatever [lead_1.v_rel] is. *)
Theorem C2_rel_vel_not_latched `{Collaborators} `{DictOrder}
  (CS : CarState.t) (CP' : CarParams.t) (VM : VehicleModel) (LaC : LatController)
  (LoC : LongControl.t) (v_cruise_kph : float) (force_slow_decel : bool)
  (env : Planner.Tick) (self : Planner.t) :
  (exists l20, In (Planner.from_live20 l20) (Planner.polled env)) ->
  exists self',
    snd (Planner.update CS CP' VM LaC LoC v_cruise_kph force_slow_decel env self) = self' /\
    LongitudinalMpc.rel_vel (Planner.mpc1 self') = LongitudinalMpc.rel_vel (Planner.mpc1 self) /\
    LongitudinalMpc.rel_vel (Planner.mpc2 self') = LongitudinalMpc.rel_vel (Planner.mpc2 self).
Proof.
  intros Hl20.
  destruct (update_radar_tick CS CP' VM LaC LoC v_cruise_kph force_slow_decel env self Hl20)
    as (self' & E & _ & F1 & F2).
  exists self'. rewrite E, F1, F2. repeat split.
Qed.

(** The first tick of a fresh planner: the radar reports [v_rel = 3] for the
    first lead and [rel_vel] of both wrappers stays 0. *)
Lemma C2_rel_vel_not_latched_witness :
  (exists l20, In (Planner.from_live20 l20) (Planner.polled (Double.radar_tick (Num 3)))) /\
  exists self',
    snd (@Planner.update Double.zero_solver Double.insertion_order
           (Double.car_state (Num 20)) Double.car_params tt tt (Double.long_control pid)
           (Num 100) false (Double.radar_tick (Num 3))
           (Planner.init Double.car_params true 0)) = self' /\
    LongitudinalMpc.rel_vel (Planner.mpc1 self') = Num 0 /\
    LongitudinalMpc.rel_vel (Planner.mpc2 self') = Num 0.
Proof.
  assert (Hl20 : exists l20,
            In (Planner.from_live20 l20) (Planner.polled (Double.radar_tick (Num 3))))
    by (eexists; left; reflexivity).
  split; [exact Hl20 |].
  exact (@C2_rel_vel_not_latched Double.zero_solver Double.insertion_order
           (Double.car_state (Num 20)) Double.car_params tt tt (Double.long_control pid)
           (Num 100) false (Double.radar_tick (Num 3)) (Planner.init Double.car_params true 0)
           Hl20).
Defined.

(** ** A firing of the FCW checker *)

Lemma py_min_seq_const (c : R) (l : list float) :
  Forall (eq (Num c)) l -> py_min_seq (Num c) l = Num c.
Proof.
  unfold py_min_seq. induction 1 as [| x l <- _ IH]; cbn [fold_left]; [reflexivity |].
  rewrite py_min_Num. unfold Rmin. destruct (Rle_dec c c); exact IH.
Qed.

Lemma carray_min_prefix_const (n : nat) (c : R) :
  carray_min_prefix n (fun _ => Num c) = Num c.
Proof.
  unfold carray_min_prefix. apply py_min_seq_const.
  induction (seq 1 (n - 1)); constructor; [reflexivity | assumption].
Qed.

(** When every test of lines 126-133 passes on counters that all stand at 10
    or more, every counter stands at 10 or more afterwards. *)
Lemma update_counters_armed (v_ego a_ego x_lead v_lead a_lead y_lead vlat_lead : float)
  (v_lead_max : float) (c : gmap string R) :
  (v_ego >? 5.0)%fl = true ->
  (FCWChecker.calc_ttc v_ego a_ego x_lead v_lead a_lead <? 2.5)%fl = true ->
  (v_lead_max >? 2.5)%fl = true ->
  (v_ego >? v_lead)%fl = true ->
  (fabs y_lead <? 1.0)%fl = true ->
  (fabs vlat_lead <? 0.4)%fl = true ->
  map_Forall (fun _ v => v >= 10) c ->
  Forall (fun k => FCWChecker.counter c k >= 10) counter_names ->
  map_Forall (fun _ v => v >= 10)
    (FCWChecker.update_counters v_ego a_ego x_lead v_lead a_lead y_lead vlat_lead false
       v_lead_max c).
Proof.
  intros H1 H2 H3 H4 H5 H6 Hall Hnames.
  unfold FCWChecker.update_counters. rewrite H1, H2, H3, H4, H5, H6. cbn [negb].
  unfold counter_names in Hnames.
  repeat match goal with
         | H : Forall _ (_ :: _) |- _ => apply Forall_cons_iff in H as [? H]
         end.
  unfold FCWChecker.counter in *.
  repeat apply map_Forall_insert_2; try exact Hall;
    repeat (rewrite lookup_insert_ne by discriminate); lra.
Qed.

(** The call of [Double.fcw_args] on the armed checker fires when more than
    5 s have passed since time 0. *)
Lemma fcw_fires (cur_time : R) :
  5 < cur_time ->
  fst (FCWChecker.call (H := Double.zero_solver) (Double.fcw_args cur_time)
         Double.armed_checker) = true.
Proof.
  intros Ht. unfold FCWChecker.call, FCWChecker.update.
  cbn [Double.fcw_args FCWChecker.arg_mpc_solution FCWChecker.arg_cur_time
       FCWChecker.arg_v_ego FCWChecker.arg_a_ego FCWChecker.arg_x_lead
       FCWChecker.arg_v_lead FCWChecker.arg_a_lead FCWChecker.arg_y_lead
       FCWChecker.arg_vlat_lead FCWChecker.arg_fcw_lead FCWChecker.arg_blinkers
       Double.braking_solution log_t.a_ego].
  unfold carray_min. rewrite !carray_min_prefix_const.
  unfold Double.armed_checker. simpl_upd.
  rewrite (bool_decide_eq_true_2 (1 > 0.99)) by lra.
  assert (Harmed : FCWChecker.fcw_allowed
            (FCWChecker.update_counters (Num 20) (Num 0) (Num 0) (Num 10) (Num 0) (Num 0)
               (Num 0) false (py_max (Num 0) (Num 10))
               (FCWChecker.counters Double.armed_checker)) = true).
  { apply bool_decide_eq_true_2. apply update_counters_armed.
    - apply bool_decide_eq_true_2. lra.
    - unfold FCWChecker.calc_ttc. cbn [fsub lift2]. rewrite (fdiv_Num 10 2) by lra.
      cbn [np_minimum fsqr fmul fadd lift2].
      set (delta := (20 - 10) * (20 - 10) + 2 * 0 * Rmin (0 - 0) (10 / 2)).
      assert (Hdelta : delta = 100) by (unfold delta; lra).
      unfold flt; cbn [fcmp].
      rewrite (bool_decide_eq_false_2 (delta < 0.1)) by lra. cbn [orb].
      rewrite np_sqrt_Num by lra. cbn [fadd lift2 fcmp].
      pose proof (sqrt_pos delta) as Hsqrt.
      rewrite bool_decide_eq_false_2 by lra.
      rewrite fdiv_Num by lra. cbn [lift2 fcmp].
      apply bool_decide_eq_true_2.
      assert (Hz : 2 * 0 / (sqrt delta + (20 - 10)) = 0) by (unfold Rdiv; ring).
      rewrite Hz. pose proof (Rmin_l 0 5.0) as Hmin. lra.
    - rewrite py_max_Num. apply bool_decide_eq_true_2.
      pose proof (Rmax_r 0 10). lra.
    - apply bool_decide_eq_true_2. lra.
    - cbn [fabs lift1]. apply bool_decide_eq_true_2. rewrite Rabs_R0. lra.
    - cbn [fabs lift1]. apply bool_decide_eq_true_2. rewrite Rabs_R0. lra.
    - cbn [Double.armed_checker FCWChecker.counters].
      repeat apply map_Forall_insert_2; try apply map_Forall_empty; lra.
    - cbn [Double.armed_checker FCWChecker.counters]. unfold FCWChecker.counter.
      repeat constructor;
        repeat (rewrite lookup_insert_ne by discriminate);
        rewrite lookup_insert_eq; cbn [default]; lra. }
  cbn [Double.armed_checker FCWChecker.counters] in Harmed.
  rewrite Harmed.
  rewrite (bool_decide_eq_true_2 (-4 < -3.0)) by lra.
  rewrite bool_decide_eq_true_2 by lra. reflexivity.
Qed.

Lemma C9_fcw_rate_limit_witness :
  Sorted Rle (map FCWChecker.arg_cur_time [Double.fcw_args 6; Double.fcw_args 8]) /\
  (0 < 1)%nat /\
  nth_error [Double.fcw_args 6; Double.fcw_args 8] 0 = Some (Double.fcw_args 6) /\
  nth_error [Double.fcw_args 6; Double.fcw_args 8] 1 = Some (Double.fcw_args 8) /\
  nth_error (FCWChecker.run (H := Double.zero_solver)
               [Double.fcw_args 6; Double.fcw_args 8] Double.armed_checker) 0 = Some true /\
  FCWChecker.arg_cur_time (Double.fcw_args 8) <= FCWChecker.arg_cur_time (Double.fcw_args 6) + 5 /\
  nth_error (FCWChecker.run (H := Double.zero_solver)
               [Double.fcw_args 6; Double.fcw_args 8] Double.armed_checker) 1 = Some false.
Proof.
  assert (Hsorted : Sorted Rle
                      (map FCWChecker.arg_cur_time [Double.fcw_args 6; Double.fcw_args 8])).
  { cbn. repeat constructor. lra. }
  assert (Hfire : nth_error (FCWChecker.run (H := Double.zero_solver)
                               [Double.fcw_args 6; Double.fcw_args 8] Double.armed_checker) 0
                  = Some true).
  { cbn [FCWChecker.run nth_error]. f_equal. apply fcw_fires. lra. }
  assert (Hle : FCWChecker.arg_cur_time (Double.fcw_args 8)
                <= FCWChecker.arg_cur_time (Double.fcw_args 6) + 5) by (cbn; lra).
  repeat (split; [first [assumption | reflexivity | lia] |]).
  exact (proj1 (C9_fcw_rate_limit (H := Double.zero_solver)
                  [Double.fcw_args 6; Double.fcw_args 8] Double.armed_checker 0 1
                  (Double.fcw_args 6) (Double.fcw_args 8)
                  Hsorted (Nat.lt_0_succ 0) eq_refl eq_refl Hfire Hle)).
Defined.

(** * Further properties of the code *)

(** ** FCWChecker.calc_ttc: the returned time closes the gap *)

(** X1. Whenever [calc_ttc] returns less than its cap of 5 s, the returned
    time [t] is the time at which the gap closes under the relative speed
    [v_rel = v_ego - v_lead] and the limited relative acceleration
    [a_rel = min(a_ego - a_lead, v_lead / 2)]:
    [v_rel * t + a_rel / 2 * t^2 = x_lead]. *)
Theorem calc_ttc_closes_gap (v_ego a_ego x_lead v_lead a_lead ttc : R) :
  FCWChecker.calc_ttc (Num v_ego) (Num a_ego) (Num x_lead) (Num v_lead) (Num a_lead)
  = Num ttc ->
  ttc < 5 ->
  (v_ego - v_lead) * ttc + Rmin (a_ego - a_lead) (v_lead / 2) / 2 * (ttc * ttc) = x_lead.
Proof.
  unfold FCWChecker.calc_ttc.
  cbn [fsub lift2]. rewrite (fdiv_Num v_lead 2) by lra.
  cbn [np_minimum fsqr fmul fadd lift2].
  set (v_rel := v_ego - v_lead).
  set (a_rel := Rmin (a_ego - a_lead) (v_lead / 2)).
  set (delta := v_rel * v_rel + 2 * x_lead * a_rel).
  unfold flt at 1. cbn [fcmp].
  case_bool_decide as Hdelta; cbn [orb].
  { intros Heq Hlt. injection Heq as <-. lra. }
  rewrite np_sqrt_Num by lra. cbn [fadd lift2]. unfold flt. cbn [fcmp].
  case_bool_decide as Hden.
  { intros Heq Hlt. injection Heq as <-. lra. }
  rewrite fdiv_Num by lra. cbn [lift2].
  intros Heq Hlt. injection Heq as <-.
  assert (Hs : sqrt delta * sqrt delta = delta) by (apply sqrt_sqrt; lra).
  set (s := sqrt delta) in *.
  assert (Hq : Rmin (2 * x_lead / (s + v_rel)) 5.0 = 2 * x_lead / (s + v_rel)).
  { revert Hlt. unfold Rmin. destruct (Rle_dec _ _); [reflexivity | lra]. }
  rewrite Hq.
  assert (Hd : s + v_rel <> 0) by lra.
  assert (Hx : 2 * x_lead * a_rel = s * s - v_rel * v_rel) by (unfold delta in Hs; lra).
  field_simplify_eq; [| exact Hd].
  replace (2 * x_lead ^ 2 * a_rel) with (x_lead * (2 * x_lead * a_rel)) by ring.
  rewrite Hx. ring.
Qed.

(** Ego at 20 m/s touching a lead that drives 10 m/s. *)
Lemma calc_ttc_touching :
  FCWChecker.calc_ttc (Num 20) (Num 0) (Num 0) (Num 10) (Num 0) = Num (Rmin 0 5.0).
Proof.
  unfold FCWChecker.calc_ttc. cbn [fsub lift2]. rewrite (fdiv_Num 10 2) by lra.
  cbn [np_minimum fsqr fmul fadd lift2].
  set (delta := (20 - 10) * (20 - 10) + 2 * 0 * Rmin (0 - 0) (10 / 2)).
  assert (Hdelta : delta = 100) by (unfold delta; lra).
  unfold flt; cbn [fcmp].
  rewrite (bool_decide_eq_false_2 (delta < 0.1)) by lra. cbn [orb].
  rewrite np_sqrt_Num by lra. cbn [fadd lift2 fcmp].
  pose proof (sqrt_pos delta) as Hsqrt.
  rewrite bool_decide_eq_false_2 by lra.
  rewrite fdiv_Num by lra. cbn [lift2].
  assert (Hz : 2 * 0 / (sqrt delta + (20 - 10)) = 0) by (unfold Rdiv; ring).
  rewrite Hz. reflexivity.
Qed.

Lemma calc_ttc_closes_gap_witness :
  FCWChecker.calc_ttc (Num 20) (Num 0) (Num 0) (Num 10) (Num 0) = Num (Rmin 0 5.0) /\
  Rmin 0 5.0 < 5 /\
  (20 - 10) * Rmin 0 5.0 + Rmin (0 - 0) (10 / 2) / 2 * (Rmin 0 5.0 * Rmin 0 5.0) = 0.
Proof.
  assert (Hlt : Rmin 0 5.0 < 5) by (pose proof (Rmin_l 0 5.0); lra).
  split; [exact calc_ttc_touching |]. split; [exact Hlt |].
  exact (calc_ttc_closes_gap 20 0 0 10 0 (Rmin 0 5.0) calc_ttc_touching Hlt).
Defined.

(** ** FDistanceNet: round trips and monotonicity *)



Lemma remap_range_mono (ty : FDistanceNet.remapType) (v1 v2 : R) :
  v1 <= v2 ->
  exists r1 r2,
    FDistanceNet.remap_range (Num v1) ty = Num r1 /\
    FDistanceNet.remap_range (Num v2) ty = Num r2 /\
    r1 <= r2.
Proof.
  intros Hv. unfold FDistanceNet.remap_range.
  destruct ty; cbn [FDistanceNet.remap_x FDistanceNet.remap_y fst snd fsub lift2];
    (rewrite !fdiv_Num by lra);
    cbn [fmul fadd lift2]; rewrite !py_max_Num, !py_min_Num;
    (do 2 eexists; split; [reflexivity |]; split; [reflexivity |]);
    unfold Rmin, Rmax; repeat destruct (Rle_dec _ _); lra.
Qed.

Lemma sigmoid_mono (z1 z2 : R) :
  z1 <= z2 ->
  exists s1 s2,
    FDistanceNet.sigmoid (Num z1) = Num s1 /\
    FDistanceNet.sigmoid (Num z2) = Num s2 /\
    0 < s1 /\ s1 <= s2 /\ s2 < 1.
Proof.
  intros Hz. unfold FDistanceNet.sigmoid. cbn [fneg fexp lift1 fadd lift2].
  pose proof (exp_pos (- z1)) as H1. pose proof (exp_pos (- z2)) as H2.
  rewrite !fdiv_Num by lra.
  do 2 eexists. split; [reflexivity |]. split; [reflexivity |].
  assert (Hexp : exp (- z2) <= exp (- z1)).
  { destruct Hz as [Hlt | ->]; [left; apply exp_increasing; lra | right; reflexivity]. }
  unfold Rdiv. rewrite !Rmult_1_l.
  split; [apply Rinv_0_lt_compat; lra |].
  split; [apply Rinv_le_contravar; lra |].
  rewrite <- Rinv_1 at 2. apply Rinv_lt_contravar; lra.
Qed.

Lemma Int_part_mono (x y : R) : x <= y -> (Int_part x <= Int_part y)%Z.
Proof.
  intros Hxy.
  destruct (base_Int_part x) as [Hx1 _]. destruct (base_Int_part y) as [_ Hy2].
  assert (Hlt : IZR (Int_part x) < IZR (Int_part y + 1)) by (rewrite plus_IZR; lra).
  apply lt_IZR in Hlt. lia.
Qed.

Lemma py_round2_mono (x y : R) :
  0 <= x <= y ->
  exists rx ry, py_round2 (Num x) = Num rx /\ py_round2 (Num y) = Num ry /\ rx <= ry.
Proof.
  intros [Hx Hxy]. do 2 eexists. split; [reflexivity |]. split; [reflexivity |].
  unfold round_half_away. rewrite !bool_decide_eq_true_2 by lra.
  assert (Hle : IZR (Int_part (x * 100 + 1 / 2)) <= IZR (Int_part (y * 100 + 1 / 2)))
    by (apply IZR_le, Int_part_mono; lra).
  lra.
Qed.

(** X3. The generated time gap grows with the ego speed and shrinks with the
    latched relative speed: for [v1 <= v2] and [r2 <= r1],
    [generateTR(v1)] with [rel_vel = r1] is at most [generateTR(v2)] with
    [rel_vel = r2]. *)
Theorem generateTR_monotone `{Collaborators} (v1 v2 r1 r2 : R) (self : LongitudinalMpc.t) :
  v1 <= v2 ->
  r2 <= r1 ->
  exists tr1 tr2 : R,
    LongitudinalMpc.generateTR (Num v1) (self <| LongitudinalMpc.rel_vel := Num r1 |>)
    = Num tr1 /\
    LongitudinalMpc.generateTR (Num v2) (self <| LongitudinalMpc.rel_vel := Num r2 |>)
    = Num tr2 /\
    tr1 <= tr2.
Proof.
  intros Hv Hr. unfold LongitudinalMpc.generateTR.
  cbn [LongitudinalMpc.rel_vel apply_update]. unfold constant.
  unfold FDistanceNet.think. cbn [fst snd].
  destruct (remap_range_mono FDistanceNet.vel v1 v2 Hv) as (a1 & a2 & -> & -> & Ha).
  destruct (remap_range_mono FDistanceNet.rel_vel r2 r1 Hr) as (b2 & b1 & -> & -> & Hb).
  cbn [fmul fadd lift2 FDistanceNet.synaptic_weights fst snd].
  destruct (sigmoid_mono (a1 * 3.0327508 + b1 * -2.07414288)
              (a2 * 3.0327508 + b2 * -2.07414288)) as (s1 & s2 & -> & -> & _ & Hs & _);
    [lra |].
  destruct (remap_range_mono FDistanceNet.rvs_dist s1 s2 Hs) as (t1 & t2 & E1 & E2 & Ht).
  destruct (remap_range_Num s1 FDistanceNet.rvs_dist) as (t1' & E1' & Hb1).
  rewrite E1 in E1'. injection E1' as <-. cbn [FDistanceNet.remap_y fst snd] in Hb1.
  rewrite E1, E2.
  destruct (py_round2_mono t1 t2) as (q1 & q2 & -> & -> & Hq); [lra |].
  exists q1, q2. auto.
Qed.

Lemma generateTR_monotone_witness :
  10 <= 30 /\ 0 <= 2 /\
  exists tr1 tr2 : R,
    LongitudinalMpc.generateTR (H := Double.zero_solver) (Num 10)
      ((LongitudinalMpc.init 1) <| LongitudinalMpc.rel_vel := Num 2 |>) = Num tr1 /\
    LongitudinalMpc.generateTR (H := Double.zero_solver) (Num 30)
      ((LongitudinalMpc.init 1) <| LongitudinalMpc.rel_vel := Num 0 |>) = Num tr2 /\
    tr1 <= tr2.
Proof.
  assert (H1 : 10 <= 30) by lra. assert (H2 : 0 <= 2) by lra.
  split; [exact H1 |]. split; [exact H2 |].
  exact (generateTR_monotone (H := Double.zero_solver) 10 30 2 0 (LongitudinalMpc.init 1) H1 H2).
Defined.

(** ** FCWChecker.update: what a firing needs *)

Section FCWMore.
Context `{Collaborators}.

(** The counters after lines 126-133, key by key, in terms of the counters
    before. *)
Lemma update_counters_lookup (v_ego a_ego x_lead v_lead a_lead y_lead vlat_lead : float)
  (blinkers : bool) (v_lead_max : float) (c : gmap string R) :
  let c' :=
    FCWChecker.update_counters v_ego a_ego x_lead v_lead a_lead y_lead vlat_lead blinkers
      v_lead_max c in
  c' !! "v_ego"%string
  = Some (if (v_ego >? 5.0)%fl then FCWChecker.counter c "v_ego" + 1 else 0) /\
  c' !! "ttc"%string
  = Some (if (FCWChecker.calc_ttc v_ego a_ego x_lead v_lead a_lead <? 2.5)%fl
          then FCWChecker.counter c "ttc" + 1 else 0) /\
  c' !! "v_lead_max"%string
  = Some (if (v_lead_max >? 2.5)%fl then FCWChecker.counter c "v_lead_max" + 1 else 0) /\
  c' !! "v_ego_lead"%string
  = Some (if (v_ego >? v_lead)%fl then FCWChecker.counter c "v_ego_lead" + 1 else 0) /\
  c' !! "lead_seen"%string = Some (FCWChecker.counter c "lead_seen" + 0.33) /\
  c' !! "y_lead"%string
  = Some (if (fabs y_lead <? 1.0)%fl then FCWChecker.counter c "y_lead" + 1 else 0) /\
  c' !! "vlat_lead"%string
  = Some (if (fabs vlat_lead <? 0.4)%fl then FCWChecker.counter c "vlat_lead" + 1 else 0) /\
  c' !! "blinkers"%string
  = Some (if negb blinkers then FCWChecker.counter c "blinkers" + 10.0 / (20 * 3.0) else 0).
Proof.
  intros c'. subst c'. unfold FCWChecker.update_counters, FCWChecker.counter.
  repeat split;
    repeat (rewrite lookup_insert_ne by discriminate);
    rewrite lookup_insert_eq;
    repeat (rewrite lookup_insert_ne by discriminate); reflexivity.
Qed.

(** The counters after a call: updated when the lead hint is set, untouched
    otherwise. *)
Lemma call_counters (a : FCWChecker.Args) (self : FCWChecker.t) :
  FCWChecker.counters (snd (FCWChecker.call a self)) =
  if (FCWChecker.arg_fcw_lead a >? 0.99)%fl
  then FCWChecker.update_counters (FCWChecker.arg_v_ego a) (FCWChecker.arg_a_ego a)
         (FCWChecker.arg_x_lead a) (FCWChecker.arg_v_lead a) (FCWChecker.arg_a_lead a)
         (FCWChecker.arg_y_lead a) (FCWChecker.arg_vlat_lead a) (FCWChecker.arg_blinkers a)
         (py_max (FCWChecker.v_lead_max self) (FCWChecker.arg_v_lead a))
         (FCWChecker.counters self)
  else FCWChecker.counters self.
Proof.
  unfold FCWChecker.call, FCWChecker.update.
  destruct self as [fa vmax seen last mina c].
  cbn [FCWChecker.last_min_a FCWChecker.v_lead_max FCWChecker.counters
       FCWChecker.last_fcw_time apply_update]; unfold constant.
  destruct (_ >? 0.99)%fl; [| reflexivity].
  match goal with |- context [if ?c then (true, _) else _] => destruct c end; reflexivity.
Qed.

Lemma call_hinted (a : FCWChecker.Args) (self : FCWChecker.t) :
  fst (FCWChecker.call a self) = true -> (FCWChecker.arg_fcw_lead a >? 0.99)%fl = true.
Proof.
  unfold FCWChecker.call, FCWChecker.update.
  destruct (_ >? 0.99)%fl; [reflexivity | discriminate].
Qed.

End FCWMore.

(** X4. A call of [FCWChecker.update] returns true only if every test of
    that very call passes: the lead hint is above 0.99, the ego is faster than
    5 m/s and faster than the lead, the time to collision is below 2.5 s, the
    running maximum of the lead speed is above 2.5 m/s, the lead is within
    1 m laterally and slower than 0.4 m/s laterally, and no blinker is on. *)
Theorem fcw_fires_only_if `{Collaborators} (a : FCWChecker.Args) (self : FCWChecker.t) :
  fst (FCWChecker.call a self) = true ->
  (FCWChecker.arg_fcw_lead a >? 0.99)%fl = true /\
  (FCWChecker.arg_v_ego a >? 5.0)%fl = true /\
  (FCWChecker.calc_ttc (FCWChecker.arg_v_ego a) (FCWChecker.arg_a_ego a)
     (FCWChecker.arg_x_lead a) (FCWChecker.arg_v_lead a) (FCWChecker.arg_a_lead a)
   <? 2.5)%fl = true /\
  (py_max (FCWChecker.v_lead_max self) (FCWChecker.arg_v_lead a) >? 2.5)%fl = true /\
  (FCWChecker.arg_v_ego a >? FCWChecker.arg_v_lead a)%fl = true /\
  (fabs (FCWChecker.arg_y_lead a) <? 1.0)%fl = true /\
  (fabs (FCWChecker.arg_vlat_lead a) <? 0.4)%fl = true /\
  FCWChecker.arg_blinkers a = false.
Proof.
  intros Hfire.
  pose proof (call_hinted a self Hfire) as Hhint.
  destruct (fcw_update_true a self Hfire) as (Hall & _).
  rewrite call_counters, Hhint in Hall.
  destruct (update_counters_lookup (FCWChecker.arg_v_ego a) (FCWChecker.arg_a_ego a)
              (FCWChecker.arg_x_lead a) (FCWChecker.arg_v_lead a) (FCWChecker.arg_a_lead a)
              (FCWChecker.arg_y_lead a) (FCWChecker.arg_vlat_lead a)
              (FCWChecker.arg_blinkers a)
              (py_max (FCWChecker.v_lead_max self) (FCWChecker.arg_v_lead a))
              (FCWChecker.counters self))
    as (L1 & L2 & L3 & L4 & _ & L6 & L7 & L8).
  apply (map_Forall_lookup_1 _ _ _ _ Hall) in L1, L2, L3, L4, L6, L7, L8.
  cbv beta in L1, L2, L3, L4, L6, L7, L8.
  split; [exact Hhint |].
  repeat split;
    match goal with
    | |- ?b = true => destruct b; [reflexivity | exfalso; lra]
    | |- ?b = false => destruct b; [exfalso; cbn [negb] in *; lra | reflexivity]
    end.
Qed.

Lemma fcw_fires_only_if_witness :
  fst (FCWChecker.call (H := Double.zero_solver) (Double.fcw_args 6) Double.armed_checker)
  = true /\
  FCWChecker.arg_blinkers (Double.fcw_args 6) = false /\
  (FCWChecker.arg_v_ego (Double.fcw_args 6) >? 5.0)%fl = true.
Proof.
  assert (Hfire : fst (FCWChecker.call (H := Double.zero_solver) (Double.fcw_args 6)
                         Double.armed_checker) = true) by (apply fcw_fires; lra).
  split; [exact Hfire |].
  destruct (fcw_fires_only_if (H := Double.zero_solver) (Double.fcw_args 6)
              Double.armed_checker Hfire) as (_ & Hv & _ & _ & _ & _ & _ & Hb).
  split; [exact Hb | exact Hv].
Defined.

Section FCWArming.
Context `{Collaborators}.

(** One call moves the "blinkers" counter by at most 1/6, and never below
    zero. *)
Lemma blinkers_counter_step (a : FCWChecker.Args) (self : FCWChecker.t) :
  0 <= FCWChecker.counter (FCWChecker.counters self) "blinkers" ->
  0 <= FCWChecker.counter (FCWChecker.counters (snd (FCWChecker.call a self))) "blinkers"
  <= FCWChecker.counter (FCWChecker.counters self) "blinkers" + 1 / 6.
Proof.
  intros H0. rewrite call_counters.
  destruct (_ >? 0.99)%fl; [| lra].
  match goal with |- context [FCWChecker.update_counters ?a1 ?a2 ?a3 ?a4 ?a5 ?a6 ?a7 ?b ?m ?c] =>
    destruct (update_counters_lookup a1 a2 a3 a4 a5 a6 a7 b m c)
      as (_ & _ & _ & _ & _ & _ & _ & L8) end.
  unfold FCWChecker.counter at 1 2. rewrite L8. cbn [default from_option].
  unfold Datatypes.id. destruct (negb _); lra.
Qed.

(** A call that fires found the "blinkers" counter at 10 - 1/6 or more. *)
Lemma fire_needs_blinkers_counter (a : FCWChecker.Args) (self : FCWChecker.t) :
  fst (FCWChecker.call a self) = true ->
  FCWChecker.counter (FCWChecker.counters self) "blinkers" + 1 / 6 >= 10.
Proof.
  intros Hfire.
  pose proof (call_hinted a self Hfire) as Hhint.
  destruct (fcw_update_true a self Hfire) as (Hall & _).
  rewrite call_counters, Hhint in Hall.
  match type of Hall with context [FCWChecker.update_counters ?a1 ?a2 ?a3 ?a4 ?a5 ?a6 ?a7 ?b ?m ?c] =>
    destruct (update_counters_lookup a1 a2 a3 a4 a5 a6 a7 b m c)
      as (_ & _ & _ & _ & _ & _ & _ & L8) end.
  apply (map_Forall_lookup_1 _ _ _ _ Hall) in L8. cbv beta in L8.
  destruct (negb _); lra.
Qed.

Lemma fcw_arming (calls : list FCWChecker.Args) :
  forall (self : FCWChecker.t) (k j : nat),
    0 <= FCWChecker.counter (FCWChecker.counters self) "blinkers" <= IZR (Z.of_nat k) / 6 ->
    (k + j < 59)%nat ->
    nth_error (FCWChecker.run calls self) j <> Some true.
Proof.
  induction calls as [| a rest IH]; intros self k j Hc Hkj.
  - destruct j; discriminate.
  - cbn [FCWChecker.run].
    destruct j as [| j']; cbn [nth_error].
    + intros Heq. injection Heq as Hfire.
      pose proof (fire_needs_blinkers_counter a self Hfire) as Hneed.
      assert (Hk : IZR (Z.of_nat k) <= 58) by (apply IZR_le; lia).
      lra.
    + apply (IH _ (S k) j'); [| lia].
      destruct (blinkers_counter_step a self) as [H1 H2]; [lra |].
      split; [exact H1 |].
      rewrite Nat2Z.inj_succ, succ_IZR. lra.
Qed.

End FCWArming.

(** X5. After [reset_lead], none of the next 59 calls of [update] fires,
    whatever they are given: the "blinkers" counter starts from the empty dict
    and gains at most 10/60 per call, so it reaches 10 at the 60th call at
    the earliest. *)
Theorem fcw_quiet_after_reset `{Collaborators} (calls : list FCWChecker.Args)
  (cur_time : R) (self : FCWChecker.t) (j : nat) :
  (j < 59)%nat ->
  nth_error (FCWChecker.run calls (FCWChecker.reset_lead cur_time self)) j <> Some true.
Proof.
  intros Hj. apply (fcw_arming calls _ 0 j); [| lia].
  cbn [FCWChecker.reset_lead FCWChecker.counters]. unfold FCWChecker.counter.
  rewrite lookup_empty. cbn [default from_option]. change (Z.of_nat 0) with 0%Z. lra.
Qed.

(** The first call after a reset, with every test passing, does not fire. *)
Lemma fcw_quiet_after_reset_witness :
  (0 < 59)%nat /\
  nth_error (FCWChecker.run (H := Double.zero_solver) [Double.fcw_args 6; Double.fcw_args 8]
               (FCWChecker.reset_lead 0 Double.armed_checker)) 0 <> Some true.
Proof.
  assert (Hj : (0 < 59)%nat) by lia.
  split; [exact Hj |].
  exact (fcw_quiet_after_reset (H := Double.zero_solver)
           [Double.fcw_args 6; Double.fcw_args 8] 0 Double.armed_checker 0 Hj).
Defined.

(** ** limit_accel_in_turns *)

Section Turns.
Context `{Collaborators}.

(** With a lateral divisor that is a non-zero number or NaN the function
    returns. *)
Lemma limit_accel_in_turns_ok (v_ego angle_steers : float) (a_target : float * float)
  (CP : CarParams.t) (angle_later : float) :
  (CarParams.steerRatio CP * CarParams.wheelbase CP)%fl <> Num 0 ->
  exists r, limit_accel_in_turns v_ego angle_steers a_target CP angle_later = Ok r.
Proof.
  intros Hden. unfold limit_accel_in_turns.
  destruct (CarParams.steerRatio CP * CarParams.wheelbase CP)%fl as [d |].
  - assert (Hd : d <> 0) by (intros ->; apply Hden; reflexivity).
    rewrite !py_div_ok by exact Hd. eexists. reflexivity.
  - cbn [py_div]. eexists. reflexivity.
Qed.

End Turns.

(** X6. For numbers and a non-zero [steerRatio * wheelbase],
    [limit_accel_in_turns] returns limits [(a_min', a_max')] with
    [a_min' <= a_max']: neither limit is raised, and the upper one leaves room
    for the lateral acceleration now and later,
    [a_max' <= a_total_max - v^2 * |angle| * DEG_TO_RAD / (steerRatio * wheelbase)]. *)
Theorem limit_accel_in_turns_envelope `{Collaborators}
  (v_ego angle_steers a_min a_max angle_later sr wb total deg : R) (CP : CarParams.t) :
  CarParams.steerRatio CP = Num sr ->
  CarParams.wheelbase CP = Num wb ->
  sr * wb <> 0 ->
  interp (Num v_ego) _A_TOTAL_MAX_BP _A_TOTAL_MAX_V = Num total ->
  DEG_TO_RAD = Num deg ->
  exists a_min' a_max',
    limit_accel_in_turns (Num v_ego) (Num angle_steers) (Num a_min, Num a_max) CP
      (Num angle_later) = Ok (Num a_min', Num a_max') /\
    a_min' <= a_max' /\
    a_min' <= a_min /\
    a_max' <= a_max /\
    a_max' <= total - v_ego * v_ego * Rabs angle_steers * deg / (sr * wb) /\
    a_max' <= total - v_ego * v_ego * Rabs angle_later * deg / (sr * wb).
Proof.
  intros Hsr Hwb Hden Htot Hdeg. unfold limit_accel_in_turns.
  rewrite Hsr, Hwb, Htot, Hdeg. cbn [fmul fsqr fabs lift1 lift2].
  rewrite !py_div_ok by exact Hden. rewrite !fdiv_Num by exact Hden.
  cbn [fsub lift2 fst snd py_min_seq fold_left]. rewrite !py_min_Num.
  do 2 eexists. split; [reflexivity |].
  unfold Rmin. repeat destruct (Rle_dec _ _); lra.
Qed.

Lemma limit_accel_in_turns_envelope_witness :
  CarParams.steerRatio Double.car_params = Num 15 /\
  CarParams.wheelbase Double.car_params = Num 2.7 /\
  15 * 2.7 <> 0 /\
  interp (Collaborators := Double.zero_solver) (Num 20) _A_TOTAL_MAX_BP _A_TOTAL_MAX_V
  = Num 20 /\
  DEG_TO_RAD (Collaborators := Double.zero_solver) = Num (PI / 180) /\
  exists a_min' a_max',
    limit_accel_in_turns (H := Double.zero_solver) (Num 20) (Num 10) (Num (-1), Num 1)
      Double.car_params (Num 5) = Ok (Num a_min', Num a_max') /\
    a_min' <= a_max' /\ a_min' <= -1 /\ a_max' <= 1 /\
    a_max' <= 20 - 20 * 20 * Rabs 10 * (PI / 180) / (15 * 2.7) /\
    a_max' <= 20 - 20 * 20 * Rabs 5 * (PI / 180) / (15 * 2.7).
Proof.
  assert (Hden : 15 * 2.7 <> 0) by lra.
  repeat (split; [first [reflexivity | exact Hden] |]).
  exact (limit_accel_in_turns_envelope (H := Double.zero_solver) 20 10 (-1) 1 5 15 2.7 20
           (PI / 180) Double.car_params eq_refl eq_refl Hden eq_refl eq_refl).
Defined.

(** X7. With numbers for [steerRatio] and [wheelbase], [limit_accel_in_turns]
    raises exactly when their product is zero, and what it raises is
    ZeroDivisionError. *)
Theorem limit_accel_in_turns_raises `{Collaborators}
  (v_ego angle_steers : float) (a_target : float * float) (CP : CarParams.t)
  (angle_later : float) (sr wb : R) :
  CarParams.steerRatio CP = Num sr ->
  CarParams.wheelbase CP = Num wb ->
  (sr * wb = 0 ->
   limit_accel_in_turns v_ego angle_steers a_target CP angle_later = Raise ZeroDivisionError) /\
  (sr * wb <> 0 ->
   exists r, limit_accel_in_turns v_ego angle_steers a_target CP angle_later = Ok r).
Proof.
  intros Hsr Hwb. split.
  - intros Hz. unfold limit_accel_in_turns. rewrite Hsr, Hwb. cbn [fmul lift2].
    unfold py_div at 1. destruct (decide (sr * wb = 0)); [reflexivity | contradiction].
  - intros Hnz. apply limit_accel_in_turns_ok. rewrite Hsr, Hwb. cbn [fmul lift2].
    intros Heq. injection Heq as Heq. contradiction.
Qed.

(** A car whose parameters carry a zero steering ratio. *)
Lemma limit_accel_in_turns_raises_witness :
  CarParams.steerRatio Double.zero_ratio_car_params = Num 0 /\
  CarParams.wheelbase Double.zero_ratio_car_params = Num 2.7 /\
  0 * 2.7 = 0 /\
  limit_accel_in_turns (H := Double.zero_solver) (Num 20) (Num 10) (Num (-1), Num 1)
    Double.zero_ratio_car_params (Num 5) = Raise ZeroDivisionError.
Proof.
  assert (Hz : 0 * 2.7 = 0) by lra.
  repeat (split; [first [reflexivity | exact Hz] |]).
  exact (proj1 (limit_accel_in_turns_raises (H := Double.zero_solver) (Num 20) (Num 10)
                  (Num (-1), Num 1) Double.zero_ratio_car_params (Num 5) 0 2.7
                  eq_refl eq_refl) Hz).
Defined.

(** ** Planner.update: the cruise branches *)

Section Cruise.
Context `{Collaborators}.

(** [max(x, 1.)] and [max(x, 0.)] are never a zero divisor, and never
    negative. *)
Lemma py_max_floor (x : float) (z : R) :
  py_max x (Num z) = NaN \/ exists r, py_max x (Num z) = Num r /\ z <= r.
Proof.
  unfold py_max, fgt, fcmp. destruct x as [x |]; [| left; reflexivity].
  right. case_bool_decide; eexists; (split; [reflexivity | lra]).
Qed.

Lemma py_div_by_floor (a x : float) (z : R) :
  0 < z -> exists q, py_div a (py_max x (Num z)) = Ok q.
Proof.
  intros Hz. destruct (py_max_floor x z) as [-> | (r & -> & Hr)].
  - eexists. reflexivity.
  - rewrite py_div_ok by lra. eexists. reflexivity.
Qed.

End Cruise.

(** X8. The enabled cruise branch of [update] returns whenever
    [steerRatio * wheelbase] is not zero and, if the planner is slowing for a
    turn, map data is latched.  The cruise speed it leaves is never negative:
    it is the smoother's speed floored at 0 (or NaN if the smoother returned
    NaN), and only [v_cruise] and [a_cruise] are assigned. *)
Theorem update_cruise_enabled_floor `{Collaborators} (CS : CarState.t) (following : bool)
  (v_cruise_setpoint : float) (force_slow_decel : bool) (self : Planner.t) :
  (CarParams.steerRatio (Planner.CP self) * CarParams.wheelbase (Planner.CP self))%fl
  <> Num 0 ->
  (Planner.decel_for_turn self = true -> Planner.last_live_map_data self <> None) ->
  exists v a,
    Planner.update_cruise_enabled CS following v_cruise_setpoint force_slow_decel self
    = (Ok tt, self <| Planner.v_cruise := py_max v 0.0 |> <| Planner.a_cruise := a |>) /\
    (py_max v 0.0 <? 0)%fl = false /\
    (forall r, v = Num r -> exists r', py_max v 0.0 = Num r' /\ 0 <= r').
Proof.
  intros Hden Hmap. unfold Planner.update_cruise_enabled. rewrite bind_get.
  destruct (limit_accel_in_turns_ok (CarState.vEgo CS) (CarState.steeringAngle CS)
              (calc_cruise_accel_limits (CarState.vEgo CS) following) (Planner.CP self)
              (match Planner.lastlat_Control self with
               | Some lc => if (CarState.vEgo CS >? 11)%fl then LatControl.anglelater lc else 0
               | None => 0
               end * CarParams.steerRatio (Planner.CP self))%fl Hden) as (lim & ->).
  rewrite bind_lift_ok.
  set (lim' := if force_slow_decel then _ else lim).
  assert (Hturn : exists lim'',
    (if Planner.decel_for_turn self
     then
       match Planner.last_live_map_data self with
       | None => raise AttributeError
       | Some map_data =>
         bind (lift_result
                 (py_div (LiveMapData.distToTurn map_data)
                    (py_max (Planner.v_cruise self) 1.0)))
           (fun q =>
              let time_to_turn := py_max 1.0 q in
              bind (lift_result
                      (py_div (Planner.v_curvature self - Planner.v_cruise self)%fl
                         time_to_turn))
                (fun d =>
                   let required_decel := py_min 0 d in
                   ret (py_max (fst lim') required_decel, snd lim')))
       end
     else ret lim') self = (Ok lim'', self)).
  { destruct (Planner.decel_for_turn self); [| eexists; reflexivity].
    destruct (Planner.last_live_map_data self) as [m |]; [| exfalso; apply Hmap; reflexivity].
    destruct (py_div_by_floor (LiveMapData.distToTurn m) (Planner.v_cruise self) 1.0)
      as (q & ->); [lra |].
    rewrite bind_lift_ok. cbv zeta.
    destruct (py_max_lower 1.0 q) as (tt' & -> & Htt).
    rewrite py_div_ok by lra. rewrite bind_lift_ok. eexists. reflexivity. }
  destruct Hturn as (lim'' & Eturn).
  rewrite (bind_ok _ _ _ _ _ Eturn).
  destruct (speed_smoother _ _ _ _ _ _ _ _) as [v a].
  exists v, a. split.
  - rewrite !bind_modify. unfold modify. f_equal; destruct self; reflexivity.
  - split.
    + unfold py_max, fgt, flt, fcmp. destruct v as [r |]; [| reflexivity].
      case_bool_decide; apply bool_decide_eq_false_2; lra.
    + intros r ->. rewrite py_max_Num. eexists. split; [reflexivity |].
      pose proof (Rmax_r r 0.0). lra.
Qed.

Lemma update_cruise_enabled_floor_witness :
  (CarParams.steerRatio (Planner.CP (Double.planner (Num 5) (Num 5) (Num 1)))
   * CarParams.wheelbase (Planner.CP (Double.planner (Num 5) (Num 5) (Num 1))))%fl
  <> Num 0 /\
  (Planner.decel_for_turn (Double.planner (Num 5) (Num 5) (Num 1)) = true ->
   Planner.last_live_map_data (Double.planner (Num 5) (Num 5) (Num 1)) <> None) /\
  exists v a,
    Planner.update_cruise_enabled (H := Double.zero_solver) (Double.car_state (Num 20)) false
      (Num 30) false (Double.planner (Num 5) (Num 5) (Num 1))
    = (Ok tt, (Double.planner (Num 5) (Num 5) (Num 1))
                <| Planner.v_cruise := py_max v 0.0 |> <| Planner.a_cruise := a |>) /\
    (py_max v 0.0 <? 0)%fl = false /\
    (forall r, v = Num r -> exists r', py_max v 0.0 = Num r' /\ 0 <= r').
Proof.
  assert (Hden : (CarParams.steerRatio (Planner.CP (Double.planner (Num 5) (Num 5) (Num 1)))
                  * CarParams.wheelbase (Planner.CP (Double.planner (Num 5) (Num 5) (Num 1))))%fl
                 <> Num 0).
  { cbn. intros Heq. injection Heq as Heq. lra. }
  assert (Hmap : Planner.decel_for_turn (Double.planner (Num 5) (Num 5) (Num 1)) = true ->
                 Planner.last_live_map_data (Double.planner (Num 5) (Num 5) (Num 1)) <> None)
    by (cbn; discriminate).
  split; [exact Hden |]. split; [exact Hmap |].
  exact (update_cruise_enabled_floor (H := Double.zero_solver) (Double.car_state (Num 20))
           false (Num 30) false (Double.planner (Num 5) (Num 5) (Num 1)) Hden Hmap).
Defined.

(** ** Planner.update: the plan that is sent *)

(** X9. In every plan that [update] sends, [lateralValid] is false exactly
    when the events carry modelCommIssue, which is the case when the model
    was already dead or its last message is older than 0.5 s; and
    radarCommIssue is among the events exactly when [longitudinalValid] is
    false or the radar reported "commIssue". *)
Theorem update_send_validity `{Collaborators} (CS : CarState.t) (LaC : LatController)
  (LoC : LongControl.t) (cur_time : R) (self self' : Planner.t) (plan_send : Plan.t) :
  Planner.update_send CS LaC LoC cur_time self = (Ok plan_send, self') ->
  Plan.lateralValid plan_send
  = negb (Planner.model_dead self || bool_decide (cur_time - Planner.last_model self > 0.5)) /\
  Plan.longitudinalValid plan_send
  = negb (Planner.radar_dead self || bool_decide (cur_time - Planner.last_l20 self > 0.5)) /\
  (In (create_event "modelCommIssue" [NO_ENTRY; IMMEDIATE_DISABLE]) (Plan.events plan_send)
   <-> Plan.lateralValid plan_send = false) /\
  (In (create_event "radarCommIssue" [NO_ENTRY; SOFT_DISABLE]) (Plan.events plan_send)
   <-> Plan.longitudinalValid plan_send = false
       \/ existsb (String.eqb "commIssue") (Planner.radar_errors self) = true).
Proof.
  unfold Planner.update_send. rewrite !bind_modify, bind_get.
  match goal with |- context [Planner.model_dead ?s] => set (s1 := s) end.
  rewrite !bind_modify, bind_get.
  match goal with |- context [PathPlanner.r_poly (Planner.PP ?s)] => set (s3 := s) end.
  assert (Hm1 : Planner.model_dead s1
                = Planner.model_dead self
                  || bool_decide (cur_time - Planner.last_model self > 0.5)).
  { subst s1. destruct self. simpl_upd.
    destruct (bool_decide (cur_time - last_model > 0.5)); simpl_upd;
      destruct (bool_decide (cur_time - last_l20 > 0.5)); simpl_upd;
      destruct model_dead, radar_dead; reflexivity. }
  assert (Hr1 : Planner.radar_dead s1
                = Planner.radar_dead self
                  || bool_decide (cur_time - Planner.last_l20 self > 0.5)).
  { subst s1. destruct self. simpl_upd.
    destruct (bool_decide (cur_time - last_model > 0.5)); simpl_upd;
      destruct (bool_decide (cur_time - last_l20 > 0.5)); simpl_upd;
      destruct model_dead, radar_dead; reflexivity. }
  assert (He1 : Planner.radar_errors s1 = Planner.radar_errors self).
  { subst s1. destruct self. simpl_upd.
    destruct (bool_decide (cur_time - last_model > 0.5)); simpl_upd;
      destruct (bool_decide (cur_time - last_l20 > 0.5)); reflexivity. }
  assert (Hm3 : Planner.model_dead s3 = Planner.model_dead s1)
    by (subst s3; destruct s1; reflexivity).
  assert (Hr3 : Planner.radar_dead s3 = Planner.radar_dead s1)
    by (subst s3; destruct s1; reflexivity).
  destruct (py_index_cases (PathPlanner.r_poly (Planner.PP s3)) 3) as [[r ->] | ->].
  2:{ rewrite bind_lift_raise. discriminate. }
  rewrite bind_lift_ok.
  destruct (py_index_cases (PathPlanner.l_poly (Planner.PP s3)) 3) as [[l ->] | ->].
  2:{ rewrite bind_lift_raise. discriminate. }
  rewrite bind_lift_ok, bind_modify.
  match goal with |- ret ?p _ = _ -> _ => set (p0 := p) end.
  unfold ret. intros Heq.
  assert (Hp : plan_send = p0) by congruence.
  rewrite Hp. subst p0.
  cbn [Plan.lateralValid Plan.longitudinalValid Plan.events].
  rewrite Hm3, Hr3, <- Hm1, <- Hr1, He1.
  split; [reflexivity |]. split; [reflexivity |].
  unfold create_event. rewrite !in_app_iff.
  destruct (Planner.model_dead s1), (Planner.radar_dead s1),
    (existsb (String.eqb "commIssue") (Planner.radar_errors self)),
    (existsb (String.eqb "fault") (Planner.radar_errors self)),
    ((LaC_cost LaC >? 10000)%fl || LaC_mpc_nans LaC);
    cbn [orb negb In]; split; split; intros Hin;
    repeat match goal with
           | H : _ \/ _ |- _ => destruct H
           | H : False |- _ => contradiction
           | H : (_, _) = (_, _) |- _ => discriminate H
           | H : true = false |- _ => discriminate H
           | H : false = true |- _ => discriminate H
           end;
    auto.
Qed.

Section SendMore.
Context `{Collaborators}.

(** With four coefficients in both lane polynomials the plan is sent. *)
Lemma update_send_returns (CS : CarState.t) (LaC : LatController) (LoC : LongControl.t)
  (cur_time : R) (self : Planner.t) :
  (3 < length (PathPlanner.r_poly (Planner.PP self)))%nat ->
  (3 < length (PathPlanner.l_poly (Planner.PP self)))%nat ->
  exists plan_send self',
    Planner.update_send CS LaC LoC cur_time self = (Ok plan_send, self').
Proof.
  intros Hr Hl.
  destruct (update_send_spec CS LaC LoC cur_time self)
    as [(p & s' & E & _) | (s' & E & _)]; [eauto |].
  exfalso. revert E.
  unfold Planner.update_send. rewrite !bind_modify, bind_get.
  match goal with |- context [Planner.model_dead ?s] => set (s1 := s) end.
  rewrite !bind_modify, bind_get.
  match goal with |- context [PathPlanner.r_poly (Planner.PP ?s)] => set (s3 := s) end.
  assert (Hpp : Planner.PP s3 = Planner.PP self).
  { subst s3 s1. destruct self. simpl_upd. repeat case_bool_decide; reflexivity. }
  rewrite Hpp. unfold py_index.
  destruct (nth_error (PathPlanner.r_poly (Planner.PP self)) 3) eqn:Er.
  2:{ apply nth_error_None in Er. lia. }
  destruct (nth_error (PathPlanner.l_poly (Planner.PP self)) 3) eqn:El.
  2:{ apply nth_error_None in El. lia. }
  rewrite !bind_lift_ok, bind_modify. unfold ret. discriminate.
Qed.

End SendMore.

(** The plan of a fresh planner one second after boot: neither the model nor
    the radar has been heard, and both halves of the plan are invalid. *)
Lemma update_send_validity_witness :
  exists plan_send self',
    Planner.update_send (H := Double.zero_solver) (Double.car_state (Num 20)) tt
      (Double.long_control pid) 1 (Planner.init Double.car_params true 0)
    = (Ok plan_send, self') /\
    Plan.lateralValid plan_send = false /\
    Plan.longitudinalValid plan_send = false.
Proof.
  destruct (update_send_returns (H := Double.zero_solver) (Double.car_state (Num 20)) tt
              (Double.long_control pid) 1 (Planner.init Double.car_params true 0))
    as (p & s' & E); [cbn; lia | cbn; lia |].
  exists p, s'. split; [exact E |].
  destruct (update_send_validity (H := Double.zero_solver) (Double.car_state (Num 20)) tt
              (Double.long_control pid) 1 (Planner.init Double.car_params true 0) s' p E)
    as (Hlat & Hlon & _).
  split; [exact Hlat | exact Hlon].
Defined.

(** X10. In every plan that [update] sends, the target is extrapolated from
    the start point of the last radar tick over a time [dt] between 0.01 s
    and 0.22 s, when the clock has not run backwards and the start point and
    [a_acc] are numbers: [aTarget = a_acc_start + dt / 0.2 * (a_acc -
    a_acc_start)], so it overshoots [a_acc] by at most a tenth of the step,
    and [vTarget = v_acc_start + dt * (aTarget + a_acc_start) / 2].  The same
    values are stored in [a_acc_sol] and [v_acc_sol]. *)
Theorem update_send_extrapolation `{Collaborators} (CS : CarState.t) (LaC : LatController)
  (LoC : LongControl.t) (cur_time : R) (self self' : Planner.t) (plan_send : Plan.t)
  (v0 a0 a1 : R) :
  Planner.update_send CS LaC LoC cur_time self = (Ok plan_send, self') ->
  Planner.acc_start_time self <= cur_time ->
  Planner.v_acc_start self = Num v0 ->
  Planner.a_acc_start self = Num a0 ->
  Planner.a_acc self = Num a1 ->
  exists dt a : R,
    0.01 <= dt <= 0.22 /\
    a = a0 + dt / 0.2 * (a1 - a0) /\
    Rabs (a - a0) <= 1.1 * Rabs (a1 - a0) /\
    Plan.aTarget plan_send = Num a /\
    Plan.vTarget plan_send = Num (v0 + dt * (a + a0) / 2) /\
    Planner.a_acc_sol self' = Plan.aTarget plan_send /\
    Planner.v_acc_sol self' = Plan.vTarget plan_send.
Proof.
  intros Hsend Htime Hv0 Ha0 Ha1. revert Hsend.
  unfold Planner.update_send. rewrite !bind_modify, bind_get.
  match goal with |- context [Planner.model_dead ?s] => set (s1 := s) end.
  rewrite !bind_modify, bind_get.
  match goal with |- context [PathPlanner.r_poly (Planner.PP ?s)] => set (s3 := s) end.
  set (dt := Rmin (cur_time - Planner.acc_start_time self) (_DT_MPC + _DT) + _DT).
  assert (H1 : Planner.v_acc_start s1 = Num v0 /\ Planner.a_acc_start s1 = Num a0 /\
               Planner.a_acc s1 = Num a1 /\
               Planner.acc_start_time s1 = Planner.acc_start_time self).
  { rewrite <- Hv0, <- Ha0, <- Ha1. subst s1. destruct self. simpl_upd.
    repeat case_bool_decide; repeat split. }
  destruct H1 as (Hv1 & Ha1' & Hacc1 & Ht1).
  assert (Ha3 : Planner.a_acc_sol s3
                = (Planner.a_acc_start s1
                   + Num ((Rmin (cur_time - Planner.acc_start_time s1) (_DT_MPC + _DT) + _DT)
                          / _DT_MPC)
                     * (Planner.a_acc s1 - Planner.a_acc_start s1))%fl).
  { subst s3. generalize s1. intros s. destruct s. reflexivity. }
  assert (Hv3 : Planner.v_acc_sol s3
                = (Planner.v_acc_start s1
                   + Num (Rmin (cur_time - Planner.acc_start_time s1) (_DT_MPC + _DT) + _DT)
                     * (Planner.a_acc_sol s3 + Planner.a_acc_start s1) / 2.0)%fl).
  { subst s3. generalize s1. intros s. destruct s. reflexivity. }
  rewrite Ht1 in Ha3, Hv3. fold dt in Ha3, Hv3.
  rewrite Ha1', Hacc1 in Ha3. cbn [fadd fsub fmul lift2] in Ha3.
  rewrite Ha3, Hv1, Ha1' in Hv3. cbn [fadd fsub fmul lift2] in Hv3.
  rewrite fdiv_Num in Hv3 by lra. cbn [fadd lift2] in Hv3.
  destruct (py_index_cases (PathPlanner.r_poly (Planner.PP s3)) 3) as [[r ->] | ->].
  2:{ rewrite bind_lift_raise. discriminate. }
  rewrite bind_lift_ok.
  destruct (py_index_cases (PathPlanner.l_poly (Planner.PP s3)) 3) as [[l ->] | ->].
  2:{ rewrite bind_lift_raise. discriminate. }
  rewrite bind_lift_ok, bind_modify.
  match goal with |- ret ?p _ = _ -> _ => set (p0 := p) end.
  unfold ret. intros Heq.
  assert (Hp : plan_send = p0) by congruence.
  pose proof (f_equal snd Heq) as Hs. cbn [snd] in Hs.
  assert (Hsol : Planner.a_acc_sol self' = Planner.a_acc_sol s3 /\
                 Planner.v_acc_sol self' = Planner.v_acc_sol s3).
  { rewrite <- Hs. generalize p0. intros p. generalize s3. intros s. destruct s.
    split; reflexivity. }
  destruct Hsol as (Hsa & Hsv).
  assert (Hdt : 0.01 <= dt <= 0.22).
  { subst dt. unfold _DT_MPC, _DT.
    pose proof (Rmin_r (cur_time - Planner.acc_start_time self) (0.2 + 0.01)).
    assert (0 <= Rmin (cur_time - Planner.acc_start_time self) (0.2 + 0.01))
      by (apply Rmin_glb; lra).
    lra. }
  exists dt, (a0 + dt / 0.2 * (a1 - a0)).
  split; [exact Hdt |]. split; [reflexivity |]. split.
  { replace (a0 + dt / 0.2 * (a1 - a0) - a0) with (dt / 0.2 * (a1 - a0)) by lra.
    rewrite Rabs_mult. rewrite (Rabs_pos_eq (dt / 0.2)) by lra.
    apply Rmult_le_compat_r; [apply Rabs_pos | lra]. }
  rewrite Hsa, Hsv, Hp. subst p0.
  cbn [Plan.aTarget Plan.vTarget]. rewrite Hv3, Ha3. unfold _DT_MPC.
  repeat split; try reflexivity. f_equal. lra.
Qed.

Lemma update_send_extrapolation_witness :
  exists plan_send self',
    Planner.update_send (H := Double.zero_solver) (Double.car_state (Num 20)) tt
      (Double.long_control pid) 1 (Double.planner (Num 5) (Num 5) (Num 1))
    = (Ok plan_send, self') /\
    Planner.acc_start_time (Double.planner (Num 5) (Num 5) (Num 1)) <= 1 /\
    exists dt a : R,
      0.01 <= dt <= 0.22 /\
      a = 0.0 + dt / 0.2 * (0.0 - 0.0) /\
      Plan.aTarget plan_send = Num a.
Proof.
  destruct (update_send_returns (H := Double.zero_solver) (Double.car_state (Num 20)) tt
              (Double.long_control pid) 1 (Double.planner (Num 5) (Num 5) (Num 1)))
    as (p & s' & E); [cbn; lia | cbn; lia |].
  assert (Ht : Planner.acc_start_time (Double.planner (Num 5) (Num 5) (Num 1)) <= 1)
    by (cbn; lra).
  exists p, s'. split; [exact E |]. split; [exact Ht |].
  destruct (update_send_extrapolation (H := Double.zero_solver) (Double.car_state (Num 20)) tt
              (Double.long_control pid) 1 (Double.planner (Num 5) (Num 5) (Num 1)) s' p
              0.0 0.0 0.0 E Ht eq_refl eq_refl eq_refl)
    as (dt & a & Hdt & Ha & _ & Hat & _).
  exists dt, a. split; [exact Hdt |]. split; [exact Ha | exact Hat].
Defined.

(** ** Planner.update: what no tick assigns *)

Section Frame.
Context `{Collaborators} `{DictOrder}.

Lemma arbiter_frame_refl (self : Planner.t) : arbiter_frame self self.
Proof. repeat split. Qed.

Lemma arbiter_frame_trans (s1 s2 s3 : Planner.t) :
  arbiter_frame s1 s2 -> arbiter_frame s2 s3 -> arbiter_frame s1 s3.
Proof.
  unfold arbiter_frame.
  intros (? & ? & ? & ? & ? & ? & ? & ? & ? & ? & ? & ? & ? & ? & ?)
         (? & ? & ? & ? & ? & ? & ? & ? & ? & ? & ? & ? & ? & ? & ?).
  repeat split; congruence.
Qed.

Lemma poll_arbiter (msgs : list Planner.Received) :
  forall (loc : Planner.locals) (self : Planner.t),
    arbiter_frame self (snd (Planner.poll msgs loc self)).
Proof.
  induction msgs as [| m rest IH]; intros [[md l20] gps] self.
  - apply arbiter_frame_refl.
  - cbn [Planner.poll]. destruct m as [x | x | x | x | x]; cbn [Planner.recv_one].
    + unfold bind, ret. apply IH.
    + unfold bind, ret. apply IH.
    + unfold bind, ret. apply IH.
    + unfold bind, modify, ret.
      match goal with |- context [Planner.poll rest ?l ?s] =>
        apply (arbiter_frame_trans _ s); [destruct self; repeat split | apply (IH l s)] end.
    + unfold bind, modify, ret.
      match goal with |- context [Planner.poll rest ?l ?s] =>
        apply (arbiter_frame_trans _ s); [destruct self; repeat split | apply (IH l s)] end.
Qed.

Lemma update_model_arbiter (CS : CarState.t) (LaC : LatController) (cur_time : R)
  (md : ModelEvent) (self : Planner.t) :
  arbiter_frame self (snd (Planner.update_model CS LaC cur_time md self)).
Proof.
  unfold Planner.update_model. rewrite bind_modify, bind_get. destruct self. simpl_upd.
  destruct last_gps_planner_plan as [g |].
  - rewrite bind_modify. unfold when. destruct (GpsPlannerPlan.valid g); repeat split.
  - repeat split.
Qed.

Lemma update_latch_arbiter (cur_time : R) (l20 : Live20Event.t) (self : Planner.t) :
  arbiter_frame self (snd (Planner.update_latch cur_time l20 self)).
Proof. destruct self. repeat split. Qed.

Lemma update_send_arbiter (CS : CarState.t) (LaC : LatController) (LoC : LongControl.t)
  (cur_time : R) (self : Planner.t) :
  arbiter_frame self (snd (Planner.update_send CS LaC LoC cur_time self)).
Proof.
  unfold Planner.update_send. rewrite !bind_modify, bind_get.
  match goal with |- context [Planner.model_dead ?s] => set (s1 := s) end.
  rewrite !bind_modify, bind_get.
  match goal with |- context [PathPlanner.r_poly (Planner.PP ?s)] => set (s3 := s) end.
  assert (F3 : arbiter_frame self s3).
  { subst s3 s1. destruct self. simpl_upd. repeat case_bool_decide; repeat split. }
  destruct (py_index_cases (PathPlanner.r_poly (Planner.PP s3)) 3) as [[r ->] | ->].
  2:{ rewrite bind_lift_raise. exact F3. }
  rewrite bind_lift_ok.
  destruct (py_index_cases (PathPlanner.l_poly (Planner.PP s3)) 3) as [[l ->] | ->].
  2:{ rewrite bind_lift_raise. exact F3. }
  rewrite bind_lift_ok, bind_modify. unfold ret. cbn [snd].
  apply (arbiter_frame_trans _ s3); [exact F3 |].
  match goal with |- context [Planner.plan s3 ++ [?p]] => generalize p end.
  intros p. generalize s3. intros s. destruct s. repeat split.
Qed.

End Frame.

(** X11. No call of [Planner.update] changes the state of the longitudinal
    plan, whatever the poller returns and whether the call returns or
    raises: the two MPC wrappers, [v_acc], [a_acc], [v_acc_future],
    [v_cruise], [a_cruise], [longitudinalPlanSource], the FCW flag, checker
    and log, and the map limits are after the call what they were before.
    A tick without a radar message skips the block that assigns them, and a
    tick with one leaves [update] by the TypeError of the relative-velocity
    latch before reaching it. *)
Theorem update_leaves_arbitration `{Collaborators} `{DictOrder}
  (CS : CarState.t) (CP' : CarParams.t) (VM : VehicleModel)
  (LaC : LatController) (LoC : LongControl.t) (v_cruise_kph : float)
  (force_slow_decel : bool) (env : Planner.Tick) (self : Planner.t) :
  arbiter_frame self
    (snd (Planner.update CS CP' VM LaC LoC v_cruise_kph force_slow_decel env self)).
Proof.
  unfold Planner.update.
  destruct (poll_spec (Planner.polled env) (None, None, None) self)
    as ([[md l20] gps] & s1 & E1 & _).
  pose proof (poll_arbiter (Planner.polled env) (None, None, None) self) as F1.
  rewrite E1 in F1. cbn [snd] in F1.
  rewrite (bind_ok _ _ _ _ _ E1).
  assert (Hgps : exists s2,
    match gps with
    | Some g => modify (fun self => self <| Planner.last_gps_planner_plan := Some g |>)
    | None => ret tt
    end s1 = (Ok tt, s2) /\ arbiter_frame s1 s2).
  { destruct gps; destruct s1; eexists; (split; [reflexivity |]); repeat split. }
  destruct Hgps as (s2 & E2 & F2). rewrite (bind_ok _ _ _ _ _ E2).
  assert (Hmd : exists s3,
    match md with
    | Some md => Planner.update_model CS LaC (Planner.cur_time env) md
    | None => ret tt
    end s2 = (Ok tt, s3) /\ arbiter_frame s2 s3).
  { destruct md as [md |].
    - destruct (update_model_spec CS LaC (Planner.cur_time env) md s2) as (s3 & E3 & _).
      exists s3. split; [exact E3 |].
      pose proof (update_model_arbiter CS LaC (Planner.cur_time env) md s2) as F.
      rewrite E3 in F. exact F.
    - eexists. split; [reflexivity | apply arbiter_frame_refl]. }
  destruct Hmd as (s3 & E3 & F3). rewrite (bind_ok _ _ _ _ _ E3).
  pose proof (arbiter_frame_trans _ _ _ (arbiter_frame_trans _ _ _ F1 F2) F3) as F.
  destruct l20 as [l20 |].
  - destruct (update_latch_spec (Planner.cur_time env) l20 s3) as (s4 & E4 & _).
    pose proof (update_latch_arbiter (Planner.cur_time env) l20 s3) as F4.
    rewrite E4 in F4. cbn [snd] in F4.
    assert (Hradar :
      Planner.update_radar CS LoC (v_cruise_kph * KPH_TO_MS)%fl force_slow_decel env l20 s3
      = (Raise TypeError, s4)).
    { unfold Planner.update_radar. rewrite (bind_ok _ _ _ _ _ E4).
      apply bind_raise. apply update_rel_vel_raises. }
    rewrite (bind_raise _ _ _ _ _ Hradar). cbn [snd].
    exact (arbiter_frame_trans _ _ _ F F4).
  - rewrite bind_ret.
    exact (arbiter_frame_trans _ _ _ F
             (update_send_arbiter CS LaC LoC (Planner.cur_time env) s3)).
Qed.

(** ** LongitudinalMpc.update: the lead, the log and the time gap *)

Section MpcMore.
Context `{Collaborators}.

Lemma mpc_log_frame_refl (self : LongitudinalMpc.t) : mpc_log_frame self self.
Proof. repeat split. Qed.

Lemma mpc_log_frame_trans (s1 s2 s3 : LongitudinalMpc.t) :
  mpc_log_frame s1 s2 -> mpc_log_frame s2 s3 -> mpc_log_frame s1 s3.
Proof. unfold mpc_log_frame. intros (? & ? & ? & ?) (? & ? & ? & ?). repeat split; congruence. Qed.

(** The lead branch of lines 261-280, with what it leaves in the state. *)
Lemma update_lead_state_spec (lead : Lead.t) (self : LongitudinalMpc.t) :
  exists (a_lead : float) (x v : R) (self' : LongitudinalMpc.t),
    LongitudinalMpc.update_lead lead self = (Ok a_lead, self') /\
    state_t.x_l (LongitudinalMpc.cur_state self') = Num x /\ 0 <= x /\
    state_t.v_l (LongitudinalMpc.cur_state self') = Num v /\ (v = 0 \/ 0.1 <= v) /\
    (v = 0 -> a_lead = Num 0) /\
    (forall a, a_lead = Num a -> - a / 2 <= v) /\
    LongitudinalMpc.prev_lead_status self' = true /\
    LongitudinalMpc.prev_lead_x self' = Num x /\
    mpc_log_frame self self'.
Proof.
  unfold LongitudinalMpc.update_lead.
  destruct (py_max_lower 0 (Lead.dRel lead - 1)%fl) as [x [Ex Hx]].
  destruct (py_max_lower 0.0 (Lead.vLead lead)) as [v [Ev Hv]].
  rewrite Ex, Ev.
  destruct ((Num v <? 0.1)%fl || (- Lead.aLeadK lead / 2.0 >? Num v)%fl) eqn:Hst.
  - cbn [fadd fsqr fmul lift2]. rewrite py_div_ok by nra.
    destruct self. unfold bind, lift_result, modify, get, when, ret. simpl_upd.
    destruct (negb _ || _); exists (Num 0.0), x, 0.0; eexists;
      (split; [reflexivity |]); simpl_upd;
      (repeat split; try reflexivity; try lra; try (left; lra);
       try (intros; f_equal; lra); try (intros a Ha; injection Ha as <-; lra)).
  - apply orb_false_elim in Hst as [Hlow Hdec].
    unfold flt, fcmp in Hlow. apply bool_decide_eq_false_1 in Hlow.
    assert (Hgen : exists q, py_div (fsqr (Lead.aLeadK lead) * PI)%fl
                               (2 * fsqr (Num v + 0.01))%fl = Ok q).
    { cbn [fadd fsqr fmul lift2]. rewrite py_div_ok by nra. eexists. reflexivity. }
    destruct Hgen as (q & ->).
    assert (Ha : forall a, Lead.aLeadK lead = Num a -> - a / 2 <= v).
    { intros a Ea. rewrite Ea in Hdec. cbn [fneg lift1] in Hdec.
      rewrite fdiv_Num in Hdec by lra. unfold fgt, fcmp in Hdec.
      apply bool_decide_eq_false_1 in Hdec. lra. }
    destruct self. unfold bind, lift_result, modify, get, when, ret. simpl_upd.
    destruct (negb _ || _); exists (Lead.aLeadK lead), x, v; eexists;
      (split; [reflexivity |]); simpl_upd;
      (repeat split; try reflexivity; try lra; try (right; lra); try exact Ha;
       try (intros; exfalso; lra)).
Qed.

Lemma update_no_lead_frame (CS : CarState.t) (self : LongitudinalMpc.t) :
  mpc_log_frame self (snd (LongitudinalMpc.update_no_lead CS self)).
Proof. destruct self. repeat split. Qed.

Lemma update_TR_frame (CS : CarState.t) (self : LongitudinalMpc.t) :
  mpc_log_frame self (snd (LongitudinalMpc.update_TR CS self)).
Proof.
  unfold LongitudinalMpc.update_TR.
  destruct (_ <? 2.0)%fl; [apply mpc_log_frame_refl |].
  destruct (_ =? 1)%Z.
  { rewrite bind_get. destruct (_ =? _)%Z; destruct self; repeat split. }
  destruct (_ =? 2)%Z.
  { rewrite bind_get. unfold when. destruct (_ >? 0.2)%fl; destruct self; repeat split. }
  destruct (_ =? 3)%Z.
  { rewrite bind_get. destruct (_ =? _)%Z; destruct self; repeat split. }
  apply mpc_log_frame_refl.
Qed.

(** The reset of lines 330-348 and its warning. *)
Lemma update_reset_log (CS : CarState.t) (t_now : R) (self : LongitudinalMpc.t) :
  exists self',
    LongitudinalMpc.update_reset CS t_now self = (Ok tt, self') /\
    LongitudinalMpc.live_longitudinal_mpc self' = LongitudinalMpc.live_longitudinal_mpc self /\
    LongitudinalMpc.mpc_id self' = LongitudinalMpc.mpc_id self /\
    LongitudinalMpc.mpc_solution self' = LongitudinalMpc.mpc_solution self /\
    ((LongitudinalMpc.cloudlog self' = LongitudinalMpc.cloudlog self /\
      LongitudinalMpc.last_cloudlog_t self' = LongitudinalMpc.last_cloudlog_t self) \/
     (t_now > LongitudinalMpc.last_cloudlog_t self + 5.0 /\
      LongitudinalMpc.last_cloudlog_t self' = t_now /\
      exists w,
        LongitudinalMpc.cloudlog self' = LongitudinalMpc.cloudlog self ++ [w] /\
        fst (fst (fst w)) = LongitudinalMpc.mpc_id self)).
Proof.
  unfold LongitudinalMpc.update_reset. rewrite bind_get.
  destruct (_ || _); unfold when at 1.
  - destruct self; unfold when; case_bool_decide;
      (eexists; split; [reflexivity |]); simpl_upd;
      (split; [reflexivity |]); (split; [reflexivity |]); (split; [reflexivity |]).
    + right. split; [assumption |]. split; [reflexivity |]. eexists. split; reflexivity.
    + left. split; reflexivity.
  - eexists. split; [reflexivity |]. repeat split. left. split; reflexivity.
Qed.

(** One call of [update] and what it logs. *)
Lemma update_log_spec (CS : CarState.t) (lead : option Lead.t) (v_cruise_setpoint : float)
  (t_now t_done : R) (self : LongitudinalMpc.t) :
  exists self' dat,
    LongitudinalMpc.update CS lead v_cruise_setpoint t_now t_done self = (Ok tt, self') /\
    LongitudinalMpc.live_longitudinal_mpc self'
    = LongitudinalMpc.live_longitudinal_mpc self ++ [dat] /\
    (0 <= LiveLongitudinalMpc.qpIterations dat)%Z /\
    LiveLongitudinalMpc.mpcId dat = LongitudinalMpc.mpc_id self /\
    LiveLongitudinalMpc.calculationTime dat
    = LongitudinalMpc.py_int ((t_done - t_now) * 1e9) /\
    LiveLongitudinalMpc.vEgo dat
    = carray_list (log_t.v_ego (LongitudinalMpc.mpc_solution self')) /\
    LongitudinalMpc.mpc_id self' = LongitudinalMpc.mpc_id self /\
    ((LongitudinalMpc.cloudlog self' = LongitudinalMpc.cloudlog self /\
      LongitudinalMpc.last_cloudlog_t self' = LongitudinalMpc.last_cloudlog_t self) \/
     (t_now > LongitudinalMpc.last_cloudlog_t self + 5.0 /\
      LongitudinalMpc.last_cloudlog_t self' = t_now /\
      exists w,
        LongitudinalMpc.cloudlog self' = LongitudinalMpc.cloudlog self ++ [w] /\
        fst (fst (fst w)) = LongitudinalMpc.mpc_id self)).
Proof.
  unfold LongitudinalMpc.update. rewrite bind_modify.
  set (s0 := self <| LongitudinalMpc.cur_state := _ |>).
  assert (F0 : mpc_log_frame self s0) by (subst s0; destruct self; repeat split).
  assert (Hbranch : exists a_lead s1,
    match lead with
    | Some l =>
      if Lead.status l then LongitudinalMpc.update_lead l else LongitudinalMpc.update_no_lead CS
    | None => LongitudinalMpc.update_no_lead CS
    end s0 = (Ok a_lead, s1) /\ mpc_log_frame s0 s1).
  { destruct lead as [l |]; [destruct (Lead.status l) |].
    - destruct (update_lead_state_spec l s0) as (a & x & v & s1 & E & Hrest).
      exists a, s1. split; [exact E |]. apply Hrest.
    - destruct (update_no_lead_spec CS s0) as (a & s1 & E & _). exists a, s1.
      split; [exact E |]. pose proof (update_no_lead_frame CS s0) as F. rewrite E in F. exact F.
    - destruct (update_no_lead_spec CS s0) as (a & s1 & E & _). exists a, s1.
      split; [exact E |]. pose proof (update_no_lead_frame CS s0) as F. rewrite E in F. exact F. }
  destruct Hbranch as (a_lead & s1 & E1 & F1).
  rewrite (bind_ok _ _ _ _ _ E1).
  destruct (update_TR_spec CS s1) as (TR & s2 & E2 & _).
  pose proof (update_TR_frame CS s1) as F2. rewrite E2 in F2. cbn [snd] in F2.
  rewrite (bind_ok _ _ _ _ _ E2). rewrite bind_get.
  destruct (libmpc_run_mpc _ _ _ _ _ _) as [[[sv cs] sol] n_its] eqn:Erun.
  rewrite !bind_modify.
  match goal with |- context [LongitudinalMpc.update_reset CS t_now ?s] => set (s3 := s) end.
  pose proof (mpc_log_frame_trans _ _ _ (mpc_log_frame_trans _ _ _ F0 F1) F2)
    as (Fl & Fc & Ft & Fi).
  destruct (update_reset_log CS t_now s3) as (s4 & E4 & Hl4 & Hi4 & Hsol4 & Hw4).
  assert (Hl3 : exists dat,
            LongitudinalMpc.live_longitudinal_mpc s3
            = LongitudinalMpc.live_longitudinal_mpc s2 ++ [dat] /\
            (0 <= LiveLongitudinalMpc.qpIterations dat)%Z /\
            LiveLongitudinalMpc.mpcId dat = LongitudinalMpc.mpc_id s2 /\
            LiveLongitudinalMpc.calculationTime dat
            = LongitudinalMpc.py_int ((t_done - t_now) * 1e9) /\
            LiveLongitudinalMpc.vEgo dat
            = carray_list (log_t.v_ego (LongitudinalMpc.mpc_solution s3))).
  { subst s3. unfold LongitudinalMpc.send_mpc_solution. destruct s2. simpl_upd.
    eexists. split; [reflexivity |]. cbn. repeat split. lia. }
  destruct Hl3 as (dat & Hl3 & Hq & Hid & Hct & Hv).
  assert (Hc3 : LongitudinalMpc.cloudlog s3 = LongitudinalMpc.cloudlog s2
                /\ LongitudinalMpc.last_cloudlog_t s3 = LongitudinalMpc.last_cloudlog_t s2
                /\ LongitudinalMpc.mpc_id s3 = LongitudinalMpc.mpc_id s2).
  { subst s3. unfold LongitudinalMpc.send_mpc_solution. destruct s2. repeat split. }
  destruct Hc3 as (Hc3 & Ht3 & Hi3).
  exists s4, dat. split; [exact E4 |].
  split; [congruence |]. split; [exact Hq |]. split; [congruence |].
  split; [exact Hct |]. split; [congruence |]. split; [congruence |].
  rewrite Hc3, Ht3, Hi3, Fc, Ft, Fi in Hw4. exact Hw4.
Qed.


End MpcMore.

(** X12. The lead branch of [LongitudinalMpc.update] never raises, and the
    lead it hands to the solver is well formed whatever the radar sent:
    [x_l] is a number and not negative, [v_l] is a number that is 0 or at
    least 0.1, a stationary lead ([v_l = 0]) has [a_lead = 0], and a numeric
    [a_lead] is at least [-2 * v_l].  Afterwards [prev_lead_status] is true
    and [prev_lead_x] is the [x_l] handed over. *)
Theorem update_lead_state `{Collaborators} (lead : Lead.t) (self : LongitudinalMpc.t) :
  exists (a_lead : float) (x v : R) (self' : LongitudinalMpc.t),
    LongitudinalMpc.update_lead lead self = (Ok a_lead, self') /\
    state_t.x_l (LongitudinalMpc.cur_state self') = Num x /\ 0 <= x /\
    state_t.v_l (LongitudinalMpc.cur_state self') = Num v /\ (v = 0 \/ 0.1 <= v) /\
    (v = 0 -> a_lead = Num 0) /\
    (forall a, a_lead = Num a -> - a / 2 <= v) /\
    LongitudinalMpc.prev_lead_status self' = true /\
    LongitudinalMpc.prev_lead_x self' = Num x.
Proof.
  destruct (update_lead_state_spec lead self)
    as (a & x & v & self' & E & Hx & Hx0 & Hv & Hv0 & Ha0 & Ha & Hp & Hpx & _).
  exists a, x, v, self'. repeat split; assumption.
Qed.

(** X13. Every call of [LongitudinalMpc.update] publishes exactly one
    liveLongitudinalMpc message.  Its [qpIterations] is not negative, its
    [mpcId] is the id of the wrapper (which the call does not change), its
    [calculationTime] is the truncated solver time in nanoseconds, and its
    [vEgo] is the trajectory of the solution the wrapper holds after the
    call. *)
Theorem mpc_update_publishes_once `{Collaborators} (CS : CarState.t) (lead : option Lead.t)
  (v_cruise_setpoint : float) (t_now t_done : R) (self : LongitudinalMpc.t) :
  exists self' dat,
    LongitudinalMpc.update CS lead v_cruise_setpoint t_now t_done self = (Ok tt, self') /\
    LongitudinalMpc.live_longitudinal_mpc self'
    = LongitudinalMpc.live_longitudinal_mpc self ++ [dat] /\
    (0 <= LiveLongitudinalMpc.qpIterations dat)%Z /\
    LiveLongitudinalMpc.mpcId dat = LongitudinalMpc.mpc_id self /\
    LiveLongitudinalMpc.calculationTime dat
    = LongitudinalMpc.py_int ((t_done - t_now) * 1e9) /\
    LiveLongitudinalMpc.vEgo dat
    = carray_list (log_t.v_ego (LongitudinalMpc.mpc_solution self')) /\
    LongitudinalMpc.mpc_id self' = LongitudinalMpc.mpc_id self.
Proof.
  destruct (update_log_spec CS lead v_cruise_setpoint t_now t_done self)
    as (self' & dat & E & Hl & Hq & Hid & Hct & Hv & Hi & _).
  exists self', dat. repeat split; assumption.
Qed.

(** X14. A call of [LongitudinalMpc.update] logs at most one reset
    warning, and only if more than 5 s have passed since the last one: either
    the log and [last_cloudlog_t] are unchanged, or [t_now > last_cloudlog_t
    + 5], one record carrying the wrapper's id is appended and
    [last_cloudlog_t] becomes [t_now]. *)
Theorem mpc_reset_warning_rate `{Collaborators} (CS : CarState.t) (lead : option Lead.t)
  (v_cruise_setpoint : float) (t_now t_done : R) (self : LongitudinalMpc.t) :
  exists self',
    LongitudinalMpc.update CS lead v_cruise_setpoint t_now t_done self = (Ok tt, self') /\
    ((LongitudinalMpc.cloudlog self' = LongitudinalMpc.cloudlog self /\
      LongitudinalMpc.last_cloudlog_t self' = LongitudinalMpc.last_cloudlog_t self) \/
     (t_now > LongitudinalMpc.last_cloudlog_t self + 5.0 /\
      LongitudinalMpc.last_cloudlog_t self' = t_now /\
      exists w,
        LongitudinalMpc.cloudlog self' = LongitudinalMpc.cloudlog self ++ [w] /\
        fst (fst (fst w)) = LongitudinalMpc.mpc_id self)).
Proof.
  destruct (update_log_spec CS lead v_cruise_setpoint t_now t_done self)
    as (self' & dat & E & _ & _ & _ & _ & _ & _ & Hw).
  exists self'. split; assumption.
Qed.


(** X16. With a numeric ego speed and a numeric latched relative velocity,
    the time gap handed to the solver is a number in [0.67, 2.7]; below
    2 m/s, or with [readdistancelines] outside 1..3, it is 1.8 and the
    wrapper is not touched. *)
Theorem update_TR_range `{Collaborators} (CS : CarState.t) (self : LongitudinalMpc.t)
  (v r : R) :
  CarState.vEgo CS = Num v ->
  LongitudinalMpc.rel_vel self = Num r ->
  exists (tr : R) (self' : LongitudinalMpc.t),
    LongitudinalMpc.update_TR CS self = (Ok (Num tr), self') /\
    0.67 <= tr <= 2.7 /\
    (v < 2 \/ ~ (1 <= CarState.readdistancelines CS <= 3)%Z -> tr = 1.8 /\ self' = self).
Proof.
  intros Hv Hr. unfold LongitudinalMpc.update_TR. rewrite Hv.
  destruct (Num v <? 2.0)%fl eqn:Hlow.
  { exists 1.8, self. split; [reflexivity |]. split; [lra |]. intros _. split; reflexivity. }
  unfold flt, fcmp in Hlow. apply bool_decide_eq_false_1 in Hlow.
  destruct (_ =? 1)%Z eqn:E1.
  { apply Z.eqb_eq in E1. rewrite bind_get.
    destruct (_ =? LongitudinalMpc.lastTR self)%Z; exists 0.9; eexists; (split; [reflexivity |]);
      (split; [lra |]); intros [? | ?]; exfalso; (lra || lia). }
  destruct (_ =? 2)%Z eqn:E2.
  { apply Z.eqb_eq in E2. rewrite bind_get. unfold LongitudinalMpc.generateTR. rewrite Hr.
    destruct (think_Num v r) as [tr [-> Htr]].
    destruct (py_round2_between 67 270 tr) as [r' [-> Hr']]; [lia | lra |].
    unfold when. destruct (_ >? 0.2)%fl; exists r'; eexists; (split; [reflexivity |]);
      (split; [lra |]); intros [? | ?]; exfalso; (lra || lia). }
  destruct (_ =? 3)%Z eqn:E3.
  { apply Z.eqb_eq in E3. rewrite bind_get.
    destruct (_ =? LongitudinalMpc.lastTR self)%Z; exists 2.7; eexists; (split; [reflexivity |]);
      (split; [lra |]); intros [? | ?]; exfalso; (lra || lia). }
  exists 1.8, self. split; [reflexivity |]. split; [lra |]. intros _. split; reflexivity.
Qed.

Lemma update_TR_range_witness :
  CarState.vEgo (Double.car_state (Num 10)) = Num 10 /\
  LongitudinalMpc.rel_vel (LongitudinalMpc.init (H := Double.zero_solver) 1) = Num 0 /\
  exists (tr : R) (self' : LongitudinalMpc.t),
    LongitudinalMpc.update_TR (H := Double.zero_solver) (Double.car_state (Num 10))
      (LongitudinalMpc.init 1) = (Ok (Num tr), self') /\
    0.67 <= tr <= 2.7 /\
    (10 < 2 \/ ~ (1 <= CarState.readdistancelines (Double.car_state (Num 10)) <= 3)%Z ->
     tr = 1.8 /\ self' = LongitudinalMpc.init 1).
Proof.
  split; [reflexivity |]. split; [reflexivity |].
  exact (update_TR_range (H := Double.zero_solver) (Double.car_state (Num 10))
           (LongitudinalMpc.init 1) 10 0 eq_refl eq_refl).
Defined.

(** X17. A call of the time-gap selection changes [lastTR] only in the
    settings 1 and 3, where it records the setting.  So after a call in
    setting 2 at 2 m/s or more, which leaves [lastTR] as it was and may have
    re-initialised the solver with the generated cost, a call at 2 m/s or
    more in the setting recorded in [lastTR] (1 or 3) returns its fixed time
    gap (0.9 for setting 1, 2.7 for setting 3) and leaves the wrapper as it
    is: the solver is not re-initialised and keeps what setting 2 left. *)
Theorem update_TR_mode_memory `{Collaborators} (CS2 CS1 : CarState.t)
  (self : LongitudinalMpc.t) :
  (CarState.vEgo CS2 <? 2.0)%fl = false ->
  (CarState.vEgo CS1 <? 2.0)%fl = false ->
  CarState.readdistancelines CS2 = 2%Z ->
  CarState.readdistancelines CS1 = LongitudinalMpc.lastTR self ->
  LongitudinalMpc.lastTR self = 1%Z \/ LongitudinalMpc.lastTR self = 3%Z ->
  (forall (CS : CarState.t) (TR : float) (s' : LongitudinalMpc.t),
     LongitudinalMpc.update_TR CS self = (Ok TR, s') ->
     LongitudinalMpc.lastTR s' <> LongitudinalMpc.lastTR self ->
     LongitudinalMpc.lastTR s' = CarState.readdistancelines CS /\
     (CarState.readdistancelines CS = 1%Z \/ CarState.readdistancelines CS = 3%Z)) /\
  exists TR2 s1,
    LongitudinalMpc.update_TR CS2 self = (Ok TR2, s1) /\
    LongitudinalMpc.lastTR s1 = LongitudinalMpc.lastTR self /\
    LongitudinalMpc.update_TR CS1 s1
    = (Ok (if (LongitudinalMpc.lastTR self =? 1)%Z then Num 0.9 else Num 2.7), s1) /\
    (libmpc_init MPC_COST_LONG_TTC (LongitudinalMpc.generate_cost TR2)
       MPC_COST_LONG_ACCELERATION MPC_COST_LONG_JERK (LongitudinalMpc.libmpc self)
     = LongitudinalMpc.libmpc s1
     \/ LongitudinalMpc.libmpc self = LongitudinalMpc.libmpc s1).
Proof.
  intros Hv2 Hv1 Hm2 Hm1 Hlast. split.
  { intros CS TR s'. unfold LongitudinalMpc.update_TR.
    destruct (CarState.vEgo CS <? 2.0)%fl.
    { intros E Hne. exfalso. apply Hne. unfold ret in E. injection E as _ <-. reflexivity. }
    destruct (CarState.readdistancelines CS =? 1)%Z eqn:E1.
    { apply Z.eqb_eq in E1. rewrite bind_get.
      destruct (CarState.readdistancelines CS =? LongitudinalMpc.lastTR self)%Z.
      - intros E Hne. exfalso. apply Hne. unfold ret in E. injection E as _ <-. reflexivity.
      - rewrite bind_modify. unfold ret. intros E _. injection E as _ <-.
        destruct self. simpl_upd. split; [reflexivity | left; exact E1]. }
    destruct (CarState.readdistancelines CS =? 2)%Z eqn:E2.
    { rewrite bind_get. unfold when.
      destruct (_ >? 0.2)%fl.
      - rewrite bind_modify. unfold ret. intros E Hne. exfalso. apply Hne.
        injection E as _ <-. destruct self. reflexivity.
      - rewrite bind_ret. unfold ret. intros E Hne. exfalso. apply Hne.
        injection E as _ <-. reflexivity. }
    destruct (CarState.readdistancelines CS =? 3)%Z eqn:E3.
    { apply Z.eqb_eq in E3. rewrite bind_get.
      destruct (CarState.readdistancelines CS =? LongitudinalMpc.lastTR self)%Z.
      - intros E Hne. exfalso. apply Hne. unfold ret in E. injection E as _ <-. reflexivity.
      - rewrite bind_modify. unfold ret. intros E _. injection E as _ <-.
        destruct self. simpl_upd. split; [reflexivity | right; exact E3]. }
    intros E Hne. exfalso. apply Hne. unfold ret in E. injection E as _ <-. reflexivity. }
  assert (H2 : exists TR2 s1,
    LongitudinalMpc.update_TR CS2 self = (Ok TR2, s1) /\
    LongitudinalMpc.lastTR s1 = LongitudinalMpc.lastTR self /\
    (libmpc_init MPC_COST_LONG_TTC (LongitudinalMpc.generate_cost TR2)
       MPC_COST_LONG_ACCELERATION MPC_COST_LONG_JERK (LongitudinalMpc.libmpc self)
     = LongitudinalMpc.libmpc s1
     \/ LongitudinalMpc.libmpc self = LongitudinalMpc.libmpc s1)).
  { unfold LongitudinalMpc.update_TR. rewrite Hv2, Hm2.
    change (2 =? 1)%Z with false. change (2 =? 2)%Z with true. cbv iota.
    rewrite bind_get. unfold when.
    destruct (_ >? 0.2)%fl; do 2 eexists; (split; [reflexivity |]);
      destruct self; simpl_upd; (split; [reflexivity |]);
      ((left; reflexivity) || (right; reflexivity)). }
  destruct H2 as (TR2 & s1 & E2 & HL & Hlib).
  assert (H1 : LongitudinalMpc.update_TR CS1 s1
               = (Ok (if (LongitudinalMpc.lastTR self =? 1)%Z then Num 0.9 else Num 2.7),
                  s1)).
  { unfold LongitudinalMpc.update_TR. rewrite Hv1, Hm1, <- HL.
    rewrite <- HL in Hlast.
    destruct Hlast as [E | E]; rewrite E; cbn [Z.eqb Pos.eqb]; rewrite bind_get, E;
      cbn [Z.eqb Pos.eqb]; reflexivity. }
  exists TR2, s1. split; [exact E2 |]. split; [exact HL |]. split; [exact H1 | exact Hlib].
Qed.

(** Setting 2 and then setting 1, on a wrapper that last initialised the
    solver for setting 1: the second call returns 0.9 and changes nothing. *)
Lemma update_TR_mode_memory_witness :
  exists TR2 s1,
    LongitudinalMpc.update_TR (H := Double.zero_solver)
      ((Double.car_state (Num 10)) <| CarState.readdistancelines := 2%Z |>)
      ((LongitudinalMpc.init 1) <| LongitudinalMpc.lastTR := 1%Z |>) = (Ok TR2, s1) /\
    LongitudinalMpc.lastTR s1 = 1%Z /\
    LongitudinalMpc.update_TR
      ((Double.car_state (Num 10)) <| CarState.readdistancelines := 1%Z |>) s1
    = (Ok (Num 0.9), s1).
Proof.
  destruct (update_TR_mode_memory (H := Double.zero_solver)
              ((Double.car_state (Num 10)) <| CarState.readdistancelines := 2%Z |>)
              ((Double.car_state (Num 10)) <| CarState.readdistancelines := 1%Z |>)
              ((LongitudinalMpc.init 1) <| LongitudinalMpc.lastTR := 1%Z |>))
    as (_ & TR2 & s1 & E2 & HL & E1 & _);
    [simpl_upd; apply bool_decide_eq_false_2; lra
    | simpl_upd; apply bool_decide_eq_false_2; lra
    | reflexivity | reflexivity | left; reflexivity |].
  exists TR2, s1. split; [exact E2 |]. split; [exact HL | exact E1].
Defined.

(** X18. A call of [LongitudinalMpc.update] without a present lead ends
    with [prev_lead_status] false; if the solution has no NaN speed, it is
    never reset: [v_mpc], [a_mpc] and [v_mpc_future] are read from the
    solution (entries 1, 1 and 10), also when the solution runs backwards or
    through the faked lead, and no warning is logged. *)
Theorem update_no_lead_keeps_solution `{Collaborators} (CS : CarState.t)
  (lead : option Lead.t) (v_cruise_setpoint : float) (t_now t_done : R)
  (self : LongitudinalMpc.t) :
  LongitudinalMpc.present lead = None ->
  exists self',
    LongitudinalMpc.update CS lead v_cruise_setpoint t_now t_done self = (Ok tt, self') /\
    LongitudinalMpc.prev_lead_status self' = false /\
    (existsb isnan (carray_list (log_t.v_ego (LongitudinalMpc.mpc_solution self'))) = false ->
     LongitudinalMpc.v_mpc self' = log_t.v_ego (LongitudinalMpc.mpc_solution self') 1%nat /\
     LongitudinalMpc.a_mpc self' = log_t.a_ego (LongitudinalMpc.mpc_solution self') 1%nat /\
     LongitudinalMpc.v_mpc_future self'
     = log_t.v_ego (LongitudinalMpc.mpc_solution self') 10%nat /\
     LongitudinalMpc.cloudlog self' = LongitudinalMpc.cloudlog self).
Proof.
  intros Hlead. unfold LongitudinalMpc.update. rewrite bind_modify.
  set (s0 := self <| LongitudinalMpc.cur_state := _ |>).
  assert (Hbranch :
    match lead with
    | Some l =>
      if Lead.status l then LongitudinalMpc.update_lead l else LongitudinalMpc.update_no_lead CS
    | None => LongitudinalMpc.update_no_lead CS
    end = LongitudinalMpc.update_no_lead CS).
  { unfold LongitudinalMpc.present in Hlead.
    destruct lead as [l |]; [| reflexivity]. destruct (Lead.status l); [discriminate | reflexivity]. }
  rewrite Hbranch.
  destruct (LongitudinalMpc.update_no_lead CS s0) as [r1 s1] eqn:E1.
  assert (H1 : r1 = Ok (Num 0.0) /\ LongitudinalMpc.prev_lead_status s1 = false /\
               LongitudinalMpc.cloudlog s1 = LongitudinalMpc.cloudlog self).
  { subst s0. destruct self. unfold LongitudinalMpc.update_no_lead, bind, modify, ret in E1.
    injection E1 as <- <-. repeat split. }
  destruct H1 as (-> & Hp1 & Hc1).
  rewrite (bind_ok _ _ _ _ _ E1).
  destruct (update_TR_spec CS s1) as (TR & s2 & E2 & _).
  rewrite (bind_ok _ _ _ _ _ E2). rewrite bind_get.
  assert (H2 : LongitudinalMpc.prev_lead_status s2 = false /\
               LongitudinalMpc.cloudlog s2 = LongitudinalMpc.cloudlog self).
  { pose proof (update_TR_frame CS s1) as F. rewrite E2 in F. cbn [snd] in F.
    destruct F as (_ & Fc & _).
    split; [| congruence].
    clear - E2 Hp1. unfold LongitudinalMpc.update_TR in E2.
    destruct (_ <? 2.0)%fl; [injection E2 as _ <-; exact Hp1 |].
    destruct (_ =? 1)%Z.
    { rewrite bind_get in E2. destruct (_ =? _)%Z; destruct s1;
        injection E2 as _ <-; exact Hp1. }
    destruct (_ =? 2)%Z.
    { rewrite bind_get in E2. unfold when in E2. destruct (_ >? 0.2)%fl; destruct s1;
        injection E2 as _ <-; exact Hp1. }
    destruct (_ =? 3)%Z.
    { rewrite bind_get in E2. destruct (_ =? _)%Z; destruct s1;
        injection E2 as _ <-; exact Hp1. }
    injection E2 as _ <-; exact Hp1. }
  destruct H2 as (Hp2 & Hc2).
  destruct (libmpc_run_mpc _ _ _ _ _ _) as [[[sv cs] sol] n_its] eqn:Erun.
  rewrite !bind_modify.
  match goal with |- context [LongitudinalMpc.update_reset CS t_now ?s] => set (s3 := s) end.
  assert (H3 : LongitudinalMpc.prev_lead_status s3 = false /\
               LongitudinalMpc.cloudlog s3 = LongitudinalMpc.cloudlog self /\
               LongitudinalMpc.mpc_solution s3 = sol /\
               LongitudinalMpc.v_mpc s3 = log_t.v_ego sol 1%nat /\
               LongitudinalMpc.a_mpc s3 = log_t.a_ego sol 1%nat /\
               LongitudinalMpc.v_mpc_future s3 = log_t.v_ego sol 10%nat).
  { subst s3. unfold LongitudinalMpc.send_mpc_solution. destruct s2.
    cbn in Hp2, Hc2. subst. repeat split. }
  destruct H3 as (Hp3 & Hc3 & Hs3 & Hv3 & Ha3 & Hf3).
  clearbody s3.
  destruct (existsb isnan (carray_list (log_t.v_ego sol))) eqn:Hnan.
  - destruct (update_reset_spec CS t_now s3) as (s4 & E4 & Hsol & _ & Hn).
    exists s4. split; [exact E4 |]. rewrite Hs3 in Hn.
    split; [apply Hn; exact Hnan |]. rewrite Hsol, Hs3, Hnan. discriminate.
  - unfold LongitudinalMpc.update_reset.
    rewrite bind_get, Hp3, andb_false_r, orb_false_l, Hs3, Hnan. unfold when at 1.
    exists s3. split; [reflexivity |]. split; [exact Hp3 |]. intros _.
    rewrite Hs3. repeat split; assumption.
Qed.

Lemma update_no_lead_keeps_solution_witness :
  LongitudinalMpc.present None = None /\
  exists self',
    LongitudinalMpc.update (H := Double.zero_solver) (Double.car_state (Num 10)) None
      (Num 30) 0 0 (LongitudinalMpc.init 1) = (Ok tt, self') /\
    LongitudinalMpc.prev_lead_status self' = false /\
    (existsb isnan (carray_list (log_t.v_ego (LongitudinalMpc.mpc_solution self'))) = false ->
     LongitudinalMpc.v_mpc self' = log_t.v_ego (LongitudinalMpc.mpc_solution self') 1%nat /\
     LongitudinalMpc.a_mpc self' = log_t.a_ego (LongitudinalMpc.mpc_solution self') 1%nat /\
     LongitudinalMpc.v_mpc_future self'
     = log_t.v_ego (LongitudinalMpc.mpc_solution self') 10%nat /\
     LongitudinalMpc.cloudlog self'
     = LongitudinalMpc.cloudlog (LongitudinalMpc.init (H := Double.zero_solver) 1)).
Proof.
  split; [reflexivity |].
  exact (update_no_lead_keeps_solution (H := Double.zero_solver) (Double.car_state (Num 10))
           None (Num 30) 0 0 (LongitudinalMpc.init 1) eq_refl).
Defined.
